(** * Verification of the research data pipeline

    A shallow embedding of [research-pipeline/data/create_universe.py] and
    [research-pipeline/main_pipeline.py].

    Conventions of the embedding:
    - a pandas DataFrame whose columns are fixed by the code is a list of
      records, in row order; a DataFrame whose columns depend on the data is
      a [DataFrame] (column names and rows of cells);
    - a float is an exact rational ([Q]), and where the rounding of a
      computed float decides a property, a binary64 of [SpecFloat]; NaN in
      a column is [None];
    - a normalized [pd.Timestamp] is a [Date] (year, month, day);
    - a Python dict is a [gmap] when only lookups matter and an association
      list in insertion order when iteration order matters;
    - code that talks to the outside (HTTP, the cache tiers) threads an
      explicit world state and appends to a trace of events.

    Part I holds the definitions, one module per component; Part II holds
    the properties, in a module of facts per component. *)

From stdpp Require Import gmap strings.
From Stdlib Require Import ZArith QArith Qround String Ascii Bool Lia Permutation Sorted List.
From Stdlib Require OrderedTypeEx SpecFloat.
Import ListNotations.

Open Scope Z_scope.

(** * Part I: the embedding of the code *)

(** ** Dates and monthly periods *)

Module Calendar.

(** A normalized [pd.Timestamp]: a calendar day. *)
Record Date := mkDate { year : Z; month : Z; day : Z }.

(** A monthly [pd.Period], as produced by [.dt.to_period('M')]. *)
Record Period := mkPeriod { p_year : Z; p_month : Z }.

#[global] Instance Date_eq_dec : EqDecision Date.
Proof. solve_decision. Defined.

#[global] Instance Period_eq_dec : EqDecision Period.
Proof. solve_decision. Defined.

Definition lex (c1 c2 : comparison) : comparison :=
  match c1 with Eq => c2 | _ => c1 end.

Definition date_compare (a b : Date) : comparison :=
  lex (year a ?= year b) (lex (month a ?= month b) (day a ?= day b)).

Definition date_leb (a b : Date) : bool :=
  match date_compare a b with Gt => false | _ => true end.

Definition date_ltb (a b : Date) : bool :=
  match date_compare a b with Lt => true | _ => false end.

Definition date_eqb (a b : Date) : bool :=
  match date_compare a b with Eq => true | _ => false end.

Definition period_compare (a b : Period) : comparison :=
  lex (p_year a ?= p_year b) (p_month a ?= p_month b).

Definition period_eqb (a b : Period) : bool :=
  match period_compare a b with Eq => true | _ => false end.

(** [date.dt.to_period('M')] *)
Definition to_period (d : Date) : Period := mkPeriod (year d) (month d).

(** [month.to_timestamp()]: the first calendar day of the month. *)
Definition to_timestamp (p : Period) : Date := mkDate (p_year p) (p_month p) 1.

Definition next_period (p : Period) : Period :=
  if p_month p =? 12 then mkPeriod (p_year p + 1) 1
  else mkPeriod (p_year p) (p_month p + 1).

(** [d] is dated no later than the last day of [p], that is, strictly
    before the first day of the month that follows [p]. *)
Definition within_end_of (p : Period) (d : Date) : bool :=
  date_ltb d (to_timestamp (next_period p)).

(** The calendar day of a count of days since 1970-01-01, as
    [pd.to_datetime(..., unit=...)] followed by [.normalize()] computes it
    (proleptic Gregorian calendar). *)
Definition date_of_days (days : Z) : Date :=
  let z := days + 719468 in
  let era := z / 146097 in
  let doe := z - era * 146097 in
  let yoe := (doe - doe / 1460 + doe / 36524 - doe / 146096) / 365 in
  let doy := doe - (365 * yoe + yoe / 4 - yoe / 100) in
  let mp := (5 * doy + 2) / 153 in
  let d := doy - (153 * mp + 2) / 5 + 1 in
  let m := if mp <? 10 then mp + 3 else mp - 9 in
  let y := yoe + era * 400 in
  mkDate (if m <=? 2 then y + 1 else y) m d.

(** *** The end of a period as a calendar day *)

Definition is_leap (y : Z) : bool :=
  (y mod 4 =? 0) && (negb (y mod 100 =? 0) || (y mod 400 =? 0)).

Definition days_in_month (y m : Z) : Z :=
  if m =? 2 then (if is_leap y then 29 else 28)
  else if (m =? 4) || (m =? 6) || (m =? 9) || (m =? 11) then 30
  else 31.

(** The last calendar day of a period. *)
Definition last_day (p : Period) : Date :=
  mkDate (p_year p) (p_month p) (days_in_month (p_year p) (p_month p)).

(** The dates a timestamp can hold. *)
Definition valid_date (d : Date) : Prop :=
  1 <= month d <= 12 /\ 1 <= day d <= days_in_month (year d) (month d).

End Calendar.

(** ** Group keys of a pandas [groupby]

    [df.groupby(keys)] (with the default [sort=True]) yields one group per
    distinct key, the groups in ascending key order. *)

Section GroupKeys.
Context {K : Type} (cmp : K -> K -> comparison).

Fixpoint insert_key (k : K) (l : list K) : list K :=
  match l with
  | [] => [k]
  | x :: t =>
      match cmp k x with
      | Lt => k :: l
      | Eq => l
      | Gt => x :: insert_key k t
      end
  end.

Definition group_keys (l : list K) : list K := fold_right insert_key [] l.

Definition key_lt (a b : K) : Prop := cmp a b = Lt.

End GroupKeys.

(** ** Universe construction: [data/create_universe.py] *)

Module Universe.
Import Calendar.

Definition START_DATE : Date := mkDate 2022 1 1.
Definition UNIVERSE_SIZE : nat := 200.

(** One row of a candidate's history frame, as returned by
    [process_market_data_to_df]: columns [date], [coin_id], [market_cap]. *)
Record Row := mkRow { date : Date; coin_id : string; market_cap : option Q }.

(** A row of [master_df] once rows with a missing market cap are dropped. *)
Record CapRow := mkCapRow { c_date : Date; c_coin : string; c_cap : Q }.

(** A row of [monthly_avg_mcap]: columns [month], [coin_id], [market_cap]. *)
Record AvgRow := mkAvgRow { a_month : Period; a_coin : string; a_mcap : Q }.

(** [process_market_data_to_df] on the [market_caps] series of the raw
    data, a list of (timestamp in ms, market cap or null); without points
    the result is [pd.DataFrame()]. *)
Definition process_market_data_to_df (market_caps : list (Z * option Q)) (coin_id : string)
  : list Row :=
  map (fun pt => mkRow (date_of_days (fst pt / 86400000)) coin_id (snd pt)) market_caps.

(** Step 5: the histories of the candidates whose fetch returned data, in
    candidate order; [get_cg_market_data] stands for the fetch with its
    retries. *)
Definition fetch_all_histories (get_cg_market_data : string -> option (list (Z * option Q)))
    (candidate_ids : list string) : list (list Row) :=
  flat_map (fun coin_id =>
              match get_cg_market_data coin_id with
              | Some raw_data => [process_market_data_to_df raw_data coin_id]
              | None => []
              end) candidate_ids.

(** [master_df = pd.concat(all_histories, ignore_index=True)] *)
Definition concat_histories (all_histories : list (list Row)) : list Row :=
  List.concat all_histories.

(** [master_df[master_df['date'] >= pd.to_datetime(START_DATE)]] *)
Definition from_start_date (df : list Row) : list Row :=
  List.filter (fun r => date_leb START_DATE (date r)) df.

(** [master_df.dropna(subset=['market_cap'])] *)
Definition dropna_market_cap (df : list Row) : list CapRow :=
  flat_map (fun r => match market_cap r with
                     | Some v => [mkCapRow (date r) (coin_id r) v]
                     | None => []
                     end) df.

(** The group key of [groupby(['month', 'coin_id'])], with
    [month = date.dt.to_period('M')]. *)
Definition GroupKey : Type := Period * string.

Definition group_key (r : CapRow) : GroupKey := (to_period (c_date r), c_coin r).

Definition group_key_compare (a b : GroupKey) : comparison :=
  lex (period_compare (fst a) (fst b)) (String.compare (snd a) (snd b)).

Definition group_key_eqb (a b : GroupKey) : bool :=
  match group_key_compare a b with Eq => true | _ => false end.

Definition sum (l : list Q) : Q := fold_right Qplus 0%Q l.

(** [Series.mean()] of a group, computed exactly.  The script computes it
    in binary64, with a summation that depends on the dtype of the column;
    [UniverseBinary64] embeds that, for the properties that depend on how
    the mean is rounded. *)
Definition mean (l : list Q) : Q := (sum l / inject_Z (Z.of_nat (List.length l)))%Q.

(** [master_df.groupby(['month','coin_id'])['market_cap'].mean().reset_index()] *)
Definition monthly_avg_mcap (df : list CapRow) : list AvgRow :=
  map (fun k => mkAvgRow (fst k) (snd k)
                 (mean (map c_cap (List.filter (fun r => group_key_eqb (group_key r) k) df))))
      (group_keys group_key_compare (map group_key df)).

(** [x] is in the month of [r] with a strictly larger average. *)
Definition outranks (r x : AvgRow) : bool :=
  period_eqb (a_month x) (a_month r)
  && match Qcompare (a_mcap r) (a_mcap x) with Lt => true | _ => false end.

(** [x] is in the month of [r] with an equal average. *)
Definition ties_with (r x : AvgRow) : bool :=
  period_eqb (a_month x) (a_month r)
  && match Qcompare (a_mcap r) (a_mcap x) with Eq => true | _ => false end.

(** [groupby('month')['market_cap'].rank(method='first', ascending=False)]
    for the row [r] of the frame [all], [seen] being the rows above [r]:
    one more than the number of rows of its month with a larger value, plus
    the number of rows of its month above it with an equal value. *)
Definition rank_first_desc (all seen : list AvgRow) (r : AvgRow) : nat :=
  S (List.length (List.filter (outranks r) all)
     + List.length (List.filter (ties_with r) seen)).

Fixpoint assign_ranks (all seen rest : list AvgRow) : list (AvgRow * nat) :=
  match rest with
  | [] => []
  | r :: rest' => (r, rank_first_desc all seen r) :: assign_ranks all (seen ++ [r]) rest'
  end.

(** [monthly_avg_mcap] with its [rank] column. *)
Definition with_rank (df : list AvgRow) : list (AvgRow * nat) :=
  assign_ranks df [] df.

(** [monthly_avg_mcap[monthly_avg_mcap['rank'] <= UNIVERSE_SIZE]] *)
Definition top_n (n : nat) (df : list (AvgRow * nat)) : list (AvgRow * nat) :=
  List.filter (fun x => Nat.leb (snd x) n) df.

Definition in_month (m : Period) (x : AvgRow * nat) : bool :=
  period_eqb (a_month (fst x)) m.

(** The loop over [top_n_df.groupby('month')]: one entry per month, in
    ascending month order, keyed by the first day of the month (written
    ['%Y-%m-01'] in the artifact), holding [group['coin_id'].tolist()]. *)
Definition universe_dict (top_n_df : list (AvgRow * nat)) : list (Date * list string) :=
  map (fun m => (to_timestamp m,
                 map (fun x => a_coin (fst x)) (List.filter (in_month m) top_n_df)))
      (group_keys period_compare (map (fun x => a_month (fst x)) top_n_df)).

(** The ranked table, step 6 of the script up to the [rank] column. *)
Definition ranked_table (master_df : list Row) : list (AvgRow * nat) :=
  with_rank (monthly_avg_mcap (dropna_market_cap (from_start_date master_df))).

(** Step 6 of the script as a function of the concatenated histories and
    of the universe size. *)
Definition point_in_time_universe (n : nat) (master_df : list Row)
  : list (Date * list string) :=
  universe_dict (top_n n (ranked_table master_df)).

(** How the main block ends, from the fetched histories on. *)
Inductive RunResult :=
| UniverseSaved (universe : list (Date * list string))
| SystemExit
| KeyErrorRaised.

Definition no_rows (history : list Row) : bool :=
  match history with
  | [] => true
  | _ => false
  end.

(** The main block from the histories on.  It exits when no history was
    fetched.  A history without rows is a frame without columns
    ([pd.DataFrame()]); when every history is one, so is their
    concatenation, and reading its [date] column raises.  Otherwise the
    universe is computed with [UNIVERSE_SIZE] and saved. *)
Definition create_universe (all_histories : list (list Row)) : RunResult :=
  match all_histories with
  | [] => SystemExit
  | _ =>
      if forallb no_rows all_histories then KeyErrorRaised
      else UniverseSaved
             (point_in_time_universe UNIVERSE_SIZE (concat_histories all_histories))
  end.

(** The entry of month [p] in a universe, if any. *)
Fixpoint snapshot (u : list (Date * list string)) (p : Period) : option (list string) :=
  match u with
  | [] => None
  | (k, coins) :: u' => if date_eqb k (to_timestamp p) then Some coins else snapshot u' p
  end.

(** The rank given to an asset in a month, if it has one. *)
Fixpoint rank_of (t : list (AvgRow * nat)) (p : Period) (coin : string) : option nat :=
  match t with
  | [] => None
  | (r, k) :: t' =>
      if period_eqb (a_month r) p && String.eqb (a_coin r) coin then Some k
      else rank_of t' p coin
  end.

(** The monthly average of an asset, if it has rows in the month. *)
Fixpoint average_of (t : list (AvgRow * nat)) (p : Period) (coin : string) : option Q :=
  match t with
  | [] => None
  | (r, _) :: t' =>
      if period_eqb (a_month r) p && String.eqb (a_coin r) coin then Some (a_mcap r)
      else average_of t' p coin
  end.

(** The scenario of two months and three assets, one daily value each. *)
Definition scenario : list Row :=
  [ mkRow (mkDate 2022 1 10) "A" (Some 100%Q); mkRow (mkDate 2022 2 10) "A" (Some 110%Q);
    mkRow (mkDate 2022 1 10) "B" (Some 90%Q);  mkRow (mkDate 2022 2 10) "B" (Some 70%Q);
    mkRow (mkDate 2022 1 10) "C" (Some 80%Q);  mkRow (mkDate 2022 2 10) "C" (Some 95%Q) ].

Definition avg_key (r : AvgRow) : GroupKey := (a_month r, a_coin r).

(** *** Notions used to state the properties *)

(** The rows of month [p] at each step of the calculation. *)
Definition row_in (p : Period) (r : Row) : bool := period_eqb (to_period (date r)) p.
Definition cap_in (p : Period) (r : CapRow) : bool := period_eqb (to_period (c_date r)) p.
Definition avg_in (p : Period) (r : AvgRow) : bool := period_eqb (a_month r) p.

Definition string_lt (a b : string) : Prop := String.compare a b = Lt.

(** *** Sample inputs *)

Definition jan_2022 : Period := mkPeriod 2022 1.
Definition feb_2022 : Period := mkPeriod 2022 2.

(** The scenario with its February values revised and later data added. *)
Definition scenario_revised : list Row :=
  [ mkRow (mkDate 2022 1 10) "A" (Some 100%Q); mkRow (mkDate 2022 2 10) "A" (Some 1%Q);
    mkRow (mkDate 2022 3 1) "A" None;
    mkRow (mkDate 2022 1 10) "B" (Some 90%Q);  mkRow (mkDate 2022 2 10) "B" (Some 500%Q);
    mkRow (mkDate 2022 1 10) "C" (Some 80%Q);
    mkRow (mkDate 2022 2 1) "D" (Some 1000%Q); mkRow (mkDate 2023 1 10) "D" (Some 7%Q) ].

(** Two candidates fetched in the order zeta, alpha, with the same market
    cap on the same day (2022-01-10). *)
Definition tie_histories : list (list Row) :=
  fetch_all_histories (fun _ => Some [ (1641772800000, Some 100%Q) ]) ["zeta"; "alpha"]%string.

End Universe.

(** ** The universe calculation in binary64 arithmetic

    [Universe] computes the monthly averages exactly.  The script computes
    them in floating point, and pandas chooses the summation by the dtype
    of the column: this module embeds the same lines with that arithmetic.
    What depends on pandas and not on the script is taken from pandas 3:
    - [pd.DataFrame(rows, columns=...)] gives a column holding only nulls
      the dtype object, and a column with a number in it the dtype float64
      (a null becomes NaN);
    - [pd.concat] gives [market_cap] the dtype object as soon as one frame
      has it as object (up to pandas 2 a column holding only nulls was left
      out of this decision), and leaves a frame without columns out;
      filtering and [dropna] keep the dtype;
    - on a float64 column the grouped mean is computed by [group_mean],
      with Kahan's compensated summation over the rows of the group in row
      order; on an object column it is computed by [Series.mean] group by
      group, which adds the values with Python's [+] from left to right;
      both divide the sum by the number of values. *)

Module UniverseBinary64.
Import Calendar Universe.

(** *** binary64 *)

(** IEEE 754 binary64 with rounding to nearest, ties to even: 53 bits of
    precision, exponents below 1024. *)
Definition b64_add : SpecFloat.spec_float -> SpecFloat.spec_float -> SpecFloat.spec_float :=
  SpecFloat.SFadd 53 1024.
Definition b64_sub : SpecFloat.spec_float -> SpecFloat.spec_float -> SpecFloat.spec_float :=
  SpecFloat.SFsub 53 1024.
Definition b64_div : SpecFloat.spec_float -> SpecFloat.spec_float -> SpecFloat.spec_float :=
  SpecFloat.SFdiv 53 1024.
Definition b64_zero : SpecFloat.spec_float := SpecFloat.S754_zero false.

(** [float(z)] *)
Definition b64_of_Z (z : Z) : SpecFloat.spec_float :=
  SpecFloat.binary_normalize 53 1024 z 0 false.

(** The float that a JSON number with a fraction or an exponent is read
    as: the binary64 nearest to it (for a numerator and a denominator
    below 2^53, which [float] represents exactly). *)
Definition b64_of_Q (q : Q) : SpecFloat.spec_float :=
  b64_div (b64_of_Z (Qnum q)) (b64_of_Z (Zpos (Qden q))).

(** The rational that a finite float is. *)
Definition Q_of_b64 (f : SpecFloat.spec_float) : Q :=
  match f with
  | SpecFloat.S754_finite s m e =>
      let z := if s then Zneg m else Zpos m in
      match e with
      | Zneg k => Qred (z # (2 ^ k)%positive)
      | _ => inject_Z (z * 2 ^ e)
      end
  | _ => 0%Q
  end.

(** *** The dtype of the [market_cap] column *)

Inductive Dtype := Float64 | Object.

(** The [market_cap] column of the frame that [process_market_data_to_df]
    returns; a history without rows is [pd.DataFrame()], without columns. *)
Definition history_dtype (history : list Row) : Dtype :=
  match history with
  | [] => Float64
  | _ =>
      if forallb (fun r => match market_cap r with None => true | Some _ => false end) history
      then Object else Float64
  end.

Definition is_object (d : Dtype) : bool :=
  match d with
  | Object => true
  | Float64 => false
  end.

(** The [market_cap] column of [master_df]. *)
Definition column_dtype (all_histories : list (list Row)) : Dtype :=
  if existsb (fun history => is_object (history_dtype history)) all_histories
  then Object else Float64.

(** *** The grouped mean *)

(** One row of [group_mean]:
    [y = val - compensation; t = sumx + y;
     compensation = t - sumx - y; sumx = t]. *)
Definition kahan_step (state : SpecFloat.spec_float * SpecFloat.spec_float)
    (val : SpecFloat.spec_float) : SpecFloat.spec_float * SpecFloat.spec_float :=
  let (sumx, compensation) := state in
  let y := b64_sub val compensation in
  let t := b64_add sumx y in
  (t, b64_sub (b64_sub t sumx) y).

Definition float64_sum (values : list SpecFloat.spec_float) : SpecFloat.spec_float :=
  fst (fold_left kahan_step values (b64_zero, b64_zero)).

Definition object_sum (values : list SpecFloat.spec_float) : SpecFloat.spec_float :=
  fold_left b64_add values b64_zero.

(** The mean of the values of a group in a column of dtype [dtype]. *)
Definition column_mean (dtype : Dtype) (values : list Q) : Q :=
  let floats := map b64_of_Q values in
  let total :=
    match dtype with
    | Float64 => float64_sum floats
    | Object => object_sum floats
    end in
  Q_of_b64 (b64_div total (b64_of_Z (Z.of_nat (List.length values)))).

(** *** The calculation *)

(** [master_df.groupby(['month','coin_id'])['market_cap'].mean().reset_index()]
    with the mean [mean_of]. *)
Definition monthly_avg_by (mean_of : list Q -> Q) (df : list CapRow) : list AvgRow :=
  map (fun k => mkAvgRow (fst k) (snd k)
                 (mean_of (map c_cap (List.filter (fun r => group_key_eqb (group_key r) k) df))))
      (group_keys group_key_compare (map group_key df)).

(** The ranked table of step 6, from the fetched histories. *)
Definition ranked_table (all_histories : list (list Row)) : list (AvgRow * nat) :=
  with_rank (monthly_avg_by (column_mean (column_dtype all_histories))
               (dropna_market_cap (from_start_date (concat_histories all_histories)))).

(** Step 6 of the script as a function of the fetched histories and of the
    universe size. *)
Definition point_in_time_universe (n : nat) (all_histories : list (list Row))
  : list (Date * list string) :=
  universe_dict (top_n n (ranked_table all_histories)).

(** Whether the universe lists the asset in the month. *)
Definition listed (universe : list (Date * list string)) (p : Period) (coin : string) : bool :=
  match snapshot universe p with
  | Some coins => existsb (String.eqb coin) coins
  | None => false
  end.

(** *** A run with 201 candidates *)

Definition jan10_ms : Z := 1641772800000.
Definition day_ms : Z := 86400000.

Definition three_digits (i : nat) : string :=
  String (ascii_of_nat (48 + i / 100))
    (String (ascii_of_nat (48 + (i / 10) mod 10))
       (String (ascii_of_nat (48 + i mod 10)) EmptyString)).

(** 199 large assets, [big001] to [big199]. *)
Definition big_ids : list string :=
  map (fun i => ("big" ++ three_digits i)%string) (seq 1 199).

Definition is_big (coin_id : string) : bool := String.prefix "big" coin_id.

(** What CoinGecko answers: one January value for each large asset and
    for [bbb], three January values for [aaa], and for [ccc], listed in
    February, one point without a market cap. *)
Definition market_caps_of (coin_id : string) : option (list (Z * option Q)) :=
  if is_big coin_id then Some [ (jan10_ms, Some 1000000000.5%Q) ]
  else if String.eqb coin_id "aaa" then
    Some [ (jan10_ms, Some 72761900.8%Q);
           (jan10_ms + day_ms, Some 46904434.4%Q);
           (jan10_ms + 2 * day_ms, Some 47693357.7%Q) ]
  else if String.eqb coin_id "bbb" then Some [ (jan10_ms, Some 55786564.3%Q) ]
  else if String.eqb coin_id "ccc" then Some [ (jan10_ms + 31 * day_ms, None) ]
  else None.

(** The histories of a run before [ccc] is a candidate, and of a run with
    it. *)
Definition histories_before : list (list Row) :=
  fetch_all_histories market_caps_of (big_ids ++ ["aaa"; "bbb"]%string).

Definition histories_after : list (list Row) :=
  fetch_all_histories market_caps_of (big_ids ++ ["aaa"; "bbb"; "ccc"]%string).

End UniverseBinary64.

(** ** Row-level frame operations shared by the assembly *)

Section DropDuplicates.
Context {A K : Type} `{EqDecision K} (key : A -> K).

(** [df.drop_duplicates(subset=key, keep='last')]: a row stays when no row
    below it has the same key; the rows that stay keep their order. *)
Fixpoint drop_duplicates_last (df : list A) : list A :=
  match df with
  | [] => []
  | x :: rest =>
      if existsb (fun y => bool_decide (key y = key x)) rest
      then drop_duplicates_last rest
      else x :: drop_duplicates_last rest
  end.

End DropDuplicates.

Section SortValues.
Context {A : Type} (cmp : A -> A -> comparison).

Fixpoint insert_sorted (x : A) (l : list A) : list A :=
  match l with
  | [] => [x]
  | y :: t =>
      match cmp x y with
      | Gt => y :: insert_sorted x t
      | _ => x :: l
      end
  end.

(** [df.sort_values(by=...)] as a stable sort on the comparison of the
    [by] columns: rows with equal keys keep their input order (a row is
    inserted in front of the rows below it that compare equal). *)
Definition sort_values (df : list A) : list A := fold_right insert_sorted [] df.

End SortValues.

(** ** Dataset assembly: the main block of [main_pipeline.py] *)

Module Assembler.
Import Calendar.

Definition START_DATE : Date := mkDate 2022 1 1.

(** [canonical_map] of the final combination step. *)
Definition canonical_map : gmap string string :=
  <["binance-peg-weth" := "weth"]>
    (<["wrapped-steth" := "staked-ether"]>
       (<["wrapped-bitcoin" := "bitcoin"]> ∅)).

(** [coin_id.map(canonical_map).fillna(coin_id)] for one id. *)
Definition canonical (coin : string) : string :=
  match canonical_map !! coin with
  | Some c => c
  | None => coin
  end.

Section Panel.
(** The columns of a history row other than [date] and [coin_id]. *)
Variable Payload : Type.

(** A row of an asset's merged history frame. *)
Record Obs := mkObs { date : Date; coin_id : string; payload : Payload }.

(** A row of [master_df] once it has its [canonical_id] column. *)
Record PanelRow := mkPanelRow { obs : Obs; canonical_id : string }.

(** What the final step does: write [master_df] to [OUTPUT_FILE] and report
    completion, or report failure and write nothing. *)
Inductive Outcome :=
| Saved (master_df : list PanelRow)
| Failed.

(** [sorted(list(set(coin for coin_list in universe.values() for coin in coin_list)))] *)
Definition all_unique_coins (universe : list (Date * list string)) : list string :=
  group_keys String.compare (flat_map snd universe).

(** Stage 1: fetch every asset once and keep the non-empty histories. *)
Definition fetch_all_histories (fetch : string -> list Obs) (coins : list string)
  : gmap string (list Obs) :=
  fold_left (fun cache coin =>
               match fetch coin with
               | [] => cache
               | coin_df => <[coin := coin_df]> cache
               end) coins ∅.

(** [full_coin_history[full_coin_history['date'] <= period_date]] *)
Definition point_in_time_slice (period_date : Date) (history : list Obs) : list Obs :=
  List.filter (fun r => date_leb (date r) period_date) history.

(** Stage 2: one slice per (period, asset) pair whose asset has a history. *)
Definition assemble_periods (universe : list (Date * list string))
    (full_history_cache : gmap string (list Obs)) : list (list Obs) :=
  flat_map (fun entry =>
              flat_map (fun coin =>
                          match full_history_cache !! coin with
                          | Some history => [point_in_time_slice (fst entry) history]
                          | None => []
                          end) (snd entry)) universe.

Definition raw_key (r : Obs) : string * Date := (coin_id r, date r).
Definition panel_key (r : PanelRow) : string * Date := (canonical_id r, date (obs r)).

Definition panel_compare (a b : PanelRow) : comparison :=
  lex (String.compare (canonical_id a) (canonical_id b))
      (date_compare (date (obs a)) (date (obs b))).

(** [master_df[master_df['date'] >= pd.to_datetime(START_DATE)]] of the
    concatenated slices. *)
Definition from_start_date (all_period_data : list (list Obs)) : list Obs :=
  List.filter (fun r => date_leb START_DATE (date r)) (List.concat all_period_data).

(** The frame after the first deduplication and the [canonical_id] column. *)
Definition canonicalized (all_period_data : list (list Obs)) : list PanelRow :=
  map (fun r => mkPanelRow r (canonical (coin_id r)))
      (drop_duplicates_last raw_key (from_start_date all_period_data)).

(** Step 8: the final combination, cleaning and saving. *)
Definition final_combination (all_period_data : list (list Obs)) : Outcome :=
  match all_period_data with
  | [] => Failed
  | _ => Saved (sort_values panel_compare
                  (drop_duplicates_last panel_key (canonicalized all_period_data)))
  end.

(** Stages 2 and 8 from the universe and the fetched histories. *)
Definition assemble_dataset (universe : list (Date * list string))
    (full_history_cache : gmap string (list Obs)) : Outcome :=
  final_combination (assemble_periods universe full_history_cache).

(** The main block from the loaded universe on, [fetch] standing for the
    call of [fetch_and_cache_coin_history] on one asset. *)
Definition run_pipeline (fetch : string -> list Obs)
    (universe : list (Date * list string)) : Outcome :=
  assemble_dataset universe (fetch_all_histories fetch (all_unique_coins universe)).

End Panel.

Arguments mkObs {Payload}.
Arguments date {Payload}.
Arguments coin_id {Payload}.
Arguments payload {Payload}.
Arguments mkPanelRow {Payload}.
Arguments obs {Payload}.
Arguments canonical_id {Payload}.
Arguments Saved {Payload}.
Arguments Failed {Payload}.
Arguments fetch_all_histories {Payload}.
Arguments point_in_time_slice {Payload}.
Arguments assemble_periods {Payload}.
Arguments panel_key {Payload}.
Arguments from_start_date {Payload}.
Arguments canonicalized {Payload}.
Arguments final_combination {Payload}.
Arguments assemble_dataset {Payload}.
Arguments run_pipeline {Payload}.

(** Wrapped bitcoin and bitcoin on the same day, bitcoin listed in two
    periods, and a row before the start date. *)
Definition sample_universe : list (Date * list string) :=
  [ (mkDate 2022 1 1, ["bitcoin"; "wrapped-bitcoin"]%string);
    (mkDate 2022 2 1, ["bitcoin"]%string) ].

Definition sample_histories : gmap string (list (Obs Q)) :=
  <["bitcoin" := [ mkObs (mkDate 2021 12 31) "bitcoin" 46000%Q;
                   mkObs (mkDate 2022 1 1) "bitcoin" 47000%Q;
                   mkObs (mkDate 2022 1 2) "bitcoin" 47500%Q ]]>
    (<["wrapped-bitcoin" := [ mkObs (mkDate 2022 1 1) "wrapped-bitcoin" 46900%Q ]]> ∅).

(** A universe whose only period lists an asset that began trading in the
    middle of that month. *)
Definition late_universe : list (Date * list string) :=
  [ (mkDate 2022 1 1, ["newcoin"]%string) ].

Definition late_histories : gmap string (list (Obs Q)) :=
  <["newcoin" := [ mkObs (mkDate 2022 1 15) "newcoin" 5%Q ]]> ∅.

End Assembler.

(** ** Frames with data-dependent columns

    The frames of [main_pipeline.py] get their columns from what each source
    returned.  A frame is its column names and its rows; a row holds one
    cell per column, in column order. *)

Module Pandas.
Import Calendar.

Inductive Cell :=
| NaN
| Num (q : Q)
| Str (s : string)
| Day (d : Date).

Record DataFrame := mkFrame { columns : list string; rows : list (list Cell) }.

(** [pd.DataFrame()] *)
Definition empty_frame : DataFrame := mkFrame [] [].

(** [df.empty]: some axis has length zero. *)
Definition is_empty (df : DataFrame) : bool :=
  match columns df, rows df with
  | [], _ => true
  | _, [] => true
  | _, _ => false
  end.

Definition cell_eqb (a b : Cell) : bool :=
  match a, b with
  | NaN, NaN => true
  | Num p, Num q => Qeq_bool p q
  | Str s, Str t => String.eqb s t
  | Day d, Day e => date_eqb d e
  | _, _ => false
  end.

(** Order of the join keys in an outer merge; a missing key sorts last. *)
Definition cell_compare (a b : Cell) : comparison :=
  match a, b with
  | Day d, Day e => date_compare d e
  | Num p, Num q => Qcompare p q
  | Str s, Str t => String.compare s t
  | NaN, NaN => Eq
  | NaN, _ => Gt
  | _, NaN => Lt
  | _, _ => Eq
  end.

Definition has_column (cols : list string) (c : string) : bool :=
  existsb (String.eqb c) cols.

Fixpoint index_of (c : string) (cols : list string) : option nat :=
  match cols with
  | [] => None
  | c' :: rest => if String.eqb c c' then Some 0%nat else option_map S (index_of c rest)
  end.

(** The cell of row [r] under column [c]. *)
Definition cell_at (cols : list string) (r : list Cell) (c : string) : Cell :=
  match index_of c cols with
  | Some i => nth i r NaN
  | None => NaN
  end.

Fixpoint set_nth (i : nat) (v : Cell) (r : list Cell) : list Cell :=
  match r, i with
  | [], _ => []
  | _ :: t, O => v :: t
  | x :: t, S j => x :: set_nth j v t
  end.

(** [df[c] = f(row)]: the column is overwritten in place when it exists and
    appended otherwise. *)
Definition assign (c : string) (f : (string -> Cell) -> Cell) (df : DataFrame) : DataFrame :=
  match index_of c (columns df) with
  | Some i =>
      mkFrame (columns df)
        (map (fun r => set_nth i (f (cell_at (columns df) r)) r) (rows df))
  | None =>
      mkFrame (columns df ++ [c])
        (map (fun r => r ++ [f (cell_at (columns df) r)]) (rows df))
  end.

(** [df[cols]] for columns that exist in [df]. *)
Definition select (cols : list string) (df : DataFrame) : DataFrame :=
  mkFrame cols (map (fun r => map (cell_at (columns df) r) cols) (rows df)).

Fixpoint assoc {V : Type} (c : string) (l : list (string * V)) : option V :=
  match l with
  | [] => None
  | (k, v) :: rest => if String.eqb c k then Some v else assoc c rest
  end.

(** [df.rename(columns=names)] *)
Definition rename (names : list (string * string)) (df : DataFrame) : DataFrame :=
  mkFrame (map (fun c => match assoc c names with Some c' => c' | None => c end) (columns df))
          (rows df).

Fixpoint first_seen (seen : list string) (keys : list string) : list string :=
  match keys with
  | [] => []
  | k :: rest =>
      if has_column seen k then first_seen seen rest
      else k :: first_seen (seen ++ [k]) rest
  end.

(** [pd.DataFrame(records)] for a list of dicts: one column per key, in
    order of first appearance; a record without the key holds NaN. *)
Definition from_dicts (records : list (list (string * Cell))) : DataFrame :=
  let cols := first_seen [] (flat_map (map fst) records) in
  mkFrame cols
    (map (fun d => map (fun c => match assoc c d with Some v => v | None => NaN end) cols)
         records).

(** [pd.to_datetime(col, unit=...)] then [.dt.normalize()], for a unit of
    [per_day] ticks a day; what is not a number becomes NaT. *)
Definition to_day (per_day : Z) (c : Cell) : Cell :=
  match c with
  | Num q => Day (date_of_days (Qfloor q / per_day))
  | _ => NaN
  end.

Definition ms_per_day : Z := 86400000.
Definition s_per_day : Z := 86400.

(** *** Merges *)

Definition keys_match (on : list string) (lcols rcols : list string) (l r : list Cell) : bool :=
  forallb (fun k => cell_eqb (cell_at lcols l k) (cell_at rcols r k)) on.

(** Columns of a merge: the left columns, then the right columns that are
    not join keys; a name on both sides outside the keys gets the suffixes
    [_x] and [_y]. *)
Definition merged_columns (on : list string) (lcols rcols : list string) : list string :=
  let rrest := List.filter (fun c => negb (has_column on c)) rcols in
  let lrest := List.filter (fun c => negb (has_column on c)) lcols in
  map (fun c => if negb (has_column on c) && has_column rrest c then (c ++ "_x")%string else c) lcols
  ++ map (fun c => if has_column lrest c then (c ++ "_y")%string else c) rrest.

Definition right_rest (on : list string) (rcols : list string) (r : list Cell) : list Cell :=
  map (cell_at rcols r) (List.filter (fun c => negb (has_column on c)) rcols).

Definition left_join_rows (on : list string) (lcols rcols : list string)
    (lrows rrows : list (list Cell)) : list (list Cell) :=
  flat_map (fun l =>
              match List.filter (keys_match on lcols rcols l) rrows with
              | [] => [l ++ map (fun _ => NaN)
                          (List.filter (fun c => negb (has_column on c)) rcols)]
              | matches => map (fun r => l ++ right_rest on rcols r) matches
              end) lrows.

(** [pd.merge(left, right, on=on, how='left')] *)
Definition merge_left (on : list string) (left right : DataFrame) : DataFrame :=
  mkFrame (merged_columns on (columns left) (columns right))
          (left_join_rows on (columns left) (columns right) (rows left) (rows right)).

Definition right_only_rows (on : list string) (lcols rcols : list string)
    (lrows rrows : list (list Cell)) : list (list Cell) :=
  map (fun r => map (fun c => if has_column on c then cell_at rcols r c else NaN) lcols
                ++ right_rest on rcols r)
      (List.filter (fun r => negb (existsb (fun l => keys_match on lcols rcols l r) lrows)) rrows).

Definition compare_on (on : list string) (cols : list string) (a b : list Cell) : comparison :=
  fold_right (fun k acc => lex (cell_compare (cell_at cols a k) (cell_at cols b k)) acc) Eq on.

(** [pd.merge(left, right, on=on, how='outer')]: the rows of the left join
    and the rows of [right] without a match, in the order of the join keys. *)
Definition merge_outer (on : list string) (left right : DataFrame) : DataFrame :=
  let cols := merged_columns on (columns left) (columns right) in
  mkFrame cols
    (sort_values (compare_on on cols)
       (left_join_rows on (columns left) (columns right) (rows left) (rows right)
        ++ right_only_rows on (columns left) (columns right) (rows left) (rows right))).

End Pandas.

(** ** The two-tier cache: [GCSCachingManager] *)

Module Cache.
Import Pandas.

#[local] Unset Elimination Schemes.

(** A value that [json.dump] writes and [json.load] reads back. *)
Inductive Json :=
| JNull
| JBool (b : bool)
| JNum (q : Q)
| JStr (s : string)
| JArr (items : list Json)
| JObj (fields : list (string * Json)).

#[local] Set Elimination Schemes.

(** What callers hand to [set]: a DataFrame, or anything else. *)
Inductive Payload :=
| Tabular (df : DataFrame)
| Structured (j : Json).

(** What a file or blob holds: the parquet encoding of a frame or the JSON
    text of a value.  Each reader returns what its writer was given and
    raises on a file of the other format. *)
Inductive FileContent :=
| ParquetFile (df : DataFrame)
| JsonFile (j : Json).

(** How a call ends: it returns, or an exception leaves it. *)
Inductive Outcome (A : Type) :=
| Returned (a : A)
| Raised.
Arguments Returned {A}.
Arguments Raised {A}.

(** What the manager prints. *)
Inductive Message :=
| CacheHitFromGcs (file_name : string)
| SavingToGcs (file_name : string)
| WarnSaveOrUploadFailed (file_name : string)
| WarnLoadFailed (local_path : string).

(** The conditions a call runs under: whether a file can be created at a
    path of the local cache directory, and whether the bucket answers. *)
Record Conditions := mkConditions {
  local_writable : string -> bool;
  remote_up : bool
}.

(** The local cache directory, the bucket, and the output so far.  Paths
    and blob names are the [file_name] given to [get] and [set]. *)
Record Store := mkStore {
  local_files : gmap string FileContent;
  gcs_blobs : gmap string FileContent;
  log : list Message
}.

Definition say (m : Message) (st : Store) : Store :=
  mkStore (local_files st) (gcs_blobs st) (log st ++ [m]).

Definition write_local (file_name : string) (content : FileContent) (st : Store) : Store :=
  mkStore (<[file_name := content]> (local_files st)) (gcs_blobs st) (log st).

Definition write_blob (file_name : string) (content : FileContent) (st : Store) : Store :=
  mkStore (local_files st) (<[file_name := content]> (gcs_blobs st)) (log st).

Definition string_rev (s : string) : string :=
  string_of_list_ascii (List.rev (list_ascii_of_string s)).

(** [s.endswith(suffix)] *)
Definition ends_with (suffix s : string) : bool :=
  String.prefix (string_rev suffix) (string_rev s).

(** [data.to_parquet(local_path)] for a DataFrame, [json.dump] otherwise. *)
Definition serialize (data : Payload) : FileContent :=
  match data with
  | Tabular df => ParquetFile df
  | Structured j => JsonFile j
  end.

(** [_load_from_local]: the reader is chosen by the extension of the path;
    a reader that raises is reported and the result is [None].  A JSON file
    holding [null] is read as the payload [JNull]; in Python that payload is
    [None], which a caller testing [is not None] cannot tell from a miss. *)
Definition _load_from_local (local_path : string) (content : FileContent) (st : Store)
  : Store * option Payload :=
  if ends_with ".parquet" local_path then
    match content with
    | ParquetFile df => (st, Some (Tabular df))
    | JsonFile _ => (say (WarnLoadFailed local_path) st, None)
    end
  else if ends_with ".json" local_path then
    match content with
    | JsonFile j => (st, Some (Structured j))
    | ParquetFile _ => (say (WarnLoadFailed local_path) st, None)
    end
  else (st, None).

(** [get]: the local file if there is one; otherwise the blob, downloaded
    to the local path first.  Nothing in [get] catches what the bucket or
    the download raise. *)
Definition get (cond : Conditions) (file_name : string) (st : Store)
  : Store * Outcome (option Payload) :=
  match local_files st !! file_name with
  | Some content =>
      let (st', data) := _load_from_local file_name content st in
      (st', Returned data)
  | None =>
      if remote_up cond then
        match gcs_blobs st !! file_name with
        | Some content =>
            let st1 := say (CacheHitFromGcs file_name) st in
            if local_writable cond file_name then
              let (st', data) :=
                _load_from_local file_name content (write_local file_name content st1) in
              (st', Returned data)
            else (st1, Raised)
        | None => (st, Returned None)
        end
      else (st, Raised)
  end.

(** [set]: the local write and the upload share one [try]; whichever
    raises is reported as a warning and the call returns.  The local write
    either creates the file with its content or fails before the file
    exists; a write that fails after [open] has truncated the file is not
    among the conditions. *)
Definition set (cond : Conditions) (file_name : string) (data : Payload) (st : Store)
  : Store * Outcome unit :=
  if local_writable cond file_name then
    let st1 := say (SavingToGcs file_name) (write_local file_name (serialize data) st) in
    if remote_up cond then
      (write_blob file_name (serialize data) st1, Returned tt)
    else
      (say (WarnSaveOrUploadFailed file_name) st1, Returned tt)
  else
    (say (WarnSaveOrUploadFailed file_name) st, Returned tt).

(** What the orchestration asks of a cache manager. *)
Record Cacher (C : Type) := mkCacher {
  cacher_get : string -> C -> C * Outcome (option Payload);
  cacher_set : string -> Payload -> C -> C * Outcome unit
}.
Arguments cacher_get {C}.
Arguments cacher_set {C}.

Definition GCSCachingManager (cond : Conditions) : Cacher Store :=
  mkCacher Store (get cond) (set cond).

(** The manager of the dry run: always a miss, and [set] does nothing. *)
Definition DummyCachingManager : Cacher unit :=
  mkCacher unit (fun _ c => (c, Returned None)) (fun _ _ c => (c, Returned tt)).

(** Whether the extension of the key is the one [_load_from_local] reads
    with the reader of the payload's format. *)
Definition extension_matches (file_name : string) (data : Payload) : bool :=
  match data with
  | Tabular _ => ends_with ".parquet" file_name
  | Structured _ => ends_with ".json" file_name
  end.

Definition all_fine : Conditions := mkConditions (fun _ => true) true.
Definition bucket_down : Conditions := mkConditions (fun _ => true) false.
Definition disk_full : Conditions := mkConditions (fun _ => false) true.
Definition empty_store : Store := mkStore ∅ ∅ [].

Definition sample_map : Payload :=
  Structured (JObj [("uniswap", JStr "uniswap"); ("aave", JStr "aave")]%string).

Definition sample_frame : Payload :=
  Tabular (mkFrame ["b"]%string [ [Num 3%Q]; [Num 4%Q] ]).

(** A machine that shares the bucket and starts with an empty local cache
    directory. *)
Definition fresh_local (st : Store) : Store :=
  mkStore ∅ (gcs_blobs st) (log st).

Definition remote_only_store : Store :=
  mkStore ∅ (<["test_file.parquet" := serialize sample_frame]> ∅) [].

End Cache.

(** ** Per-asset orchestration: [fetch_and_cache_coin_history] *)

Module Orchestrator.
Import Calendar Pandas Cache.

(** *** What the sources answer *)

(** A call of the CoinGecko client: it returns, raises an error whose text
    contains [429], or raises another error. *)
Inductive ApiReply (A : Type) :=
| ApiOk (a : A)
| ApiRateLimited
| ApiError.
Arguments ApiOk {A}.
Arguments ApiRateLimited {A}.
Arguments ApiError {A}.

(** A [requests.get] followed by [res.json()] and the parser of the
    endpoint: a well-formed body, a response that is not [ok], or an
    exception in any of the three. *)
Inductive HttpReply (A : Type) :=
| HttpOk (body : A)
| HttpNotOk
| HttpRaised.
Arguments HttpOk {A}.
Arguments HttpNotOk {A}.
Arguments HttpRaised {A}.

(** A series of (timestamp, value) points; the value may be null. *)
Definition Series : Type := list (Z * option Q).

(** [get_coin_market_chart_by_id]: three series with timestamps in ms. *)
Record MarketChart := mkMarketChart {
  prices : Series;
  total_volumes : Series;
  market_caps : Series
}.

(** A row of [get_coin_ohlc_by_id]: timestamp in ms, open, high, low, close. *)
Record Ohlc := mkOhlc { o_ts : Z; o_open : Q; o_high : Q; o_low : Q; o_close : Q }.

(** The dict [full_data] of [get_cg_market_data]. *)
Record RawMarketData := mkRaw {
  price_mcap_vol : option MarketChart;
  ohlc : option (list Ohlc)
}.

(** The body of [/protocol/{slug}]: a plain [tvl] list, or [chainTvls]
    with one [tvl] list per chain; timestamps in seconds. *)
Inductive ProtocolBody :=
| SimpleTvl (tvl : Series)
| ChainTvls (chains : list (string * list (Z * Q))).

(** The secondary sources, one answer per request. *)
Record Sources := mkSources {
  llama_charts : string -> HttpReply Series;
  llama_protocol : string -> HttpReply ProtocolBody;
  llama_dexs : string -> HttpReply Series;
  lunarcrush_series : string -> HttpReply (list (list (string * Cell)))
}.

(** What a run does that the outside can see. *)
Inductive Event :=
| CacheGet (key : string)
| CacheSet (key : string)
| CgMarketChart (coin_id : string)
| CgOhlc (coin_id : string)
| Sleep (seconds : Z)
| LlamaCharts (slug : string)
| LlamaProtocol (slug : string)
| LlamaDexs (slug : string)
| LunarCrush (ticker : string).

(** The primary source is CoinGecko; the other requests are secondary. *)
Definition is_secondary (e : Event) : bool :=
  match e with
  | LlamaCharts _ | LlamaProtocol _ | LlamaDexs _ | LunarCrush _ => true
  | _ => false
  end.

Definition is_cache_write (e : Event) : bool :=
  match e with
  | CacheSet _ => true
  | _ => false
  end.

(** *** The state a run threads *)

Section Run.
(** The state of the cache manager in use. *)
Context {C : Type}.

Record World := mkWorld {
  cache : C;
  chart_replies : list (ApiReply MarketChart);
  ohlc_replies : list (ApiReply (list Ohlc));
  trace : list Event
}.

Definition Run (A : Type) : Type := World -> World * Outcome A.

Definition ret {A : Type} (a : A) : Run A := fun w => (w, Returned a).

Definition bind {A B : Type} (m : Run A) (f : A -> Run B) : Run B :=
  fun w =>
    match m w with
    | (w', Returned a) => f a w'
    | (w', Raised) => (w', Raised)
    end.

Definition emit (e : Event) : Run unit :=
  fun w => (mkWorld (cache w) (chart_replies w) (ohlc_replies w) (trace w ++ [e]),
            Returned tt).

(** The next answer of the market-chart endpoint. *)
Definition call_market_chart (coin_id : string) : Run (ApiReply MarketChart) :=
  fun w =>
    let w' := mkWorld (cache w) (List.tl (chart_replies w)) (ohlc_replies w)
                (trace w ++ [CgMarketChart coin_id]) in
    match chart_replies w with
    | r :: _ => (w', Returned r)
    | [] => (w', Returned ApiError)
    end.

(** The next answer of the OHLC endpoint. *)
Definition call_ohlc (coin_id : string) : Run (ApiReply (list Ohlc)) :=
  fun w =>
    let w' := mkWorld (cache w) (chart_replies w) (List.tl (ohlc_replies w))
                (trace w ++ [CgOhlc coin_id]) in
    match ohlc_replies w with
    | r :: _ => (w', Returned r)
    | [] => (w', Returned ApiError)
    end.

Definition cache_get (cacher : Cacher C) (key : string) : Run (option Payload) :=
  fun w =>
    let (c, r) := cacher_get cacher key (cache w) in
    (mkWorld c (chart_replies w) (ohlc_replies w) (trace w ++ [CacheGet key]), r).

Definition cache_set (cacher : Cacher C) (key : string) (data : Payload) : Run unit :=
  fun w =>
    let (c, r) := cacher_set cacher key data (cache w) in
    (mkWorld c (chart_replies w) (ohlc_replies w) (trace w ++ [CacheSet key]), r).

End Run.

Arguments World C : clear implicits.
Arguments Run C A : clear implicits.

Notation "x <- c ;; k" := (bind c (fun x => k))
  (at level 100, c at next level, right associativity).
Notation "c ;;; k" := (bind c (fun _ => k))
  (at level 100, right associativity).

(** *** Normalizing what a source returned *)

Definition cell_of (v : option Q) : Cell :=
  match v with
  | Some q => Num q
  | None => NaN
  end.

(** [pd.DataFrame(series, columns=[time_col, value_col])] *)
Definition series_frame (time_col value_col : string) (points : Series) : DataFrame :=
  mkFrame [time_col; value_col]
    (map (fun pt => [Num (inject_Z (fst pt)); cell_of (snd pt)]) points).

(** [df['ticker'] = df['coin_id'].map(ticker_map)] *)
Definition ticker_cell (ticker_map : gmap string string) (coin_id : string) : Cell :=
  match ticker_map !! coin_id with
  | Some t => Str t
  | None => NaN
  end.

Definition final_cols : list string :=
  ["date"; "coin_id"; "ticker"; "open"; "high"; "low"; "close"; "volume"; "market_cap"]%string.

(** [process_market_data_to_df] *)
Definition process_market_data_to_df (raw_data : option RawMarketData) (coin_id : string)
    (ticker_map : gmap string string) : DataFrame :=
  match raw_data with
  | None => empty_frame
  | Some raw =>
      match price_mcap_vol raw with
      | None => empty_frame
      | Some chart =>
          match prices chart with
          | [] => empty_frame
          | price_data =>
              let df_base := series_frame "timestamp" "close" price_data in
              let df_vol := series_frame "timestamp" "volume" (total_volumes chart) in
              let df_mcap := series_frame "timestamp" "market_cap" (market_caps chart) in
              let df := merge_left ["timestamp"]%string df_base df_vol in
              let df := merge_left ["timestamp"]%string df df_mcap in
              let df := assign "date" (fun row => to_day ms_per_day (row "timestamp"%string)) df in
              let df :=
                match ohlc raw with
                | None | Some [] => df
                | Some ohlc_data =>
                    let df_ohlc :=
                      mkFrame ["timestamp"; "open"; "high"; "low"; "close_ohlc"]%string
                        (map (fun o => [Num (inject_Z (o_ts o)); Num (o_open o); Num (o_high o);
                                        Num (o_low o); Num (o_close o)]) ohlc_data) in
                    let df_ohlc :=
                      assign "date" (fun row => to_day ms_per_day (row "timestamp"%string)) df_ohlc in
                    merge_left ["date"]%string df
                      (select ["date"; "open"; "high"; "low"]%string df_ohlc)
                end in
              let df := assign "coin_id" (fun _ => Str coin_id) df in
              let df := assign "ticker" (fun _ => ticker_cell ticker_map coin_id) df in
              select (List.filter (has_column (columns df)) final_cols) df
          end
      end
  end.

(** [process_chain_tvl_to_df]: without records there is no
    [totalLiquidityUSD] column and the result is empty. *)
Definition process_chain_tvl_to_df (raw_data : Series) (coin_id : string)
    (ticker_map : gmap string string) : DataFrame :=
  match raw_data with
  | [] => empty_frame
  | _ =>
      let df := series_frame "date" "totalLiquidityUSD" raw_data in
      let df := rename [("totalLiquidityUSD", "chain_tvl")]%string df in
      let df := assign "date" (fun row => to_day s_per_day (row "date"%string)) df in
      let df := assign "coin_id" (fun _ => Str coin_id) df in
      assign "ticker" (fun _ => ticker_cell ticker_map coin_id) df
  end.

(** [daily_total_tvl[date] = daily_total_tvl.get(date, 0) + tvl], on a dict
    kept in insertion order. *)
Fixpoint add_daily_total (date : Date) (tvl : Q) (totals : list (Date * Q)) : list (Date * Q) :=
  match totals with
  | [] => [(date, (0 + tvl)%Q)]
  | (d, t) :: rest =>
      if date_eqb d date then (d, (t + tvl)%Q) :: rest
      else (d, t) :: add_daily_total date tvl rest
  end.

Definition day_of_seconds (ts : Z) : Date := date_of_days (ts / s_per_day).

(** [_process_protocol_tvl_response] *)
Definition _process_protocol_tvl_response (raw_data : ProtocolBody) : DataFrame :=
  match raw_data with
  | SimpleTvl [] => empty_frame
  | SimpleTvl tvl_data =>
      let df := series_frame "date" "totalLiquidityUSD" tvl_data in
      let df := rename [("totalLiquidityUSD", "protocol_tvl")]%string df in
      let df := assign "date" (fun row => to_day s_per_day (row "date"%string)) df in
      select ["date"; "protocol_tvl"]%string df
  | ChainTvls chain_tvls =>
      let daily_total_tvl :=
        fold_left (fun totals item => add_daily_total (day_of_seconds (fst item)) (snd item) totals)
                  (flat_map snd chain_tvls) [] in
      match daily_total_tvl with
      | [] => empty_frame
      | _ =>
          let cols := ["date"; "protocol_tvl"]%string in
          mkFrame cols
            (sort_values (compare_on ["date"]%string cols)
               (map (fun item => [Day (fst item); Num (snd item)]) daily_total_tvl))
      end
  end.

(** [_process_dex_volume_response] *)
Definition _process_dex_volume_response (chart_data : Series) : DataFrame :=
  match chart_data with
  | [] => empty_frame
  | _ =>
      let df := series_frame "date" "dex_volume" chart_data in
      assign "date" (fun row => to_day s_per_day (row "date"%string)) df
  end.

Definition frame_of_reply {A : Type} (parse : A -> DataFrame) (reply : HttpReply A) : DataFrame :=
  match reply with
  | HttpOk body => parse body
  | HttpNotOk => empty_frame
  | HttpRaised => empty_frame
  end.

(** The merge at the end of [get_and_process_protocol_data]. *)
Definition merge_protocol_data (tvl_df dex_df : DataFrame) (coin_id : string)
    (ticker_map : gmap string string) : DataFrame :=
  if is_empty tvl_df && is_empty dex_df then empty_frame
  else
    let merged_df :=
      if is_empty tvl_df then assign "protocol_tvl" (fun _ => NaN) dex_df
      else if is_empty dex_df then assign "dex_volume" (fun _ => NaN) tvl_df
      else merge_outer ["date"]%string tvl_df dex_df in
    let merged_df := assign "coin_id" (fun _ => Str coin_id) merged_df in
    assign "ticker" (fun _ => ticker_cell ticker_map coin_id) merged_df.

Definition lc_names : list (string * string) :=
  [ ("time", "date"); ("galaxy_score", "lc_galaxy_score"); ("alt_rank", "lc_alt_rank");
    ("social_dominance", "lc_social_dominance"); ("sentiment", "lc_sentiment") ]%string.

Definition lc_required_cols : list string :=
  ["date"; "coin_id"; "lc_galaxy_score"; "lc_alt_rank"; "lc_social_dominance"; "lc_sentiment"]%string.

(** The processing of a LunarCrush body.  The [date] conversion raises,
    and the function returns an empty frame, when the renamed frame has no
    [date] column (no record has a [time] or [date] key) and when it has
    two (some record has [time] and some record has [date], so that
    [df['date']] is a frame). *)
Definition process_lunarcrush_body (time_series_data : list (list (string * Cell)))
    (coin_id : string) : DataFrame :=
  match time_series_data with
  | [] => empty_frame
  | _ =>
      let df := rename lc_names (from_dicts time_series_data) in
      if Nat.eqb (List.length (List.filter (String.eqb "date") (columns df))) 1 then
        let df := assign "date" (fun row => to_day s_per_day (row "date"%string)) df in
        let df := assign "coin_id" (fun _ => Str coin_id) df in
        select (List.filter (has_column (columns df)) lc_required_cols) df
      else empty_frame
  end.

(** Step 4 of [fetch_and_cache_coin_history]: the merges. *)
Definition merge_sources (final_coin_df chain_tvl_df protocol_data_df lunarcrush_df : DataFrame)
  : DataFrame :=
  let on := ["date"; "coin_id"]%string in
  let final_coin_df :=
    if is_empty chain_tvl_df then final_coin_df
    else merge_left on final_coin_df
           (select ["date"; "coin_id"; "chain_tvl"]%string chain_tvl_df) in
  let final_coin_df :=
    if is_empty protocol_data_df then final_coin_df
    else
      match List.filter (has_column (columns protocol_data_df))
              ["protocol_tvl"; "dex_volume"]%string with
      | [] => final_coin_df
      | data_columns =>
          merge_left on final_coin_df (select (on ++ data_columns) protocol_data_df)
      end in
  if is_empty lunarcrush_df then final_coin_df
  else merge_left on final_coin_df lunarcrush_df.

Definition upper_ascii (c : ascii) : ascii :=
  let n := nat_of_ascii c in
  if (97 <=? n)%nat && (n <=? 122)%nat then ascii_of_nat (n - 32) else c.

(** [s.upper()] on ASCII text. *)
Fixpoint upper (s : string) : string :=
  match s with
  | EmptyString => EmptyString
  | String c rest => String (upper_ascii c) (upper rest)
  end.

Definition cache_key (coin_id : string) : string :=
  ("coin_history/" ++ coin_id ++ ".parquet")%string.

(** *** The calls *)

Section Fetch.
Context {C : Type} (cacher : Cacher C) (src : Sources).

Definition max_retries : nat := 3.

(** The loop of [get_cg_market_data], with [attempts] iterations left and
    the dict [full_data] as filled so far. *)
Fixpoint cg_attempts (attempts : nat) (coin_id : string) (full_data : RawMarketData)
  : Run C (option RawMarketData) :=
  match attempts with
  | O => ret None
  | S attempts' =>
      chart <- call_market_chart coin_id ;;
      match chart with
      | ApiOk market_chart_data =>
          let full_data := mkRaw (Some market_chart_data) (ohlc full_data) in
          candles <- call_ohlc coin_id ;;
          match candles with
          | ApiOk ohlc_data =>
              ret (Some (mkRaw (price_mcap_vol full_data) (Some ohlc_data)))
          | ApiRateLimited => emit (Sleep 61) ;;; cg_attempts attempts' coin_id full_data
          | ApiError => ret (Some full_data)
          end
      | ApiRateLimited => emit (Sleep 61) ;;; cg_attempts attempts' coin_id full_data
      | ApiError =>
          match price_mcap_vol full_data with
          | Some _ => ret (Some full_data)
          | None => ret None
          end
      end
  end.

(** [get_cg_market_data] *)
Definition get_cg_market_data (coin_id : string) : Run C (option RawMarketData) :=
  cg_attempts max_retries coin_id (mkRaw None None).

(** The chain TVL frame of step 2. *)
Definition fetch_chain_tvl (coin_id : string) (ticker_map llama_chain_map : gmap string string)
  : Run C DataFrame :=
  match llama_chain_map !! coin_id with
  | Some llama_slug_for_chain =>
      emit (LlamaCharts llama_slug_for_chain) ;;;
      ret (frame_of_reply (fun body => process_chain_tvl_to_df body coin_id ticker_map)
             (llama_charts src llama_slug_for_chain))
  | None => ret empty_frame
  end.

(** [get_and_process_protocol_data] *)
Definition get_and_process_protocol_data (llama_slug coin_id : string)
    (ticker_map : gmap string string) : Run C DataFrame :=
  emit (LlamaProtocol llama_slug) ;;;
  emit (LlamaDexs llama_slug) ;;;
  ret (merge_protocol_data
         (frame_of_reply _process_protocol_tvl_response (llama_protocol src llama_slug))
         (frame_of_reply _process_dex_volume_response (llama_dexs src llama_slug))
         coin_id ticker_map).

(** The protocol frame of step 2. *)
Definition fetch_protocol_data (coin_id : string) (ticker_map llama_protocol_map : gmap string string)
  : Run C DataFrame :=
  match llama_protocol_map !! coin_id with
  | Some EmptyString => ret empty_frame
  | Some llama_slug_for_protocol =>
      get_and_process_protocol_data llama_slug_for_protocol coin_id ticker_map
  | None => ret empty_frame
  end.

(** [get_and_process_lunarcrush_data] *)
Definition get_and_process_lunarcrush_data (ticker coin_id : string) : Run C DataFrame :=
  match ticker with
  | EmptyString => ret empty_frame
  | _ =>
      emit (LunarCrush ticker) ;;;
      ret (frame_of_reply (fun body => process_lunarcrush_body body coin_id)
             (lunarcrush_series src ticker))
  end.

(** [fetch_and_cache_coin_history]; it returns what the cache holds on a
    hit, whatever that is. *)
Definition fetch_and_cache_coin_history (coin_id : string)
    (ticker_map llama_protocol_map llama_chain_map : gmap string string) : Run C Payload :=
  cached_df <- cache_get cacher (cache_key coin_id) ;;
  match cached_df with
  | Some cached => ret cached
  | None =>
      let ticker := upper (match ticker_map !! coin_id with Some t => t | None => EmptyString end) in
      cg_raw <- get_cg_market_data coin_id ;;
      let final_coin_df := process_market_data_to_df cg_raw coin_id ticker_map in
      if is_empty final_coin_df then ret (Tabular empty_frame)
      else
        chain_tvl_df <- fetch_chain_tvl coin_id ticker_map llama_chain_map ;;
        protocol_data_df <- fetch_protocol_data coin_id ticker_map llama_protocol_map ;;
        lunarcrush_df <- get_and_process_lunarcrush_data ticker coin_id ;;
        let final_coin_df :=
          merge_sources final_coin_df chain_tvl_df protocol_data_df lunarcrush_df in
        (if is_empty final_coin_df then ret tt
         else cache_set cacher (cache_key coin_id) (Tabular final_coin_df)) ;;;
        ret (Tabular final_coin_df)
  end.

End Fetch.

(** *** Two assets *)

Definition jan1_ms : Z := 1640995200000.
Definition jan2_ms : Z := 1641081600000.
Definition jan1_s : Z := 1640995200.

Definition sample_chart : MarketChart :=
  mkMarketChart [ (jan1_ms, Some 100%Q); (jan2_ms, Some 101%Q) ]
                [ (jan1_ms, Some 5%Q); (jan2_ms, Some 6%Q) ]
                [ (jan1_ms, Some 1000%Q); (jan2_ms, Some 1010%Q) ].

(** DeFiLlama knows the chain of ethereum; nobody knows dogecoin. *)
Definition sample_sources : Sources :=
  mkSources
    (fun slug => if String.eqb slug "Ethereum" then HttpOk [ (jan1_s, Some 7%Q) ] else HttpNotOk)
    (fun _ => HttpNotOk)
    (fun _ => HttpRaised)
    (fun _ => HttpNotOk).

Definition sample_chain_map : gmap string string := <["ethereum" := "Ethereum"]> ∅.

Definition sample_ticker_map : gmap string string :=
  <["ethereum" := "ETH"]> (<["dogecoin" := "DOGE"]> ∅).

(** A world where the market chart answers and the OHLC endpoint fails. *)
Definition sample_world : World unit :=
  mkWorld tt [ApiOk sample_chart] [ApiError] [].

Definition run_sample (coin_id : string) : World unit * Outcome Payload :=
  fetch_and_cache_coin_history DummyCachingManager sample_sources coin_id
    sample_ticker_map ∅ sample_chain_map sample_world.

(** *** The primary gate *)

(** The calls that [get_cg_market_data] makes. *)
Definition is_primary (e : Event) : bool :=
  match e with
  | CgMarketChart _ | CgOhlc _ | Sleep _ => true
  | _ => false
  end.

(** A run that touched nothing but the CoinGecko endpoints. *)
Definition primary_only {C : Type} (w w' : World C) : Prop :=
  cache w' = cache w
  /\ exists evs, trace w' = trace w ++ evs /\ Forall (fun e => is_primary e = true) evs.

(** CoinGecko answers three times that the rate limit is hit. *)
Definition rate_limited_world : World Store :=
  mkWorld empty_store [ApiRateLimited; ApiRateLimited; ApiRateLimited] [] [].

(** *** The columns of the merged frame *)

(** The frames that steps 2 and 3 obtain, as functions of the sources. *)
Definition chain_tvl_frame (src : Sources) (coin_id : string)
    (ticker_map llama_chain_map : gmap string string) : DataFrame :=
  match llama_chain_map !! coin_id with
  | Some slug =>
      frame_of_reply (fun body => process_chain_tvl_to_df body coin_id ticker_map)
        (llama_charts src slug)
  | None => empty_frame
  end.

Definition protocol_tvl_frame (src : Sources) (llama_slug : string) : DataFrame :=
  frame_of_reply _process_protocol_tvl_response (llama_protocol src llama_slug).

Definition dex_volume_frame (src : Sources) (llama_slug : string) : DataFrame :=
  frame_of_reply _process_dex_volume_response (llama_dexs src llama_slug).

Definition protocol_data_frame (src : Sources) (coin_id : string)
    (ticker_map llama_protocol_map : gmap string string) : DataFrame :=
  match llama_protocol_map !! coin_id with
  | Some EmptyString => empty_frame
  | Some slug =>
      merge_protocol_data (protocol_tvl_frame src slug) (dex_volume_frame src slug)
        coin_id ticker_map
  | None => empty_frame
  end.

Definition ticker_of (ticker_map : gmap string string) (coin_id : string) : string :=
  upper (match ticker_map !! coin_id with Some t => t | None => EmptyString end).

Definition lunarcrush_frame (src : Sources) (coin_id : string)
    (ticker_map : gmap string string) : DataFrame :=
  match ticker_of ticker_map coin_id with
  | EmptyString => empty_frame
  | ticker =>
      frame_of_reply (fun body => process_lunarcrush_body body coin_id)
        (lunarcrush_series src ticker)
  end.

Definition has_ohlc (cg_raw : option RawMarketData) : bool :=
  match cg_raw with
  | Some raw => match ohlc raw with Some (_ :: _) => true | _ => false end
  | None => false
  end.

(** The columns each source contributes to the merged frame. *)
Definition primary_columns (cg_raw : option RawMarketData) : list string :=
  (["date"; "coin_id"; "ticker"]%string
   ++ (if has_ohlc cg_raw then ["open"; "high"; "low"]%string else [])
   ++ ["close"; "volume"; "market_cap"]%string)%list.

Definition chain_columns (chain_tvl_df : DataFrame) : list string :=
  if is_empty chain_tvl_df then [] else ["chain_tvl"]%string.

Definition protocol_columns (protocol_data_df : DataFrame) : list string :=
  if is_empty protocol_data_df then [] else ["protocol_tvl"; "dex_volume"]%string.

Definition lunarcrush_columns (lunarcrush_df : DataFrame) : list string :=
  if is_empty lunarcrush_df then []
  else List.filter (fun c => negb (has_column ["date"; "coin_id"]%string c))
         (columns lunarcrush_df).

Definition result_columns (r : Outcome Payload) : option (list string) :=
  match r with
  | Returned (Tabular df) => Some (columns df)
  | _ => None
  end.

Definition ethereum_frame : DataFrame :=
  mkFrame ["date"; "coin_id"; "ticker"; "close"; "volume"; "market_cap"; "chain_tvl"]%string
    [ [Day (mkDate 2022 1 1); Str "ethereum"; Str "ETH"; Num 100%Q; Num 5%Q; Num 1000%Q; Num 7%Q];
      [Day (mkDate 2022 1 2); Str "ethereum"; Str "ETH"; Num 101%Q; Num 6%Q; Num 1010%Q; NaN] ].

(** *** Counting the calls of a run *)

Definition is_chart_call (e : Event) : bool :=
  match e with CgMarketChart _ => true | _ => false end.

Definition is_ohlc_call (e : Event) : bool :=
  match e with CgOhlc _ => true | _ => false end.

Definition is_sleep (e : Event) : bool :=
  match e with Sleep _ => true | _ => false end.

Definition count_events (p : Event -> bool) (evs : list Event) : nat :=
  List.length (List.filter p evs).

(** The events a primary fetch of [coin_id] can produce. *)
Definition primary_event_of (coin_id : string) (e : Event) : Prop :=
  e = CgMarketChart coin_id \/ e = CgOhlc coin_id \/ e = Sleep 61.

(** The price points of what a primary fetch returned. *)
Definition price_points (cg_raw : option RawMarketData) : Series :=
  match cg_raw with
  | Some raw =>
      match price_mcap_vol raw with
      | Some chart => prices chart
      | None => []
      end
  | None => []
  end.

(** *** The requests of a run *)

(** [w'] is [w] after the events [evs], with the cache and the CoinGecko
    answers still to come untouched. *)
Definition emitted {C : Type} (w w' : World C) (evs : list Event) : Prop :=
  cache w' = cache w
  /\ chart_replies w' = chart_replies w
  /\ ohlc_replies w' = ohlc_replies w
  /\ trace w' = trace w ++ evs.

(** The secondary requests made for an asset: decided by the lookup maps
    alone. *)
Definition chain_events (coin_id : string) (llama_chain_map : gmap string string)
  : list Event :=
  match llama_chain_map !! coin_id with
  | Some slug => [LlamaCharts slug]
  | None => []
  end.

Definition protocol_events (coin_id : string) (llama_protocol_map : gmap string string)
  : list Event :=
  match llama_protocol_map !! coin_id with
  | Some EmptyString => []
  | Some slug => [LlamaProtocol slug; LlamaDexs slug]
  | None => []
  end.

Definition lunarcrush_events (coin_id : string) (ticker_map : gmap string string)
  : list Event :=
  match ticker_of ticker_map coin_id with
  | EmptyString => []
  | ticker => [LunarCrush ticker]
  end.

Definition secondary_events (coin_id : string)
    (ticker_map llama_protocol_map llama_chain_map : gmap string string) : list Event :=
  chain_events coin_id llama_chain_map
  ++ protocol_events coin_id llama_protocol_map
  ++ lunarcrush_events coin_id ticker_map.

(** The frame that steps 1 to 4 build for an asset. *)
Definition merged_frame (src : Sources) (cg_raw : option RawMarketData) (coin_id : string)
    (ticker_map llama_protocol_map llama_chain_map : gmap string string) : DataFrame :=
  merge_sources (process_market_data_to_df cg_raw coin_id ticker_map)
    (chain_tvl_frame src coin_id ticker_map llama_chain_map)
    (protocol_data_frame src coin_id ticker_map llama_protocol_map)
    (lunarcrush_frame src coin_id ticker_map).

(** Sources that all fail. *)
Definition failing_sources : Sources :=
  mkSources (fun _ => HttpRaised) (fun _ => HttpRaised) (fun _ => HttpRaised)
            (fun _ => HttpRaised).

Definition sample_protocol_map : gmap string string := <["ethereum" := "lido"]> ∅.

(** A first run on an empty store with nothing but the chart answering. *)
Definition first_run_world : World Store :=
  mkWorld empty_store [ApiOk sample_chart] [ApiError] [].

(** *** The aggregation of the chain TVLs *)

(** [daily_total_tvl.get(date)] *)
Fixpoint total_of (date : Date) (totals : list (Date * Q)) : option Q :=
  match totals with
  | [] => None
  | (d, t) :: rest => if date_eqb d date then Some t else total_of date rest
  end.

(** The items of a day, in the order in which the loops visit them. *)
Definition day_items (date : Date) (items : list (Z * Q)) : list (Z * Q) :=
  List.filter (fun item => date_eqb (day_of_seconds (fst item)) date) items.

(** The total of a day after the loops have added [items] to [start]. *)
Definition accumulate (start : option Q) (items : list (Z * Q)) : option Q :=
  match items with
  | [] => start
  | _ => Some (fold_left Qplus (map snd items)
                 (match start with Some t => t | None => 0%Q end))
  end.

(** Lido-like body: two chains, two days, one day on both chains. *)
Definition sample_chain_tvls : list (string * list (Z * Q)) :=
  [ ("Ethereum", [ (jan1_s + 86400, 5%Q); (jan1_s, 3%Q) ]);
    ("Solana", [ (jan1_s + 3600, 4%Q) ]) ]%string.

End Orchestrator.

(** ** The candidate fetch of [create_universe.py] *)

Module UniverseFetch.
Import Cache Orchestrator.

Section Fetch.
Context {C : Type}.

Definition max_retries : nat := 3.

(** The loop of [get_cg_market_data] of [create_universe.py], with
    [attempts] iterations left: one call per iteration, a sleep of 61 s
    after an answer 429, and no second endpoint. *)
Fixpoint cg_attempts (attempts : nat) (coin_id : string) : Run C (option MarketChart) :=
  match attempts with
  | O => ret None
  | S attempts' =>
      chart <- call_market_chart coin_id ;;
      match chart with
      | ApiOk raw_data => ret (Some raw_data)
      | ApiRateLimited => emit (Sleep 61) ;;; cg_attempts attempts' coin_id
      | ApiError => ret None
      end
  end.

(** [get_cg_market_data] *)
Definition get_cg_market_data (coin_id : string) : Run C (option MarketChart) :=
  cg_attempts max_retries coin_id.

End Fetch.

(** How many answers 429 come before any other answer. *)
Fixpoint rate_limited_prefix {A : Type} (replies : list (ApiReply A)) : nat :=
  match replies with
  | ApiRateLimited :: rest => S (rate_limited_prefix rest)
  | _ => O
  end.

(** The answer that ends the loop after [k] answers 429, if there is one. *)
Definition answer_after {A : Type} (k : nat) (replies : list (ApiReply A)) : option A :=
  match nth_error replies k with
  | Some (ApiOk a) => Some a
  | _ => None
  end.

End UniverseFetch.

(** ** The lookup maps of DeFi Llama *)

Module LlamaMaps.
Import Cache Orchestrator.

(** An element of the list that [/protocols] or [/chains] answers.
    [gecko_id] is its [gecko_id], [None] when the key is missing or null
    ([p.get('gecko_id')] is falsy in both cases).  [label] is what
    [p['slug']] (for a chain, [c['name']]) evaluates to: [None] when the
    key is missing, so that the subscript raises [KeyError], and otherwise
    the JSON value under the key, [JNull] for a null. *)
Record Listing := mkListing { gecko_id : option string; label : option Json }.

(** [d[k] = v] on a dict kept in insertion order. *)
Fixpoint dict_set (k : string) (v : Json) (d : list (string * Json)) : list (string * Json) :=
  match d with
  | [] => [(k, v)]
  | (k', v') :: d' =>
      if String.eqb k' k then (k', v) :: d' else (k', v') :: dict_set k v d'
  end.

(** The truth value of a string. *)
Definition truthy (s : string) : bool :=
  match s with
  | EmptyString => false
  | _ => true
  end.

(** [{p['gecko_id']: p['slug'] for p in res.json() if p.get('gecko_id')}]
    continued from the dict [d]; [None] when [p['slug']] raises, that is,
    when a listing with a [gecko_id] has no [slug] key.  A null [slug] is a
    value like any other and is stored. *)
Fixpoint comprehension (listings : list Listing) (d : list (string * Json))
  : option (list (string * Json)) :=
  match listings with
  | [] => Some d
  | p :: rest =>
      match gecko_id p with
      | Some g =>
          if truthy g then
            match label p with
            | Some s => comprehension rest (dict_set g s d)
            | None => None
            end
          else comprehension rest d
      | None => comprehension rest d
      end
  end.

(** The dict as a payload of the cache. *)
Definition dict_payload (d : list (string * Json)) : Payload :=
  Structured (JObj d).

(** What a call leaves and returns, and whether it sent its request. *)
Record MapRun (C : Type) := mkMapRun {
  store : C;
  requested : bool;
  returned : Outcome Payload
}.
Arguments mkMapRun {C}.
Arguments store {C}.
Arguments requested {C}.
Arguments returned {C}.

Section Build.
Context {C : Type} (cacher : Cacher C).

(** The body shared by [create_defillama_protocol_map] and
    [get_all_chains_map]: the cached value if there is one; otherwise the
    request, the comprehension and [cacher.set] under one [try], whose
    handler leads to [return {}]. *)
Definition cached_map (cache_key : string) (reply : HttpReply (list Listing)) (c : C)
  : MapRun C :=
  match cacher_get cacher cache_key c with
  | (c1, Raised) => mkMapRun c1 false Raised
  | (c1, Returned (Some cached_data)) => mkMapRun c1 false (Returned cached_data)
  | (c1, Returned None) =>
      match reply with
      | HttpOk listings =>
          match comprehension listings [] with
          | Some protocol_map =>
              match cacher_set cacher cache_key (dict_payload protocol_map) c1 with
              | (c2, Returned _) => mkMapRun c2 true (Returned (dict_payload protocol_map))
              | (c2, Raised) => mkMapRun c2 true (Returned (dict_payload []))
              end
          | None => mkMapRun c1 true (Returned (dict_payload []))
          end
      | HttpNotOk => mkMapRun c1 true (Returned (dict_payload []))
      | HttpRaised => mkMapRun c1 true (Returned (dict_payload []))
      end
  end.

(** [create_defillama_protocol_map] *)
Definition create_defillama_protocol_map : HttpReply (list Listing) -> C -> MapRun C :=
  cached_map "maps/llama_protocol_map.json".

(** [get_all_chains_map] *)
Definition get_all_chains_map : HttpReply (list Listing) -> C -> MapRun C :=
  cached_map "maps/llama_chain_map.json".

End Build.

(** The listing names the asset [g]. *)
Definition names (g : string) (p : Listing) : Prop :=
  gecko_id p = Some g /\ truthy g = true.

(** Whether something under the [try] raised before [cacher.set]: the
    response is not ok, the request or [res.json()] raises, or the
    comprehension raises on a missing key. *)
Definition request_failed (reply : HttpReply (list Listing)) : bool :=
  match reply with
  | HttpOk listings =>
      match comprehension listings [] with
      | Some _ => false
      | None => true
      end
  | _ => true
  end.

Definition sample_listings : list Listing :=
  [ mkListing (Some "aave") (Some (JStr "aave-v2"));
    mkListing None (Some (JStr "unlisted"));
    mkListing (Some "uniswap") (Some (JStr "uniswap-v3"));
    mkListing (Some "") (Some (JStr "blank"));
    mkListing (Some "aave") (Some (JStr "aave-v3")) ]%string.

(** A listing with a null [slug], and a listing without the key. *)
Definition null_slug_listings : list Listing :=
  [ mkListing (Some "curve") (Some JNull) ]%string.

Definition missing_slug_listings : list Listing :=
  [ mkListing (Some "curve") None ]%string.

End LlamaMaps.

(** * Part II: the properties *)

(** ** Generic list facts used by several components *)

Section ListFacts.
Context {A : Type}.

Lemma filter_filter_and (p q : A -> bool) (l : list A) :
  List.filter p (List.filter q l) = List.filter (fun x => p x && q x) l.
Proof.
  induction l as [|x l IH]; simpl; [reflexivity|].
  destruct (q x); simpl; destruct (p x); simpl; rewrite ?IH; reflexivity.
Qed.

Lemma filter_comm (p q : A -> bool) (l : list A) :
  List.filter p (List.filter q l) = List.filter q (List.filter p l).
Proof.
  rewrite !filter_filter_and. apply List.filter_ext.
  intros x. apply andb_comm.
Qed.

Lemma filter_implied (p q : A -> bool) (l : list A) :
  (forall x, p x = true -> q x = true) ->
  List.filter p (List.filter q l) = List.filter p l.
Proof.
  intros H. rewrite filter_filter_and. apply List.filter_ext.
  intros x. specialize (H x). destruct (p x), (q x); simpl; auto.
Qed.

Lemma StronglySorted_filter (R : A -> A -> Prop) (p : A -> bool) (l : list A) :
  StronglySorted R l -> StronglySorted R (List.filter p l).
Proof.
  induction 1 as [|x l Hs IH Hall]; simpl; [constructor|].
  destruct (p x); [constructor|]; auto.
  rewrite Forall_forall in *. intros y Hy.
  apply List.filter_In in Hy. apply Hall, Hy.
Qed.

(** Two strictly sorted lists with the same elements are the same list. *)
Lemma StronglySorted_unique (R : A -> A -> Prop) :
  (forall x, ~ R x x) ->
  (forall x y, R x y -> R y x -> False) ->
  forall l1 l2 : list A,
    StronglySorted R l1 -> StronglySorted R l2 ->
    (forall x, In x l1 <-> In x l2) -> l1 = l2.
Proof.
  intros Hirr Hasym l1.
  induction l1 as [|a l1 IH]; intros l2 S1 S2 Hin.
  - destruct l2 as [|b l2]; [reflexivity|].
    exfalso. apply (proj2 (Hin b)). left; reflexivity.
  - destruct l2 as [|b l2].
    { exfalso. apply (proj1 (Hin a)). left; reflexivity. }
    inversion S1 as [|? ? S1' F1]; subst.
    inversion S2 as [|? ? S2' F2]; subst.
    rewrite Forall_forall in F1, F2.
    assert (a = b) as ->.
    { destruct (proj1 (Hin a) (or_introl eq_refl)) as [E|Ha]; [auto|].
      destruct (proj2 (Hin b) (or_introl eq_refl)) as [E|Hb]; [auto|].
      exfalso. apply (Hasym a b); auto. }
    f_equal. apply IH; auto.
    intros x; split; intros Hx.
    + destruct (proj1 (Hin x) (or_intror Hx)) as [E|H']; [|exact H'].
      subst x. exfalso. apply (Hirr b). apply F1, Hx.
    + destruct (proj2 (Hin x) (or_intror Hx)) as [E|H']; [|exact H'].
      subst x. exfalso. apply (Hirr b). apply F2, Hx.
Qed.
Lemma length_filter_le (p q : A -> bool) (l : list A) :
  (forall x, p x = true -> q x = true) ->
  (List.length (List.filter p l) <= List.length (List.filter q l))%nat.
Proof.
  intros H. induction l as [|x l IH]; simpl; [lia|].
  specialize (H x). destruct (p x), (q x); simpl; try lia;
    discriminate H; reflexivity.
Qed.

(** Rows counted by [p] and rows counted by [q] are all counted by [r]
    when [p] and [q] exclude each other and each implies [r]. *)
Lemma length_filter_two_le (p q r : A -> bool) (l : list A) :
  (forall x, p x = true -> q x = true -> False) ->
  (forall x, p x = true -> r x = true) ->
  (forall x, q x = true -> r x = true) ->
  (List.length (List.filter p l) + List.length (List.filter q l)
   <= List.length (List.filter r l))%nat.
Proof.
  intros Hpq Hp Hq. induction l as [|x l IH]; simpl; [lia|].
  specialize (Hpq x). specialize (Hp x). specialize (Hq x).
  destruct (p x), (q x), (r x); simpl; try lia;
    try (discriminate Hp; reflexivity); try (discriminate Hq; reflexivity);
    exfalso; auto.
Qed.

Lemma StronglySorted_NoDup (R : A -> A -> Prop) (l : list A) :
  (forall x, ~ R x x) -> StronglySorted R l -> NoDup l.
Proof.
  intros Hirr. induction 1 as [|x l Hs IH Hall]; constructor; [|exact IH].
  intros Hin. rewrite Forall_forall in Hall. exact (Hirr x (Hall x Hin)).
Qed.

(** In a list without duplicates an element has one position. *)
Lemma NoDup_split_unique (x : A) (l1 l2 u v : list A) :
  NoDup (l1 ++ x :: l2) -> l1 ++ x :: l2 = u ++ x :: v -> l1 = u /\ l2 = v.
Proof.
  revert u. induction l1 as [|y l1 IH]; intros u Hnd Heq.
  - destruct u as [|z u]; simpl in *.
    + injection Heq as ->. auto.
    + injection Heq as -> ->. inversion Hnd as [|? ? Hnin _]; subst.
      exfalso. apply Hnin. apply in_or_app. right. left. reflexivity.
  - destruct u as [|z u]; simpl in *.
    + injection Heq as -> <-. inversion Hnd as [|? ? Hnin _]; subst.
      exfalso. apply Hnin. apply in_or_app. right. left. reflexivity.
    + injection Heq as -> Heq. inversion Hnd as [|? ? _ Hnd']; subst.
      destruct (IH u Hnd' Heq) as [-> ->]. auto.
Qed.

(** A property of neighbours in sorted order carries over along maps. *)
Lemma StronglySorted_map_impl {B C : Type} (R : B -> B -> Prop) (S : C -> C -> Prop)
    (f : A -> B) (g : A -> C) (l : list A) :
  (forall x y, In x l -> In y l -> R (f x) (f y) -> S (g x) (g y)) ->
  StronglySorted R (map f l) -> StronglySorted S (map g l).
Proof.
  induction l as [|x l IH]; simpl; intros H Hs; [constructor|].
  inversion Hs as [|? ? Hs' Hall]; subst.
  constructor.
  - apply IH; [|exact Hs']. intros a b Ha Hb. apply H; right; assumption.
  - rewrite Forall_forall in *. intros c Hc.
    apply in_map_iff in Hc. destruct Hc as [y [<- Hy]].
    apply H; [left; reflexivity | right; exact Hy |].
    apply Hall. apply in_map. exact Hy.
Qed.

(** In a strictly sorted list, what follows an element is above it. *)
Lemma StronglySorted_after (R : A -> A -> Prop) (l1 l2 : list A) (x y : A) :
  StronglySorted R (l1 ++ x :: l2) -> In y l2 -> R x y.
Proof.
  induction l1 as [|z l1 IH]; simpl; intros Hs Hy.
  - inversion Hs as [|? ? _ Hall]; subst.
    rewrite Forall_forall in Hall. apply Hall, Hy.
  - inversion Hs; subst. apply IH; assumption.
Qed.

Lemma StronglySorted_map_filter {B : Type} (R : B -> B -> Prop) (f : A -> B)
    (q : A -> bool) (l : list A) :
  StronglySorted R (map f l) -> StronglySorted R (map f (List.filter q l)).
Proof.
  induction l as [|x l IH]; simpl; intros Hs; [constructor|].
  inversion Hs as [|? ? Hs' Hall]; subst.
  destruct (q x); simpl; [constructor|]; auto.
  rewrite Forall_forall in *. intros y Hy.
  apply in_map_iff in Hy. destruct Hy as [z [<- Hz]].
  apply List.filter_In in Hz. apply Hall, in_map, Hz.
Qed.

End ListFacts.

(** ** Facts about dates and periods *)

Module CalendarFacts.
Import Calendar.

Example date_of_days_examples :
  date_of_days 0 = mkDate 1970 1 1
  /\ date_of_days 18993 = mkDate 2022 1 1
  /\ date_of_days 19051 = mkDate 2022 2 28
  /\ date_of_days 19052 = mkDate 2022 3 1
  /\ date_of_days 19782 = mkDate 2024 2 29
  /\ date_of_days (-1) = mkDate 1969 12 31.
Proof. vm_compute. repeat split; reflexivity. Qed.

Lemma date_compare_eq a b : date_compare a b = Eq -> a = b.
Proof.
  destruct a as [y m d], b as [y' m' d']; unfold date_compare, lex; simpl.
  destruct (y ?= y') eqn:Ey; try discriminate.
  destruct (m ?= m') eqn:Em; try discriminate.
  intros Ed. apply Z.compare_eq in Ey, Em, Ed. congruence.
Qed.

Lemma date_compare_refl a : date_compare a a = Eq.
Proof. unfold date_compare, lex. rewrite !Z.compare_refl. reflexivity. Qed.

Lemma date_eqb_eq a b : date_eqb a b = true <-> a = b.
Proof.
  unfold date_eqb. split.
  - destruct (date_compare a b) eqn:E; try discriminate.
    intros _. apply date_compare_eq, E.
  - intros ->. rewrite date_compare_refl. reflexivity.
Qed.

Lemma period_compare_eq a b : period_compare a b = Eq -> a = b.
Proof.
  destruct a as [y m], b as [y' m']; unfold period_compare, lex; simpl.
  destruct (y ?= y') eqn:Ey; try discriminate.
  intros Em. apply Z.compare_eq in Ey, Em. congruence.
Qed.

Lemma period_compare_refl a : period_compare a a = Eq.
Proof. unfold period_compare, lex. rewrite !Z.compare_refl. reflexivity. Qed.

Lemma period_compare_antisym a b :
  period_compare a b = CompOpp (period_compare b a).
Proof.
  unfold period_compare, lex.
  rewrite (Z.compare_antisym (p_year a) (p_year b)).
  rewrite (Z.compare_antisym (p_month a) (p_month b)).
  destruct (p_year a ?= p_year b), (p_month a ?= p_month b); reflexivity.
Qed.

Lemma period_compare_lt_trans a b c :
  period_compare a b = Lt -> period_compare b c = Lt -> period_compare a c = Lt.
Proof.
  destruct a as [y1 m1], b as [y2 m2], c as [y3 m3].
  unfold period_compare, lex; simpl.
  destruct (Z.compare_spec y1 y2), (Z.compare_spec y2 y3),
    (Z.compare_spec y1 y3); try discriminate; try lia; auto.
  rewrite !Z.compare_lt_iff. lia.
Qed.

Lemma period_eqb_eq a b : period_eqb a b = true <-> a = b.
Proof.
  unfold period_eqb. split.
  - destruct (period_compare a b) eqn:E; try discriminate.
    intros _. apply period_compare_eq, E.
  - intros ->. rewrite period_compare_refl. reflexivity.
Qed.

(** Every day of month [p] is dated within the end of [p]. *)
Lemma to_period_within_end (p : Period) (d : Date) :
  period_eqb (to_period d) p = true -> within_end_of p d = true.
Proof.
  rewrite period_eqb_eq. intros <-.
  destruct d as [y m dd].
  unfold within_end_of, date_ltb, date_compare, to_timestamp, next_period, to_period, lex.
  simpl. destruct (Z.eqb_spec m 12) as [->|Hm]; simpl.
  - replace (y ?= y + 1) with Lt; [reflexivity|].
    symmetry. apply Z.compare_lt_iff. lia.
  - rewrite Z.compare_refl.
    replace (m ?= m + 1) with Lt; [reflexivity|].
    symmetry. apply Z.compare_lt_iff. lia.
Qed.

(** For calendar days, being within the end of [p] is being on or before
    the last day of [p]. *)
Lemma within_end_of_last_day (p : Period) (d : Date) :
  1 <= p_month p <= 12 -> valid_date d ->
  within_end_of p d = date_leb d (last_day p).
Proof.
  destruct p as [py pm], d as [y m dd].
  unfold valid_date, within_end_of, date_ltb, date_leb, date_compare, last_day,
    to_timestamp, next_period, lex. simpl.
  intros Hpm [Hm Hd].
  destruct (Z.eqb_spec pm 12) as [->|Hne]; simpl.
  - destruct (Z.compare_spec y (py + 1)); destruct (Z.compare_spec y py);
      try lia; try reflexivity;
      destruct (Z.compare_spec m 1); destruct (Z.compare_spec m 12);
      try lia; try reflexivity;
      destruct (Z.compare_spec dd 1);
      destruct (Z.compare_spec dd (days_in_month py 12));
      subst; try lia; try reflexivity.
  - destruct (Z.compare_spec y py); try reflexivity.
    destruct (Z.compare_spec m (pm + 1)); destruct (Z.compare_spec m pm);
      try lia; try reflexivity;
      destruct (Z.compare_spec dd 1);
      destruct (Z.compare_spec dd (days_in_month py pm));
      subst; try lia; try reflexivity.
Qed.

Lemma date_compare_antisym a b : date_compare a b = CompOpp (date_compare b a).
Proof.
  unfold date_compare, lex.
  rewrite (Z.compare_antisym (year a) (year b)).
  rewrite (Z.compare_antisym (month a) (month b)).
  rewrite (Z.compare_antisym (day a) (day b)).
  destruct (year a ?= year b), (month a ?= month b), (day a ?= day b); reflexivity.
Qed.

Lemma date_compare_lt_iff a b :
  date_compare a b = Lt
  <-> year a < year b
      \/ (year a = year b /\ (month a < month b \/ (month a = month b /\ day a < day b))).
Proof.
  unfold date_compare, lex.
  destruct (Z.compare_spec (year a) (year b)), (Z.compare_spec (month a) (month b)),
    (Z.compare_spec (day a) (day b)); split; intros Hlt; try discriminate Hlt;
    try reflexivity; try lia.
Qed.

Lemma date_compare_lt_trans a b c :
  date_compare a b = Lt -> date_compare b c = Lt -> date_compare a c = Lt.
Proof. rewrite !date_compare_lt_iff. lia. Qed.

End CalendarFacts.

(** ** Facts about group keys *)

Section GroupKeysFacts.
Context {K : Type} (cmp : K -> K -> comparison).

Hypothesis cmp_eq : forall a b, cmp a b = Eq -> a = b.
Hypothesis cmp_refl : forall a, cmp a a = Eq.
Hypothesis cmp_antisym : forall a b, cmp a b = CompOpp (cmp b a).
Hypothesis cmp_trans : forall a b c, cmp a b = Lt -> cmp b c = Lt -> cmp a c = Lt.

Lemma key_lt_irrefl a : ~ key_lt cmp a a.
Proof. unfold key_lt. rewrite cmp_refl. discriminate. Qed.

Lemma key_lt_asym a b : key_lt cmp a b -> key_lt cmp b a -> False.
Proof.
  unfold key_lt. intros H1 H2. rewrite cmp_antisym, H2 in H1. discriminate.
Qed.

Lemma insert_key_In k l x : In x (insert_key cmp k l) <-> x = k \/ In x l.
Proof.
  induction l as [|y l IH]; simpl.
  - intuition.
  - destruct (cmp k y) eqn:E; simpl.
    + apply cmp_eq in E. subst. intuition.
    + intuition.
    + rewrite IH. intuition.
Qed.

Lemma insert_key_sorted k l :
  StronglySorted (key_lt cmp) l -> StronglySorted (key_lt cmp) (insert_key cmp k l).
Proof.
  induction 1 as [|y l Hs IH Hall]; simpl.
  - repeat constructor.
  - destruct (cmp k y) eqn:E.
    + constructor; assumption.
    + constructor; [constructor; assumption|].
      constructor; [exact E|].
      rewrite Forall_forall in *. intros z Hz.
      eapply cmp_trans; [exact E|]. apply Hall, Hz.
    + constructor; [exact IH|].
      rewrite Forall_forall in *. intros z Hz.
      apply insert_key_In in Hz. destruct Hz as [->|Hz]; [|apply Hall, Hz].
      unfold key_lt. rewrite cmp_antisym, E. reflexivity.
Qed.

Lemma group_keys_In l x : In x (group_keys cmp l) <-> In x l.
Proof.
  induction l as [|y l IH]; simpl; [tauto|].
  rewrite insert_key_In, IH. intuition.
Qed.

Lemma group_keys_sorted l : StronglySorted (key_lt cmp) (group_keys cmp l).
Proof.
  induction l as [|y l IH]; simpl; [constructor|].
  apply insert_key_sorted, IH.
Qed.

(** Selecting the groups that satisfy [p] is the same as grouping the rows
    that satisfy [p]. *)
Lemma group_keys_filter (p : K -> bool) (l : list K) :
  List.filter p (group_keys cmp l) = (group_keys cmp) (List.filter p l).
Proof.
  apply (StronglySorted_unique (key_lt cmp) key_lt_irrefl key_lt_asym).
  - apply StronglySorted_filter, group_keys_sorted.
  - apply group_keys_sorted.
  - intros x. rewrite List.filter_In, !group_keys_In, List.filter_In. tauto.
Qed.

End GroupKeysFacts.

(** ** Orders on asset ids *)

Lemma string_compare_eq (a b : string) : String.compare a b = Eq -> a = b.
Proof. apply String.compare_eq_iff. Qed.

Lemma string_compare_refl (a : string) : String.compare a a = Eq.
Proof.
  induction a as [|c a IH]; simpl; [reflexivity|].
  unfold Ascii.compare. rewrite N.compare_refl. exact IH.
Qed.

Lemma string_compare_lt_trans (a b c : string) :
  String.compare a b = Lt -> String.compare b c = Lt -> String.compare a c = Lt.
Proof.
  intros H1 H2.
  apply OrderedTypeEx.String_as_OT.cmp_lt.
  apply OrderedTypeEx.String_as_OT.lt_trans with b;
    apply OrderedTypeEx.String_as_OT.cmp_lt; assumption.
Qed.

(** ** Properties of the universe construction *)

Module UniverseFacts.
Import Calendar CalendarFacts Universe.

Example scenario_universe :
  point_in_time_universe 2 scenario
  = [ (mkDate 2022 1 1, ["A"; "B"]); (mkDate 2022 2 1, ["A"; "C"]) ]%string.
Proof. vm_compute. reflexivity. Qed.

(** *** The group keys form a strict order *)

Lemma group_key_compare_eq a b : group_key_compare a b = Eq -> a = b.
Proof.
  destruct a as [p1 c1], b as [p2 c2]; unfold group_key_compare, lex; simpl.
  destruct (period_compare p1 p2) eqn:Ep; try discriminate.
  intros Ec. apply period_compare_eq in Ep. apply string_compare_eq in Ec.
  congruence.
Qed.

Lemma group_key_compare_refl a : group_key_compare a a = Eq.
Proof.
  unfold group_key_compare, lex.
  rewrite period_compare_refl. apply string_compare_refl.
Qed.

Lemma group_key_compare_antisym a b :
  group_key_compare a b = CompOpp (group_key_compare b a).
Proof.
  unfold group_key_compare, lex.
  rewrite (period_compare_antisym (fst a) (fst b)).
  rewrite (String.compare_antisym (snd a) (snd b)).
  destruct (period_compare (fst b) (fst a)), (String.compare (snd b) (snd a));
    reflexivity.
Qed.

Lemma group_key_compare_lt_trans a b c :
  group_key_compare a b = Lt -> group_key_compare b c = Lt ->
  group_key_compare a c = Lt.
Proof.
  destruct a as [p1 c1], b as [p2 c2], c as [p3 c3].
  unfold group_key_compare, lex; simpl.
  destruct (period_compare p1 p2) eqn:E12; try discriminate;
    destruct (period_compare p2 p3) eqn:E23; try discriminate; intros H1 H2.
  - apply period_compare_eq in E12, E23. subst.
    rewrite period_compare_refl. eapply string_compare_lt_trans; eassumption.
  - apply period_compare_eq in E12. subst. rewrite E23. reflexivity.
  - apply period_compare_eq in E23. subst. rewrite E12. reflexivity.
  - rewrite (period_compare_lt_trans _ _ _ E12 E23). reflexivity.
Qed.

Lemma group_key_eqb_eq a b : group_key_eqb a b = true <-> a = b.
Proof.
  unfold group_key_eqb. split.
  - destruct (group_key_compare a b) eqn:E; try discriminate.
    intros _. apply group_key_compare_eq, E.
  - intros ->. rewrite group_key_compare_refl. reflexivity.
Qed.

Lemma monthly_avg_mcap_keys (df : list CapRow) :
  map avg_key (monthly_avg_mcap df) = group_keys group_key_compare (map group_key df).
Proof.
  unfold monthly_avg_mcap. rewrite map_map.
  rewrite <- (map_id (group_keys _ _)) at 2.
  apply map_ext. intros [p c]. reflexivity.
Qed.

Lemma monthly_avg_mcap_sorted (df : list CapRow) :
  StronglySorted (key_lt group_key_compare) (map avg_key (monthly_avg_mcap df)).
Proof.
  rewrite monthly_avg_mcap_keys.
  apply group_keys_sorted.
  - apply group_key_compare_eq.
  - apply group_key_compare_antisym.
  - apply group_key_compare_lt_trans.
Qed.

(** *** Each step of the calculation acts month by month *)

Section MonthLocal.
Variable p : Period.

Lemma from_start_date_local df :
  List.filter (row_in p) (from_start_date df) = from_start_date (List.filter (row_in p) df).
Proof. unfold from_start_date. apply filter_comm. Qed.

Lemma dropna_market_cap_local df :
  List.filter (cap_in p) (dropna_market_cap df) = dropna_market_cap (List.filter (row_in p) df).
Proof.
  induction df as [|r df IH]; simpl; [reflexivity|].
  rewrite List.filter_app, IH.
  unfold row_in at 2, cap_in at 1.
  destruct (market_cap r) as [v|] eqn:Ev; simpl;
    destruct (period_eqb (to_period (date r)) p); simpl; rewrite ?Ev; reflexivity.
Qed.

Lemma filter_map_swap {A B : Type} (f : A -> B) (q : B -> bool) (l : list A) :
  List.filter q (map f l) = map f (List.filter (fun x => q (f x)) l).
Proof.
  induction l as [|x l IH]; simpl; [reflexivity|].
  destruct (q (f x)); simpl; rewrite IH; reflexivity.
Qed.

Lemma monthly_avg_mcap_local df :
  List.filter (avg_in p) (monthly_avg_mcap df) = monthly_avg_mcap (List.filter (cap_in p) df).
Proof.
  unfold monthly_avg_mcap.
  rewrite filter_map_swap.
  change (fun x : GroupKey => (avg_in p) _) with (fun x : GroupKey => period_eqb (fst x) p).
  rewrite (group_keys_filter group_key_compare group_key_compare_eq
             group_key_compare_refl group_key_compare_antisym
             group_key_compare_lt_trans).
  rewrite filter_map_swap.
  change (fun x : CapRow => period_eqb (fst (group_key x)) p) with (cap_in p).
  apply map_ext_in. intros k Hk. f_equal. f_equal. f_equal.
  symmetry. apply filter_implied.
  intros r Hr. apply group_key_eqb_eq in Hr.
  apply group_keys_In in Hk; [|apply group_key_compare_eq].
  apply in_map_iff in Hk. destruct Hk as [r' [Hr' Hin]].
  apply List.filter_In in Hin. destruct Hin as [_ Hin].
  unfold cap_in in *. rewrite <- Hr' in Hr.
  replace (to_period (c_date r)) with (to_period (c_date r')); [exact Hin|].
  exact (f_equal fst (eq_sym Hr)).
Qed.

Lemma rank_first_desc_local all seen r :
  avg_in p r = true ->
  rank_first_desc (List.filter (avg_in p) all) (List.filter (avg_in p) seen) r
  = rank_first_desc all seen r.
Proof.
  intros Hr. apply period_eqb_eq in Hr. unfold rank_first_desc.
  rewrite !filter_implied; [reflexivity| |].
  - intros x Hx. unfold ties_with in Hx. apply andb_true_iff in Hx.
    unfold avg_in. rewrite <- Hr. apply Hx.
  - intros x Hx. unfold outranks in Hx. apply andb_true_iff in Hx.
    unfold avg_in. rewrite <- Hr. apply Hx.
Qed.

Lemma assign_ranks_local all seen rest :
  List.filter (in_month p) (assign_ranks all seen rest)
  = assign_ranks (List.filter (avg_in p) all) (List.filter (avg_in p) seen)
      (List.filter (avg_in p) rest).
Proof.
  revert seen. induction rest as [|r rest IH]; intros seen; simpl; [reflexivity|].
  unfold in_month at 1. simpl. fold (avg_in p r).
  rewrite IH, List.filter_app. simpl.
  destruct (avg_in p r) eqn:Hr; simpl.
  - rewrite rank_first_desc_local by exact Hr. reflexivity.
  - rewrite app_nil_r. reflexivity.
Qed.

Lemma ranked_table_local df :
  List.filter (in_month p) (ranked_table df) = ranked_table (List.filter (row_in p) df).
Proof.
  unfold ranked_table, with_rank.
  rewrite assign_ranks_local. simpl.
  rewrite monthly_avg_mcap_local, dropna_market_cap_local, from_start_date_local.
  reflexivity.
Qed.

(** The entry of month [p] lists the assets of the rows of [p] in the
    top-N table, and exists when there is such a row. *)
Lemma snapshot_universe_dict (t : list (AvgRow * nat)) :
  snapshot (universe_dict t) p
  = match List.filter (in_month p) t with
    | [] => None
    | g => Some (map (fun x => a_coin (fst x)) g)
    end.
Proof.
  unfold universe_dict.
  assert (Hks : forall ks,
    snapshot (map (fun m => (to_timestamp m,
        map (fun x => a_coin (fst x)) (List.filter (in_month m) t))) ks) p
    = if existsb (fun m => period_eqb m p) ks
      then Some (map (fun x => a_coin (fst x)) (List.filter (in_month p) t))
      else None).
  { induction ks as [|m ks IH]; simpl; [reflexivity|].
    destruct (date_eqb (to_timestamp m) (to_timestamp p)) eqn:E.
    - apply date_eqb_eq in E. injection E as Ey Em.
      assert (m = p) as -> by (destruct m, p; simpl in *; congruence).
      rewrite (proj2 (period_eqb_eq p p) eq_refl). reflexivity.
    - destruct (period_eqb m p) eqn:E'.
      + apply period_eqb_eq in E'. subst m.
        rewrite (proj2 (date_eqb_eq _ _) eq_refl) in E. discriminate.
      + simpl. apply IH. }
  rewrite Hks.
  destruct (existsb _ _) eqn:Ex.
  - apply existsb_exists in Ex. destruct Ex as [m [Hm Hp]].
    apply period_eqb_eq in Hp. subst m.
    apply group_keys_In in Hm; [|apply period_compare_eq].
    apply in_map_iff in Hm. destruct Hm as [x [Hx Hin]].
    assert (In x (List.filter (in_month p) t)) as Hin'.
    { apply List.filter_In. split; [exact Hin|].
      unfold in_month. apply period_eqb_eq, Hx. }
    destruct (List.filter (in_month p) t); [destruct Hin'|reflexivity].
  - destruct (List.filter (in_month p) t) as [|x g] eqn:Eg; [reflexivity|].
    exfalso.
    assert (In x (List.filter (in_month p) t)) as Hin by (rewrite Eg; left; reflexivity).
    apply List.filter_In in Hin. destruct Hin as [Hin Hm].
    apply not_true_iff_false in Ex. apply Ex.
    apply existsb_exists. exists p. split.
    + apply group_keys_In; [apply period_compare_eq|].
      apply in_map_iff. exists x. split; [|exact Hin].
      apply period_eqb_eq, Hm.
    + apply period_eqb_eq. reflexivity.
Qed.

Lemma top_n_local n t :
  List.filter (in_month p) (top_n n t) = top_n n (List.filter (in_month p) t).
Proof. unfold top_n. apply filter_comm. Qed.

(** Rows of month [p] are among the rows dated within the end of [p]. *)
Lemma rows_of_month_within_end df :
  List.filter (row_in p) (List.filter (fun r => within_end_of p (date r)) df)
  = List.filter (row_in p) df.
Proof.
  apply filter_implied. intros r Hr. apply to_period_within_end, Hr.
Qed.

End MonthLocal.

(** *** The shape of the ranked table *)

Lemma assign_ranks_fst all seen rest : map fst (assign_ranks all seen rest) = rest.
Proof.
  revert seen. induction rest as [|r rest IH]; intros seen; simpl; [reflexivity|].
  rewrite IH. reflexivity.
Qed.

Lemma assign_ranks_app all seen l1 l2 :
  assign_ranks all seen (l1 ++ l2)
  = assign_ranks all seen l1 ++ assign_ranks all (seen ++ l1) l2.
Proof.
  revert seen. induction l1 as [|r l1 IH]; intros seen; simpl.
  - rewrite app_nil_r. reflexivity.
  - rewrite IH, <- app_assoc. reflexivity.
Qed.

(** An entry of the ranked table sits at a position of the averaged frame
    and holds the rank computed from the rows above that position. *)
Lemma In_with_rank (df : list AvgRow) (r : AvgRow) (k : nat) :
  In (r, k) (with_rank df) ->
  exists l1 l2, df = l1 ++ r :: l2 /\ k = rank_first_desc df l1 r.
Proof.
  unfold with_rank. intros Hin.
  apply in_split in Hin. destruct Hin as [t1 [t2 Ht]].
  pose proof (assign_ranks_fst df [] df) as Hfst.
  rewrite Ht, map_app in Hfst. simpl in Hfst.
  exists (map fst t1), (map fst t2). split; [symmetry; exact Hfst|].
  rewrite <- Hfst in Ht at 2.
  rewrite assign_ranks_app in Ht. simpl in Ht.
  apply app_inj_1 in Ht.
  - destruct Ht as [_ Hk]. injection Hk as Hk _. symmetry. exact Hk.
  - rewrite <- (length_map fst (assign_ranks _ _ _)), assign_ranks_fst.
    apply length_map.
Qed.

(** *** How ranks compare *)

Lemma outranks_self r : outranks r r = false.
Proof.
  unfold outranks. rewrite (proj1 (Qeq_alt _ _) (Qeq_refl (a_mcap r))).
  apply andb_false_r.
Qed.

(** A row with a strictly larger average in the same month has a strictly
    smaller rank, wherever the two rows stand. *)
Lemma rank_lt_of_larger (all l1 l2 seen : list AvgRow) (ra rb : AvgRow) :
  all = l1 ++ ra :: l2 ->
  a_month ra = a_month rb ->
  (a_mcap rb < a_mcap ra)%Q ->
  (rank_first_desc all l1 ra < rank_first_desc all seen rb)%nat.
Proof.
  intros -> Hm Hlt. unfold rank_first_desc.
  assert (Hab : outranks rb ra = true).
  { unfold outranks. rewrite Hm, (proj2 (period_eqb_eq _ _) eq_refl). simpl.
    rewrite (proj1 (Qlt_alt _ _) Hlt). reflexivity. }
  assert (Himp : forall x, outranks ra x = true -> outranks rb x = true).
  { intros x Hx. unfold outranks in *. apply andb_true_iff in Hx.
    destruct Hx as [Hx1 Hx2]. rewrite <- Hm, Hx1. simpl.
    destruct (a_mcap ra ?= a_mcap x)%Q eqn:E; try discriminate.
    apply Qlt_alt in E.
    rewrite (proj1 (Qlt_alt _ _) (Qlt_trans _ _ _ Hlt E)). reflexivity. }
  assert (Htie : forall x, ties_with ra x = true -> outranks rb x = true).
  { intros x Hx. unfold ties_with, outranks in *. apply andb_true_iff in Hx.
    destruct Hx as [Hx1 Hx2]. rewrite <- Hm, Hx1. simpl.
    destruct (a_mcap ra ?= a_mcap x)%Q eqn:E; try discriminate.
    apply Qeq_alt in E.
    assert (a_mcap rb < a_mcap x)%Q as H by (rewrite <- E; exact Hlt).
    rewrite (proj1 (Qlt_alt _ _) H). reflexivity. }
  assert (Hex : forall x, outranks ra x = true -> ties_with ra x = true -> False).
  { intros x H1 H2. unfold outranks, ties_with in *.
    apply andb_true_iff in H1, H2.
    destruct (a_mcap ra ?= a_mcap x)%Q; destruct H1, H2; discriminate. }
  rewrite !List.filter_app. simpl. rewrite outranks_self, Hab.
  rewrite !length_app. simpl.
  pose proof (length_filter_two_le _ _ _ l1 Hex Himp Htie).
  pose proof (length_filter_le _ _ l2 Himp).
  lia.
Qed.

(** Of two rows with equal averages in the same month, the one standing
    higher in the frame has the smaller rank. *)
Lemma rank_lt_of_tie (all l1 mid l2 : list AvgRow) (ra rb : AvgRow) :
  all = l1 ++ ra :: mid ++ rb :: l2 ->
  a_month ra = a_month rb ->
  (a_mcap ra == a_mcap rb)%Q ->
  (rank_first_desc all l1 ra < rank_first_desc all (l1 ++ ra :: mid) rb)%nat.
Proof.
  intros _ Hm Heq. unfold rank_first_desc.
  assert (Hout : forall x, outranks ra x = outranks rb x).
  { intros x. unfold outranks. rewrite Hm.
    rewrite (Qcompare_comp _ _ Heq _ _ (Qeq_refl (a_mcap x))). reflexivity. }
  assert (Hties : forall x, ties_with ra x = ties_with rb x).
  { intros x. unfold ties_with. rewrite Hm.
    rewrite (Qcompare_comp _ _ Heq _ _ (Qeq_refl (a_mcap x))). reflexivity. }
  assert (Hab : ties_with rb ra = true).
  { unfold ties_with. rewrite Hm, (proj2 (period_eqb_eq _ _) eq_refl). simpl.
    rewrite (proj1 (Qeq_alt _ _) (Qeq_sym _ _ Heq)). reflexivity. }
  rewrite (List.filter_ext _ _ Hout all).
  rewrite (List.filter_ext _ _ Hties l1).
  rewrite List.filter_app. simpl. rewrite Hab. rewrite length_app. simpl.
  lia.
Qed.

Lemma lookup_entry (t : list (AvgRow * nat)) (p : Period) (coin : string)
    (k : nat) (q : Q) :
  rank_of t p coin = Some k -> average_of t p coin = Some q ->
  exists r, In (r, k) t /\ a_month r = p /\ a_coin r = coin /\ a_mcap r = q.
Proof.
  induction t as [|[r k'] t IH]; simpl; [discriminate|].
  destruct (period_eqb (a_month r) p && String.eqb (a_coin r) coin) eqn:E.
  - intros [= <-] [= <-]. apply andb_true_iff in E. destruct E as [E1 E2].
    apply period_eqb_eq in E1. apply String.eqb_eq in E2.
    exists r. auto.
  - intros H1 H2. destruct (IH H1 H2) as [r' [Hin H']].
    exists r'. auto.
Qed.

(** An asset has a rank in a month exactly when it has an average there. *)
Lemma rank_of_defined (t : list (AvgRow * nat)) (p : Period) (coin : string) :
  (exists k, rank_of t p coin = Some k) <-> (exists q, average_of t p coin = Some q).
Proof.
  induction t as [|[r k'] t IH]; simpl.
  - split; intros [? H]; discriminate.
  - destruct (period_eqb (a_month r) p && String.eqb (a_coin r) coin); [|exact IH].
    split; intros _; eauto.
Qed.

Lemma ranked_table_sorted (df : list Row) :
  StronglySorted (key_lt group_key_compare)
    (map (fun x => avg_key (fst x)) (ranked_table df)).
Proof.
  unfold ranked_table, with_rank.
  rewrite <- (map_map fst avg_key), assign_ranks_fst.
  apply monthly_avg_mcap_sorted.
Qed.

(** In the averaged frame a row with a smaller group key stands higher. *)
Lemma smaller_key_stands_higher (avg l1 l2 l1' l2' : list AvgRow) (ra rb : AvgRow) :
  StronglySorted (key_lt group_key_compare) (map avg_key avg) ->
  avg = l1 ++ ra :: l2 -> avg = l1' ++ rb :: l2' ->
  key_lt group_key_compare (avg_key ra) (avg_key rb) ->
  exists mid, l1' = l1 ++ ra :: mid.
Proof.
  intros Hs Ha Hb Hlt.
  assert (Hirr : forall k, ~ key_lt group_key_compare k k).
  { intros k. apply key_lt_irrefl, group_key_compare_refl. }
  assert (Hnd : NoDup avg).
  { apply NoDup_map_inv with (f := avg_key).
    apply (StronglySorted_NoDup _ _ Hirr Hs). }
  assert (Hin : In ra (l1' ++ rb :: l2')).
  { rewrite <- Hb, Ha. apply in_or_app. right. left. reflexivity. }
  apply in_app_or in Hin. destruct Hin as [Hin|[Heq|Hin]].
  - apply in_split in Hin. destruct Hin as [u [mid Hu]].
    exists mid. subst l1'.
    rewrite <- app_assoc in Hb. simpl in Hb.
    rewrite Ha in Hnd. rewrite Ha in Hb.
    destruct (NoDup_split_unique _ _ _ _ _ Hnd Hb) as [-> _]. reflexivity.
  - subst rb. exfalso. exact (Hirr _ Hlt).
  - exfalso. rewrite Hb, map_app in Hs. simpl in Hs.
    apply (key_lt_asym group_key_compare group_key_compare_antisym _ _ Hlt).
    apply (StronglySorted_after _ _ _ _ _ Hs).
    apply in_map, Hin.
Qed.

(** How the main block ends without usable histories. *)
Example create_universe_without_data :
  create_universe [] = SystemExit
  /\ create_universe [ []; [] ] = KeyErrorRaised.
Proof. split; reflexivity. Qed.

Example create_universe_scenario :
  create_universe [scenario]
  = UniverseSaved [ (mkDate 2022 1 1, ["A"; "B"; "C"]); (mkDate 2022 2 1, ["A"; "B"; "C"]) ]%string.
Proof. vm_compute. reflexivity. Qed.

(** *** Claims about the universe construction *)

(** With exact means, two runs of the universe calculation whose inputs
    agree on every row dated no later than the end of period [p] give the
    rows of [p] the same averages and ranks, and produce the same snapshot
    for [p], whatever the universe size.  This is a fact about the
    calculation without rounding; what the floats of the script do is in
    [UniverseBinary64Facts]. *)
Lemma exact_no_look_ahead (n : nat) (p : Period) (df1 df2 : list Row) :
  List.filter (fun r => within_end_of p (date r)) df1
  = List.filter (fun r => within_end_of p (date r)) df2 ->
  List.filter (in_month p) (ranked_table df1)
  = List.filter (in_month p) (ranked_table df2)
  /\ snapshot (point_in_time_universe n df1) p
     = snapshot (point_in_time_universe n df2) p.
Proof.
  intros Hagree.
  assert (Hrows : List.filter (row_in p) df1 = List.filter (row_in p) df2).
  { rewrite <- (rows_of_month_within_end p df1), <- (rows_of_month_within_end p df2).
    rewrite Hagree. reflexivity. }
  assert (Hranked : List.filter (in_month p) (ranked_table df1)
                    = List.filter (in_month p) (ranked_table df2)).
  { rewrite !ranked_table_local, Hrows. reflexivity. }
  split; [exact Hranked|].
  unfold point_in_time_universe.
  rewrite !snapshot_universe_dict, !top_n_local, Hranked. reflexivity.
Qed.

Example exact_no_look_ahead_scenario :
  List.filter (fun r => within_end_of jan_2022 (date r)) scenario
  = List.filter (fun r => within_end_of jan_2022 (date r)) scenario_revised
  /\ snapshot (point_in_time_universe 2 scenario) jan_2022
     = snapshot (point_in_time_universe 2 scenario_revised) jan_2022.
Proof.
  split.
  - vm_compute. reflexivity.
  - apply (exact_no_look_ahead 2 jan_2022 scenario scenario_revised).
    vm_compute. reflexivity.
Qed.

(** The later data does change the later snapshot, so the example above is
    not an accident of equal inputs. *)
Example scenario_revised_differs :
  snapshot (point_in_time_universe 2 scenario) feb_2022 = Some ["A"; "C"]%string
  /\ snapshot (point_in_time_universe 2 scenario_revised) feb_2022 = Some ["B"; "D"]%string.
Proof. split; vm_compute; reflexivity. Qed.

(** C3, as stated, fails: zeta comes first in the input and has the same
    monthly average as alpha, yet alpha gets rank 1 and zeta rank 2, and a
    universe of size one keeps alpha. *)
Lemma input_order_tie_break_fails :
  let df := concat_histories tie_histories in
  df = [ mkRow (mkDate 2022 1 10) "zeta" (Some 100%Q);
         mkRow (mkDate 2022 1 10) "alpha" (Some 100%Q) ]
  /\ average_of (ranked_table df) jan_2022 "zeta" = Some (100 # 1)%Q
  /\ average_of (ranked_table df) jan_2022 "alpha" = Some (100 # 1)%Q
  /\ rank_of (ranked_table df) jan_2022 "zeta" = Some 2%nat
  /\ rank_of (ranked_table df) jan_2022 "alpha" = Some 1%nat
  /\ point_in_time_universe 1 df = [ (mkDate 2022 1 1, ["alpha"]%string) ].
Proof. vm_compute. repeat split; reflexivity. Qed.

(** C3 (amended). Within a month, an asset with a strictly larger monthly
    average market cap has a strictly smaller rank; of two assets with equal
    averages, the one whose id is smaller in lexicographic order has the
    smaller rank, because ranks break ties by position in the grouped frame,
    which is sorted by asset id. *)
Theorem rank_order_and_tie_break (df : list Row) (p : Period) (a b : string)
    (qa qb : Q) (ka kb : nat) :
  average_of (ranked_table df) p a = Some qa ->
  average_of (ranked_table df) p b = Some qb ->
  rank_of (ranked_table df) p a = Some ka ->
  rank_of (ranked_table df) p b = Some kb ->
  ((qb < qa)%Q -> (ka < kb)%nat)
  /\ ((qa == qb)%Q -> string_lt a b -> (ka < kb)%nat).
Proof.
  intros Haa Hab Hra Hrb.
  destruct (lookup_entry _ _ _ _ _ Hra Haa) as [ra [Hina [Hma [Hca Hqa]]]].
  destruct (lookup_entry _ _ _ _ _ Hrb Hab) as [rb [Hinb [Hmb [Hcb Hqb]]]].
  pose proof (ranked_table_sorted df) as Hsorted.
  unfold ranked_table in *.
  set (avg := monthly_avg_mcap (dropna_market_cap (from_start_date df))) in *.
  destruct (In_with_rank _ _ _ Hina) as [l1 [l2 [Hsa Hka]]].
  destruct (In_with_rank _ _ _ Hinb) as [l1' [l2' [Hsb Hkb]]].
  assert (Hm : a_month ra = a_month rb) by congruence.
  split.
  - intros Hlt. rewrite Hka, Hkb.
    apply rank_lt_of_larger with (l2 := l2); [exact Hsa | exact Hm |].
    rewrite Hqa, Hqb. exact Hlt.
  - intros Heq Hlt.
    assert (Hkey : key_lt group_key_compare (avg_key ra) (avg_key rb)).
    { unfold key_lt, avg_key, group_key_compare, lex. simpl.
      rewrite Hm, period_compare_refl, Hca, Hcb. exact Hlt. }
    assert (Hs : StronglySorted (key_lt group_key_compare) (map avg_key avg)).
    { unfold with_rank in Hsorted.
      rewrite <- (map_map fst avg_key), assign_ranks_fst in Hsorted.
      exact Hsorted. }
    destruct (smaller_key_stands_higher _ _ _ _ _ _ _ Hs Hsa Hsb Hkey) as [mid ->].
    rewrite Hka, Hkb.
    apply rank_lt_of_tie with (l2 := l2'); [|exact Hm|].
    + rewrite Hsb, <- app_assoc. reflexivity.
    + rewrite Hqa, Hqb. exact Heq.
Qed.

Lemma rank_order_and_tie_break_witness :
  (1 < 2)%nat.
Proof.
  apply (proj2 (rank_order_and_tie_break (concat_histories tie_histories)
                  jan_2022 "alpha" "zeta" (100 # 1) (100 # 1) 1 2
                  eq_refl eq_refl eq_refl eq_refl)).
  - reflexivity.
  - reflexivity.
Defined.

(** C9 (order of a snapshot's list). Every list of the universe artifact is
    in strictly ascending lexicographic order of asset id: the order of the
    grouped frame, whatever the ranks of the assets. *)
Theorem snapshot_lists_ascending (n : nat) (df : list Row) (k : Date)
    (coins : list string) :
  In (k, coins) (point_in_time_universe n df) ->
  StronglySorted string_lt coins.
Proof.
  unfold point_in_time_universe, universe_dict. intros Hin.
  apply in_map_iff in Hin. destruct Hin as [m [Heq _]].
  injection Heq as _ <-.
  apply StronglySorted_map_impl
    with (R := key_lt group_key_compare) (f := fun x : AvgRow * nat => avg_key (fst x)).
  - intros x y Hx Hy Hlt.
    apply List.filter_In in Hx, Hy. destruct Hx as [_ Hx], Hy as [_ Hy].
    unfold in_month in Hx, Hy. apply period_eqb_eq in Hx, Hy.
    unfold key_lt, avg_key, group_key_compare, lex in Hlt. simpl in Hlt.
    rewrite Hx, Hy, period_compare_refl in Hlt. exact Hlt.
  - apply StronglySorted_map_filter. unfold top_n.
    apply StronglySorted_map_filter. apply ranked_table_sorted.
Qed.

Lemma snapshot_lists_ascending_witness :
  In (mkDate 2022 2 1, ["A"; "B"; "C"]%string) (point_in_time_universe 3 scenario)
  /\ StronglySorted string_lt ["A"; "B"; "C"]%string.
Proof.
  split.
  - vm_compute. right. left. reflexivity.
  - apply (snapshot_lists_ascending 3 scenario (mkDate 2022 2 1)).
    vm_compute. right. left. reflexivity.
Defined.

(** In February the scenario ranks A first, C second and B third, and the
    list is nevertheless A, B, C. *)
Example snapshot_list_not_in_rank_order :
  rank_of (ranked_table scenario) feb_2022 "A" = Some 1%nat
  /\ rank_of (ranked_table scenario) feb_2022 "C" = Some 2%nat
  /\ rank_of (ranked_table scenario) feb_2022 "B" = Some 3%nat
  /\ snapshot (point_in_time_universe 3 scenario) feb_2022 = Some ["A"; "B"; "C"]%string.
Proof. vm_compute. repeat split; reflexivity. Qed.

(** *** Ranks within a month *)

Lemma In_assign_ranks (all seen rest : list AvgRow) (r : AvgRow) (k : nat) :
  In (r, k) (assign_ranks all seen rest) ->
  exists mid l2, rest = mid ++ r :: l2 /\ k = rank_first_desc all (seen ++ mid) r.
Proof.
  revert seen. induction rest as [|x rest IH]; intros seen; simpl; [intros []|].
  intros [Heq|Hin].
  - injection Heq as -> <-. exists [], rest. rewrite app_nil_r. auto.
  - destruct (IH _ Hin) as [mid [l2 [-> Hk]]].
    exists (x :: mid), l2. rewrite <- app_assoc in Hk. auto.
Qed.

(** Two rows of the same month never get the same rank. *)
Lemma ranks_differ (all l1 mid l2 : list AvgRow) (ra rb : AvgRow) :
  all = l1 ++ ra :: mid ++ rb :: l2 ->
  a_month ra = a_month rb ->
  rank_first_desc all l1 ra <> rank_first_desc all (l1 ++ ra :: mid) rb.
Proof.
  intros Hall Hm.
  destruct (Qcompare (a_mcap ra) (a_mcap rb)) eqn:E.
  - apply Qeq_alt in E.
    pose proof (rank_lt_of_tie all l1 mid l2 ra rb Hall Hm E). lia.
  - apply Qlt_alt in E.
    assert (Hall' : all = (l1 ++ ra :: mid) ++ rb :: l2)
      by (rewrite Hall, <- app_assoc; reflexivity).
    pose proof (rank_lt_of_larger all (l1 ++ ra :: mid) l2 l1 rb ra Hall'
                  (eq_sym Hm) E). lia.
  - apply Qgt_alt in E.
    pose proof (rank_lt_of_larger all l1 (mid ++ rb :: l2) (l1 ++ ra :: mid) ra rb
                  Hall Hm E). lia.
Qed.

Lemma month_ranks_NoDup (p : Period) (all seen rest : list AvgRow) :
  all = seen ++ rest ->
  NoDup (map snd (List.filter (in_month p) (assign_ranks all seen rest))).
Proof.
  revert seen. induction rest as [|r rest IH]; intros seen Hall; simpl; [constructor|].
  assert (Hrest : NoDup (map snd (List.filter (in_month p)
                                    (assign_ranks all (seen ++ [r]) rest))))
    by (apply IH; rewrite Hall, <- app_assoc; reflexivity).
  destruct (in_month p (r, rank_first_desc all seen r)) eqn:Hp; [|exact Hrest].
  simpl. constructor; [|exact Hrest].
  intros Hin. apply in_map_iff in Hin. destruct Hin as [[rb kb] [Hk Hin]].
  simpl in Hk. subst kb.
  apply List.filter_In in Hin. destruct Hin as [Hin Hpb].
  apply In_assign_ranks in Hin. destruct Hin as [mid [l2 [-> Hk]]].
  unfold in_month in Hp, Hpb. simpl in Hp, Hpb.
  apply period_eqb_eq in Hp, Hpb.
  rewrite <- app_assoc in Hk. simpl in Hk.
  apply (ranks_differ all seen mid l2 r rb Hall); [congruence|exact Hk].
Qed.

Lemma NoDup_map_filter {A B : Type} (f : A -> B) (q : A -> bool) (l : list A) :
  NoDup (map f l) -> NoDup (map f (List.filter q l)).
Proof.
  induction l as [|x l IH]; simpl; intros Hnd; [constructor|].
  inversion Hnd as [|? ? Hnin Hnd']; subst.
  destruct (q x); simpl; [|apply IH, Hnd'].
  constructor; [|apply IH, Hnd'].
  intros Hin. apply Hnin. apply in_map_iff in Hin. destruct Hin as [y [Hy Hin]].
  apply List.filter_In in Hin. apply in_map_iff. exists y. tauto.
Qed.

(** Distinct ranks between 1 and [n] are at most [n]. *)
Lemma distinct_ranks_bounded (n : nat) (ranks : list nat) :
  NoDup ranks -> Forall (fun k => (1 <= k <= n)%nat) ranks ->
  (List.length ranks <= n)%nat.
Proof.
  intros Hnd Hall.
  assert (Hincl : incl ranks (seq 1 n)).
  { intros k Hk. rewrite Forall_forall in Hall. apply in_seq.
    specialize (Hall k Hk). lia. }
  pose proof (NoDup_incl_length Hnd Hincl) as Hlen.
  rewrite length_seq in Hlen. exact Hlen.
Qed.

Lemma rank_in_table_positive (df : list AvgRow) (r : AvgRow) (k : nat) :
  In (r, k) (with_rank df) -> (1 <= k)%nat.
Proof.
  intros Hin. apply In_with_rank in Hin. destruct Hin as [l1 [l2 [_ ->]]].
  unfold rank_first_desc. lia.
Qed.

(** X17 (size of a snapshot). Every list of the universe computed with
    size [n] holds at most [n] assets: within a month no two assets share a
    rank, ties included, and the ranks start at 1. *)
Theorem snapshot_size_bounded (n : nat) (df : list Row) (k : Date) (coins : list string) :
  In (k, coins) (point_in_time_universe n df) ->
  (List.length coins <= n)%nat.
Proof.
  unfold point_in_time_universe, universe_dict. intros Hin.
  apply in_map_iff in Hin. destruct Hin as [m [Heq _]].
  injection Heq as _ <-.
  rewrite length_map, <- (length_map snd).
  apply distinct_ranks_bounded.
  - unfold top_n. rewrite filter_comm. apply NoDup_map_filter.
    unfold ranked_table, with_rank. apply month_ranks_NoDup. reflexivity.
  - rewrite Forall_forall. intros rk Hrk.
    apply in_map_iff in Hrk. destruct Hrk as [[r rk'] [Heq Hin]]. simpl in Heq. subst rk'.
    apply List.filter_In in Hin. destruct Hin as [Hin _].
    unfold top_n in Hin. apply List.filter_In in Hin. destruct Hin as [Hin Hle].
    simpl in Hle. apply Nat.leb_le in Hle.
    split; [|exact Hle].
    unfold ranked_table in Hin. eapply rank_in_table_positive. exact Hin.
Qed.

Lemma snapshot_size_bounded_witness :
  In (mkDate 2022 2 1, ["A"; "C"]%string) (point_in_time_universe 2 scenario)
  /\ (List.length ["A"; "C"]%string <= 2)%nat.
Proof.
  split.
  - vm_compute. right. left. reflexivity.
  - apply (snapshot_size_bounded 2 scenario (mkDate 2022 2 1)).
    vm_compute. right. left. reflexivity.
Defined.

(** *** The keys of the artifact *)

Lemma ranked_table_months (df : list Row) (r : AvgRow) (k : nat) :
  In (r, k) (ranked_table df) ->
  exists row, In row df /\ date_leb START_DATE (date row) = true
              /\ a_month r = to_period (date row) /\ a_coin r = coin_id row
              /\ market_cap row <> None.
Proof.
  unfold ranked_table, with_rank. intros Hin.
  apply (in_map fst) in Hin. rewrite assign_ranks_fst in Hin. simpl in Hin.
  apply (in_map avg_key) in Hin. rewrite monthly_avg_mcap_keys in Hin.
  apply group_keys_In in Hin; [|apply group_key_compare_eq].
  apply in_map_iff in Hin. destruct Hin as [c [Hkey Hc]].
  unfold dropna_market_cap in Hc. apply in_flat_map in Hc.
  destruct Hc as [row [Hrow Hc]].
  destruct (market_cap row) as [v|] eqn:Ev; [|destruct Hc].
  destruct Hc as [<-|[]].
  unfold from_start_date in Hrow. apply List.filter_In in Hrow.
  unfold avg_key, group_key in Hkey. simpl in Hkey. injection Hkey as Hm Hcoin.
  exists row. rewrite Ev. repeat split; try tauto; try congruence.
Qed.

Lemma to_timestamp_lt (a b : Period) :
  period_compare a b = Lt -> date_compare (to_timestamp a) (to_timestamp b) = Lt.
Proof.
  unfold period_compare, date_compare, to_timestamp, lex.
  cbn [year month day].
  destruct (p_year a ?= p_year b); try (intros H; exact H).
  destruct (p_month a ?= p_month b); intros H; try discriminate H; reflexivity.
Qed.

Lemma to_timestamp_from_start (d : Date) :
  date_leb START_DATE d = true ->
  date_leb START_DATE (to_timestamp (to_period d)) = true.
Proof.
  unfold date_leb, date_compare, to_timestamp, to_period, START_DATE, lex.
  cbn [year month day p_year p_month].
  destruct (Z.compare_spec 2022 (year d)), (Z.compare_spec 1 (month d)),
    (Z.compare_spec 1 (day d)); intros Hd; try discriminate Hd; reflexivity.
Qed.

(** X18 (keys of the artifact). The entries of the universe come in
    strictly ascending month order; every key is the first day of a month
    and is on or after [START_DATE]; and no entry has an empty list. *)
Theorem universe_keys (n : nat) (df : list Row) :
  StronglySorted (fun a b => date_compare a b = Lt)
    (map fst (point_in_time_universe n df))
  /\ forall k coins, In (k, coins) (point_in_time_universe n df) ->
       day k = 1 /\ date_leb START_DATE k = true /\ coins <> [].
Proof.
  unfold point_in_time_universe, universe_dict. split.
  - rewrite map_map. cbn [fst].
    set (months := group_keys period_compare _).
    apply StronglySorted_map_impl
      with (R := key_lt period_compare) (f := fun m : Period => m).
    + intros x y _ _. apply to_timestamp_lt.
    + rewrite map_id. apply (group_keys_sorted period_compare period_compare_eq).
      * exact period_compare_antisym.
      * exact period_compare_lt_trans.
  - intros k coins Hin. apply in_map_iff in Hin. destruct Hin as [m [Heq Hm]].
    injection Heq as <- <-.
    apply group_keys_In in Hm; [|apply period_compare_eq].
    apply in_map_iff in Hm. destruct Hm as [[r rk] [Hmonth Hx]]. simpl in Hmonth.
    split; [reflexivity|]. split.
    + unfold top_n in Hx. apply List.filter_In in Hx. destruct Hx as [Hx _].
      apply ranked_table_months in Hx.
      destruct Hx as [row (_ & Hstart & Hp & _)]. simpl in Hp.
      rewrite <- Hmonth, Hp. apply to_timestamp_from_start, Hstart.
    + assert (Hin : In (r, rk) (List.filter (in_month m)
                                  (top_n n (ranked_table df)))).
      { apply List.filter_In. split; [exact Hx|].
        unfold in_month. apply period_eqb_eq. exact Hmonth. }
      destruct (List.filter (in_month m) (top_n n (ranked_table df)));
        [destruct Hin|discriminate].
Qed.

(** *** Who is in a snapshot *)

Lemma rank_of_In (t : list (AvgRow * nat)) (p : Period) (coin : string) (k : nat) :
  StronglySorted (key_lt group_key_compare) (map (fun x => avg_key (fst x)) t) ->
  rank_of t p coin = Some k
  <-> exists r, In (r, k) t /\ a_month r = p /\ a_coin r = coin.
Proof.
  induction t as [|[r0 k0] t IH]; simpl; intros Hs.
  - split; [discriminate|]. intros [r [[] _]].
  - inversion Hs as [|? ? Hs' Hall]; subst.
    destruct (period_eqb (a_month r0) p && String.eqb (a_coin r0) coin) eqn:E.
    + apply andb_true_iff in E. destruct E as [Ep Ec].
      apply period_eqb_eq in Ep. apply String.eqb_eq in Ec. split.
      * intros [= <-]. exists r0. auto.
      * intros [r [[Heq|Hin] [Hp Hc]]]; [congruence|]. exfalso.
        rewrite Forall_forall in Hall.
        assert (Hlt : key_lt group_key_compare (avg_key r0) (avg_key r)).
        { apply Hall. apply in_map_iff. exists (r, k). auto. }
        unfold key_lt, avg_key in Hlt. rewrite Ep, Ec, Hp, Hc in Hlt.
        rewrite group_key_compare_refl in Hlt. discriminate Hlt.
    + rewrite (IH Hs'). split.
      * intros [r [Hin H]]. exists r. auto.
      * intros [r [[Heq|Hin] [Hp Hc]]]; [|exists r; auto]. exfalso.
        injection Heq as -> ->. subst p coin.
        rewrite (proj2 (period_eqb_eq _ _) eq_refl), String.eqb_refl in E.
        discriminate E.
Qed.

(** X19 (membership). An asset is in the snapshot of month [p] exactly
    when its rank in [p] is at most the universe size; a month in which an
    asset holds such a rank has a snapshot. *)
Theorem snapshot_membership (n : nat) (df : list Row) (p : Period) (coin : string) :
  (exists coins, snapshot (point_in_time_universe n df) p = Some coins /\ In coin coins)
  <-> exists k, rank_of (ranked_table df) p coin = Some k /\ (k <= n)%nat.
Proof.
  unfold point_in_time_universe. rewrite snapshot_universe_dict.
  assert (Hrows : forall x, In x (List.filter (in_month p) (top_n n (ranked_table df)))
                  <-> In x (ranked_table df) /\ a_month (fst x) = p /\ (snd x <= n)%nat).
  { intros x. unfold top_n, in_month. rewrite !List.filter_In.
    rewrite period_eqb_eq, Nat.leb_le. tauto. }
  split.
  - intros [coins [Hs Hin]].
    destruct (List.filter (in_month p) (top_n n (ranked_table df))) as [|x g] eqn:Eg;
      [discriminate Hs|].
    injection Hs as <-.
    change (In coin (map (fun x : AvgRow * nat => a_coin (fst x)) (x :: g))) in Hin.
    apply in_map_iff in Hin. destruct Hin as [[r k] [Hc Hin]].
    simpl in Hc. apply Hrows in Hin. simpl in Hin.
    exists k. split; [|tauto].
    apply rank_of_In; [apply ranked_table_sorted|]. exists r. tauto.
  - intros [k [Hk Hle]].
    apply rank_of_In in Hk; [|apply ranked_table_sorted].
    destruct Hk as [r (Hin & Hp & Hc)].
    assert (Hx : In (r, k) (List.filter (in_month p) (top_n n (ranked_table df))))
      by (apply Hrows; auto).
    destruct (List.filter (in_month p) (top_n n (ranked_table df))) as [|x g] eqn:Eg;
      [destruct Hx|].
    eexists. split; [reflexivity|].
    apply in_map_iff. exists (r, k). auto.
Qed.

(** *** How the script ends *)

Lemma fetch_all_histories_In (get_cg_market_data : string -> option (list (Z * option Q)))
    (candidate_ids : list string) (history : list Row) :
  In history (fetch_all_histories get_cg_market_data candidate_ids)
  <-> exists coin raw_data,
        In coin candidate_ids /\ get_cg_market_data coin = Some raw_data
        /\ history = process_market_data_to_df raw_data coin.
Proof.
  unfold fetch_all_histories. rewrite in_flat_map. split.
  - intros [coin [Hc Hh]].
    destruct (get_cg_market_data coin) as [raw_data|] eqn:E; [|destruct Hh].
    destruct Hh as [<-|[]]. exists coin, raw_data. auto.
  - intros (coin & raw_data & Hc & E & ->). exists coin. rewrite E.
    split; [exact Hc|left; reflexivity].
Qed.

Lemma no_rows_process (raw_data : list (Z * option Q)) (coin : string) :
  no_rows (process_market_data_to_df raw_data coin) = true <-> raw_data = [].
Proof.
  destruct raw_data; simpl; split; intros H; try reflexivity; discriminate H.
Qed.

(** X20 (how the universe script ends). From the candidate list on, the
    script exits without output exactly when no candidate's fetch returned
    data; it stops on the missing [date] column exactly when some fetch
    returned data and every fetch that did had no market-cap points; in
    every other case it saves a universe. *)
Theorem universe_run_outcomes
    (get_cg_market_data : string -> option (list (Z * option Q)))
    (candidate_ids : list string) :
  let all_histories := fetch_all_histories get_cg_market_data candidate_ids in
  (create_universe all_histories = SystemExit
   <-> forall coin, In coin candidate_ids -> get_cg_market_data coin = None)
  /\ (create_universe all_histories = KeyErrorRaised
      <-> (exists coin, In coin candidate_ids /\ get_cg_market_data coin <> None)
          /\ forall coin raw_data, In coin candidate_ids ->
               get_cg_market_data coin = Some raw_data -> raw_data = [])
  /\ (forall universe, create_universe all_histories = UniverseSaved universe ->
        universe = point_in_time_universe UNIVERSE_SIZE (concat_histories all_histories)).
Proof.
  intros all_histories.
  assert (Hnil : all_histories = []
                 <-> forall coin, In coin candidate_ids -> get_cg_market_data coin = None).
  { split.
    - intros Hn coin Hc. destruct (get_cg_market_data coin) as [raw_data|] eqn:E;
        [|reflexivity]. exfalso.
      assert (Hin : In (process_market_data_to_df raw_data coin) all_histories)
        by (apply fetch_all_histories_In; exists coin, raw_data; auto).
      rewrite Hn in Hin. destruct Hin.
    - intros Hall. destruct all_histories as [|h rest] eqn:E; [reflexivity|]. exfalso.
      assert (Hin : In h all_histories) by (rewrite E; left; reflexivity).
      apply fetch_all_histories_In in Hin. destruct Hin as (coin & raw & Hc & Hg & _).
      rewrite (Hall coin Hc) in Hg. discriminate Hg. }
  assert (Hall : forallb no_rows all_histories = true
                 <-> forall coin raw_data, In coin candidate_ids ->
                       get_cg_market_data coin = Some raw_data -> raw_data = []).
  { rewrite forallb_forall. split.
    - intros H coin raw_data Hc Hg. apply (no_rows_process raw_data coin).
      apply H. apply fetch_all_histories_In. exists coin, raw_data. auto.
    - intros H h Hin. apply fetch_all_histories_In in Hin.
      destruct Hin as (coin & raw & Hc & Hg & ->).
      apply no_rows_process. exact (H coin raw Hc Hg). }
  assert (Hsome : all_histories <> []
                  <-> exists coin, In coin candidate_ids /\ get_cg_market_data coin <> None).
  { split.
    - intros Hne. destruct all_histories as [|h rest] eqn:E; [congruence|].
      assert (Hin : In h all_histories) by (rewrite E; left; reflexivity).
      apply fetch_all_histories_In in Hin. destruct Hin as (coin & raw & Hc & Hg & _).
      exists coin. split; [exact Hc|congruence].
    - intros [coin [Hc Hg]] Hn. apply Hg. apply (proj1 Hnil Hn coin Hc). }
  unfold create_universe.
  destruct all_histories as [|h rest] eqn:E.
  - split; [|split].
    + rewrite <- Hnil. tauto.
    + split; [discriminate|]. intros [Hex _]. apply Hsome in Hex. congruence.
    + discriminate.
  - rewrite <- Hall, <- Hsome, <- Hnil.
    destruct (forallb no_rows (h :: rest)).
    + split; [split; intros H; discriminate H|]. split.
      * split; [intros _; split; [discriminate|reflexivity]|reflexivity].
      * intros universe H. discriminate H.
    + split; [split; intros H; discriminate H|]. split.
      * split; [intros H; discriminate H|intros [_ H]; discriminate H].
      * intros universe [= <-]. reflexivity.
Qed.

End UniverseFacts.

(** ** Properties of the universe calculation in binary64 arithmetic *)

Module UniverseBinary64Facts.
Import Calendar CalendarFacts Universe UniverseFacts.

(** The two summations on three values of one group: the compensated sum
    gives the mean one float above 55786564.3 and the sum from left to
    right the mean one float below it. *)
Example column_mean_by_dtype :
  let values := [72761900.8; 46904434.4; 47693357.7]%Q in
  (55786564.3 < UniverseBinary64.column_mean UniverseBinary64.Float64 values)%Q
  /\ (UniverseBinary64.column_mean UniverseBinary64.Object values < 55786564.3)%Q
  /\ UniverseBinary64.column_mean UniverseBinary64.Float64 [55786564.3%Q]
     = UniverseBinary64.column_mean UniverseBinary64.Object [55786564.3%Q].
Proof. vm_compute. repeat split; reflexivity. Qed.

(** 0.1 is read as the float 0x1.999999999999ap-4. *)
Example b64_of_Q_tenth :
  UniverseBinary64.b64_of_Q 0.1%Q = SpecFloat.S754_finite false 7205759403792794 (-56).
Proof. vm_compute. reflexivity. Qed.

(** On the scenario, whose sums are exact in binary64, the calculation
    gives what the exact one gives. *)
Example scenario_in_binary64 :
  UniverseBinary64.point_in_time_universe 2 [scenario] = point_in_time_universe 2 scenario.
Proof. vm_compute. reflexivity. Qed.

(** With exact means in place of the floats, the calculation is the one of
    [Universe]. *)
Lemma monthly_avg_by_mean (df : list CapRow) :
  UniverseBinary64.monthly_avg_by mean df = monthly_avg_mcap df.
Proof. reflexivity. Qed.

(** *** Month by month, for one arithmetic *)

Lemma monthly_avg_by_local (p : Period) (mean_of : list Q -> Q) (df : list CapRow) :
  List.filter (avg_in p) (UniverseBinary64.monthly_avg_by mean_of df)
  = UniverseBinary64.monthly_avg_by mean_of (List.filter (cap_in p) df).
Proof.
  unfold UniverseBinary64.monthly_avg_by.
  rewrite filter_map_swap.
  change (fun x : GroupKey => (avg_in p) _) with (fun x : GroupKey => period_eqb (fst x) p).
  rewrite (group_keys_filter group_key_compare group_key_compare_eq
             group_key_compare_refl group_key_compare_antisym
             group_key_compare_lt_trans).
  rewrite filter_map_swap.
  change (fun x : CapRow => period_eqb (fst (group_key x)) p) with (cap_in p).
  apply map_ext_in. intros k Hk. f_equal. f_equal. f_equal.
  symmetry. apply filter_implied.
  intros r Hr. apply group_key_eqb_eq in Hr.
  apply group_keys_In in Hk; [|apply group_key_compare_eq].
  apply in_map_iff in Hk. destruct Hk as [r' [Hr' Hin]].
  apply List.filter_In in Hin. destruct Hin as [_ Hin].
  unfold cap_in in *. rewrite <- Hr' in Hr.
  replace (to_period (c_date r)) with (to_period (c_date r')); [exact Hin|].
  exact (f_equal fst (eq_sym Hr)).
Qed.

(** The rows of month [p] in the ranked table come from the rows of [p] in
    the histories and from the dtype of the whole column. *)
Lemma ranked_rows_of_month (p : Period) (all_histories : list (list Row)) :
  List.filter (in_month p) (UniverseBinary64.ranked_table all_histories)
  = with_rank (UniverseBinary64.monthly_avg_by
                 (UniverseBinary64.column_mean (UniverseBinary64.column_dtype all_histories))
                 (dropna_market_cap
                    (from_start_date
                       (List.filter (row_in p) (concat_histories all_histories))))).
Proof.
  unfold UniverseBinary64.ranked_table, with_rank.
  rewrite assign_ranks_local. cbn [List.filter].
  rewrite monthly_avg_by_local, dropna_market_cap_local, from_start_date_local.
  reflexivity.
Qed.

(** X26 (no look-ahead within one dtype). In binary64 arithmetic, two
    runs whose histories agree on every row dated no later than the end of
    period [p], and whose [market_cap] columns have the same dtype, give
    the rows of [p] the same averages and ranks and produce the same
    snapshot for [p], whatever the universe size: rows dated after [p]
    reach [p] through the dtype of the column and in no other way. *)
Theorem no_look_ahead_within_dtype (n : nat) (p : Period)
    (histories1 histories2 : list (list Row)) :
  UniverseBinary64.column_dtype histories1 = UniverseBinary64.column_dtype histories2 ->
  List.filter (fun r => within_end_of p (date r)) (concat_histories histories1)
  = List.filter (fun r => within_end_of p (date r)) (concat_histories histories2) ->
  List.filter (in_month p) (UniverseBinary64.ranked_table histories1)
  = List.filter (in_month p) (UniverseBinary64.ranked_table histories2)
  /\ snapshot (UniverseBinary64.point_in_time_universe n histories1) p
     = snapshot (UniverseBinary64.point_in_time_universe n histories2) p.
Proof.
  intros Hdtype Hagree.
  assert (Hrows : List.filter (row_in p) (concat_histories histories1)
                  = List.filter (row_in p) (concat_histories histories2)).
  { rewrite <- (rows_of_month_within_end p (concat_histories histories1)).
    rewrite <- (rows_of_month_within_end p (concat_histories histories2)).
    rewrite Hagree. reflexivity. }
  assert (Hranked : List.filter (in_month p) (UniverseBinary64.ranked_table histories1)
                    = List.filter (in_month p) (UniverseBinary64.ranked_table histories2)).
  { rewrite !ranked_rows_of_month, Hrows, Hdtype. reflexivity. }
  split; [exact Hranked|].
  unfold UniverseBinary64.point_in_time_universe.
  rewrite !snapshot_universe_dict, !top_n_local, Hranked. reflexivity.
Qed.

Lemma no_look_ahead_within_dtype_witness :
  snapshot (UniverseBinary64.point_in_time_universe 2 [scenario]) jan_2022
  = snapshot (UniverseBinary64.point_in_time_universe 2 [scenario_revised]) jan_2022.
Proof.
  apply (no_look_ahead_within_dtype 2 jan_2022 [scenario] [scenario_revised]).
  - reflexivity.
  - vm_compute. reflexivity.
Defined.

(** C1 (fails on the code). The two runs differ by one candidate, [ccc],
    whose only point is dated in February and has no market cap.  They
    agree on every row dated up to the end of January 2022; the point of
    [ccc] is dropped before the averages are taken.  But its frame has a
    [market_cap] column of dtype object, the concatenated column takes
    that dtype, and the January means are summed from left to right
    instead of with compensation: the mean of [aaa] moves from the float
    above 55786564.3 to the float below it, while the mean of [bbb] stays
    at 55786564.3.  With [UNIVERSE_SIZE] = 200 and 199 larger assets, the
    January list holds [aaa] and not [bbb] in the first run, and [bbb] and
    not [aaa] in the second. *)
Theorem look_ahead_through_dtype :
  List.filter (fun r => within_end_of jan_2022 (date r))
    (concat_histories UniverseBinary64.histories_before)
  = List.filter (fun r => within_end_of jan_2022 (date r))
      (concat_histories UniverseBinary64.histories_after)
  /\ UniverseBinary64.column_dtype UniverseBinary64.histories_before
     = UniverseBinary64.Float64
  /\ UniverseBinary64.column_dtype UniverseBinary64.histories_after
     = UniverseBinary64.Object
  /\ (let universe := UniverseBinary64.point_in_time_universe UNIVERSE_SIZE
                        UniverseBinary64.histories_before in
      UniverseBinary64.listed universe jan_2022 "aaa" = true
      /\ UniverseBinary64.listed universe jan_2022 "bbb" = false)
  /\ (let universe := UniverseBinary64.point_in_time_universe UNIVERSE_SIZE
                        UniverseBinary64.histories_after in
      UniverseBinary64.listed universe jan_2022 "aaa" = false
      /\ UniverseBinary64.listed universe jan_2022 "bbb" = true).
Proof. vm_compute. repeat split; reflexivity. Qed.

(** The same on three candidates, with a universe of size 1. *)
Example look_ahead_through_dtype_small :
  let market_caps_of := UniverseBinary64.market_caps_of in
  UniverseBinary64.point_in_time_universe 1
    (fetch_all_histories market_caps_of ["aaa"; "bbb"]%string)
  = [ (mkDate 2022 1 1, ["aaa"]%string) ]
  /\ UniverseBinary64.point_in_time_universe 1
       (fetch_all_histories market_caps_of ["aaa"; "bbb"; "ccc"]%string)
     = [ (mkDate 2022 1 1, ["bbb"]%string) ].
Proof. vm_compute. split; reflexivity. Qed.

End UniverseBinary64Facts.

(** ** Facts about the row-level frame operations *)

Section DropDuplicatesFacts.
Context {A K : Type} `{EqDecision K} (key : A -> K).

Lemma drop_duplicates_last_incl (df : list A) (x : A) :
  In x (drop_duplicates_last key df) -> In x df.
Proof.
  induction df as [|y df IH]; simpl; [tauto|].
  destruct (existsb _ df); simpl; intuition.
Qed.

Lemma drop_duplicates_last_keys (df : list A) (k : K) :
  In k (map key (drop_duplicates_last key df)) <-> In k (map key df).
Proof.
  induction df as [|y df IH]; simpl; [tauto|].
  destruct (existsb _ df) eqn:E; simpl; rewrite IH; [|tauto].
  split; [tauto|]. intros [<-|Hk]; [|exact Hk].
  apply existsb_exists in E. destruct E as [z [Hz Hkey]].
  apply bool_decide_eq_true in Hkey. rewrite <- Hkey. apply in_map, Hz.
Qed.

Lemma drop_duplicates_last_NoDup (df : list A) :
  NoDup (map key (drop_duplicates_last key df)).
Proof.
  induction df as [|y df IH]; simpl; [constructor|].
  destruct (existsb _ df) eqn:E; simpl; [exact IH|].
  constructor; [|exact IH].
  intros Hin. apply (proj1 (drop_duplicates_last_keys _ _)) in Hin.
  apply in_map_iff in Hin. destruct Hin as [z [Hkey Hz]].
  apply not_true_iff_false in E. apply E.
  apply existsb_exists. exists z. split; [exact Hz|].
  apply bool_decide_eq_true. exact Hkey.
Qed.

Lemma drop_duplicates_last_Forall (P : A -> Prop) (df : list A) :
  Forall P df -> Forall P (drop_duplicates_last key df).
Proof.
  rewrite !Forall_forall. intros H x Hx.
  apply H, drop_duplicates_last_incl, Hx.
Qed.

End DropDuplicatesFacts.

Section SortValuesFacts.
Context {A : Type} (cmp : A -> A -> comparison).

Lemma insert_sorted_perm x l : Permutation (insert_sorted cmp x l) (x :: l).
Proof.
  induction l as [|y t IH]; simpl; [reflexivity|].
  destruct (cmp x y); try reflexivity;
    (rewrite IH; apply perm_swap).
Qed.

Lemma sort_values_perm df : Permutation (sort_values cmp df) df.
Proof.
  induction df as [|x df IH]; simpl; [reflexivity|].
  rewrite insert_sorted_perm, IH. reflexivity.
Qed.

Section StrictOrder.
Context {K : Type} (key : A -> K).

Hypothesis cmp_eq_key : forall a b, cmp a b = Eq -> key a = key b.
Hypothesis cmp_antisym : forall a b, cmp a b = CompOpp (cmp b a).
Hypothesis cmp_trans : forall a b c, cmp a b = Lt -> cmp b c = Lt -> cmp a c = Lt.

Lemma insert_sorted_strict x l :
  ~ In (key x) (map key l) ->
  StronglySorted (key_lt cmp) l -> StronglySorted (key_lt cmp) (insert_sorted cmp x l).
Proof.
  intros Hnew. induction 1 as [|y l Hs IH Hall]; simpl.
  - repeat constructor.
  - destruct (cmp x y) eqn:E.
    + exfalso. apply Hnew. left. symmetry. apply cmp_eq_key, E.
    + constructor; [constructor; assumption|].
      constructor; [exact E|].
      rewrite Forall_forall in *. intros z Hz.
      eapply cmp_trans; [exact E|]. apply Hall, Hz.
    + constructor.
      * apply IH. intros Hin. apply Hnew. right. exact Hin.
      * rewrite Forall_forall in *. intros z Hz.
        apply (Permutation_in _ (insert_sorted_perm x l)) in Hz.
        destruct Hz as [<-|Hz]; [|apply Hall, Hz].
        unfold key_lt. rewrite cmp_antisym, E. reflexivity.
Qed.

(** Sorting rows with distinct keys gives a strictly ascending frame. *)
Lemma sort_values_strict df :
  NoDup (map key df) -> StronglySorted (key_lt cmp) (sort_values cmp df).
Proof.
  induction df as [|x df IH]; simpl; intros Hnd; [constructor|].
  inversion Hnd as [|? ? Hnin Hnd']; subst.
  apply insert_sorted_strict; [|apply IH, Hnd'].
  intros Hin. apply Hnin.
  eapply Permutation_in; [|exact Hin].
  apply Permutation_map, sort_values_perm.
Qed.

End StrictOrder.

(** The sort is stable: a frame whose rows are already in order, rows with
    equal keys included, is left as it is. *)
Lemma sort_values_sorted_id (df : list A) :
  StronglySorted (fun a b => cmp a b <> Gt) df -> sort_values cmp df = df.
Proof.
  induction 1 as [|x l Hs IH Hall]; simpl; [reflexivity|].
  rewrite IH. destruct l as [|y t]; [reflexivity|]. simpl.
  inversion Hall as [|? ? Hxy _]; subst.
  destruct (cmp x y); try reflexivity. contradiction.
Qed.

(** Sorting commutes with a map that preserves the comparison. *)
Lemma sort_values_map {B : Type} (cmp' : B -> B -> comparison) (f : B -> A) (l : list B) :
  (forall x y, cmp (f x) (f y) = cmp' x y) ->
  sort_values cmp (map f l) = map f (sort_values cmp' l).
Proof.
  intros Hf. induction l as [|x l IH]; simpl; [reflexivity|].
  rewrite IH. generalize (sort_values cmp' l). intros s.
  induction s as [|y s IHs]; simpl; [reflexivity|].
  rewrite Hf. destruct (cmp' x y); simpl; rewrite ?IHs; reflexivity.
Qed.

End SortValuesFacts.

(** ** Properties of the dataset assembly *)

Module AssemblerFacts.
Import Calendar CalendarFacts Assembler.

Example sample_dataset :
  assemble_dataset sample_universe sample_histories
  = Saved [ mkPanelRow (mkObs (mkDate 2022 1 1) "bitcoin" 47000%Q) "bitcoin";
            mkPanelRow (mkObs (mkDate 2022 1 2) "bitcoin" 47500%Q) "bitcoin" ].
Proof. vm_compute. reflexivity. Qed.

(** The run reports failure exactly when stage 2 produced no slice at all. *)
Lemma final_combination_failed {Payload : Type} (all_period_data : list (list (Obs Payload))) :
  final_combination all_period_data = Failed <-> all_period_data = [].
Proof.
  destruct all_period_data; simpl; split; intros H; try reflexivity; discriminate.
Qed.

Lemma final_combination_saved {Payload : Type} (all_period_data : list (list (Obs Payload)))
    (master_df : list (PanelRow Payload)) :
  final_combination all_period_data = Saved master_df ->
  master_df = sort_values (panel_compare Payload)
                (drop_duplicates_last panel_key (canonicalized all_period_data)).
Proof.
  destruct all_period_data; simpl; [discriminate|].
  intros [= <-]. reflexivity.
Qed.

(** C2 (uniqueness). In the dataset that the final step writes, no two rows
    share the same (canonical_id, date); and every (canonical_id, date) that
    was present before the second deduplication is still present, so each
    such key occurs exactly once. *)
Theorem final_dataset_unique {Payload : Type} (all_period_data : list (list (Obs Payload)))
    (master_df : list (PanelRow Payload)) :
  final_combination all_period_data = Saved master_df ->
  NoDup (map panel_key master_df)
  /\ (forall k, In k (map panel_key (canonicalized all_period_data))
                <-> In k (map panel_key master_df)).
Proof.
  intros Hsaved. apply final_combination_saved in Hsaved. subst master_df.
  pose proof (sort_values_perm (panel_compare Payload)
                (drop_duplicates_last panel_key (canonicalized all_period_data))) as Hperm.
  split.
  - apply Permutation_NoDup with (l := map panel_key
        (drop_duplicates_last panel_key (canonicalized all_period_data))).
    + apply Permutation_map. symmetry. exact Hperm.
    + apply drop_duplicates_last_NoDup.
  - intros k. rewrite <- (drop_duplicates_last_keys panel_key).
    split; apply Permutation_in, Permutation_map;
      [symmetry; exact Hperm | exact Hperm].
Qed.

Lemma final_dataset_unique_witness :
  assemble_dataset sample_universe sample_histories
  = Saved [ mkPanelRow (mkObs (mkDate 2022 1 1) "bitcoin" 47000%Q) "bitcoin";
            mkPanelRow (mkObs (mkDate 2022 1 2) "bitcoin" 47500%Q) "bitcoin" ]
  /\ NoDup [ ("bitcoin"%string, mkDate 2022 1 1); ("bitcoin"%string, mkDate 2022 1 2) ].
Proof.
  split.
  - vm_compute. reflexivity.
  - apply (final_dataset_unique (assemble_periods sample_universe sample_histories)
             [ mkPanelRow (mkObs (mkDate 2022 1 1) "bitcoin" 47000%Q) "bitcoin";
               mkPanelRow (mkObs (mkDate 2022 1 2) "bitcoin" 47500%Q) "bitcoin" ]).
    vm_compute. reflexivity.
Defined.

(** C10 (start-date floor). Every row of the dataset that the final step
    writes is dated on or after [START_DATE]: the date filter runs on the
    concatenated slices, before both deduplications and the canonical ids. *)
Theorem final_dataset_from_start_date {Payload : Type}
    (all_period_data : list (list (Obs Payload))) (master_df : list (PanelRow Payload)) :
  final_combination all_period_data = Saved master_df ->
  Forall (fun r => date_leb START_DATE (date (obs r)) = true) master_df.
Proof.
  intros Hsaved. apply final_combination_saved in Hsaved. subst master_df.
  eapply Permutation_Forall.
  { symmetry. apply sort_values_perm. }
  apply drop_duplicates_last_Forall.
  unfold canonicalized. rewrite Forall_forall. intros r Hr.
  apply in_map_iff in Hr. destruct Hr as [o [<- Ho]]. simpl.
  apply drop_duplicates_last_incl in Ho.
  unfold from_start_date in Ho. apply List.filter_In in Ho. apply Ho.
Qed.

Lemma final_dataset_from_start_date_witness :
  assemble_dataset sample_universe sample_histories
  = Saved [ mkPanelRow (mkObs (mkDate 2022 1 1) "bitcoin" 47000%Q) "bitcoin";
            mkPanelRow (mkObs (mkDate 2022 1 2) "bitcoin" 47500%Q) "bitcoin" ]
  /\ Forall (fun r : PanelRow Q => date_leb START_DATE (date (obs r)) = true)
       [ mkPanelRow (mkObs (mkDate 2022 1 1) "bitcoin" 47000%Q) "bitcoin";
         mkPanelRow (mkObs (mkDate 2022 1 2) "bitcoin" 47500%Q) "bitcoin" ].
Proof.
  split.
  - vm_compute. reflexivity.
  - apply (final_dataset_from_start_date
             (assemble_periods sample_universe sample_histories)).
    vm_compute. reflexivity.
Defined.

(** The sample history holds a row of 2021-12-31, and the slice of the first
    period carries it into stage 2; the final dataset does not have it. *)
Example slices_hold_earlier_dates :
  In (mkObs (mkDate 2021 12 31) "bitcoin" 46000%Q)
     (List.concat (assemble_periods sample_universe sample_histories)).
Proof. vm_compute. left. reflexivity. Qed.

(** C8 (fails on the code). The guard of the final step looks at the list
    of slices, not at the rows: here stage 2 yields one slice, that slice is
    empty, and the run saves a dataset of zero rows and reports completion. *)
Theorem empty_dataset_is_saved :
  assemble_periods late_universe late_histories = [ [] ]
  /\ assemble_dataset late_universe late_histories = Saved [].
Proof. vm_compute. split; reflexivity. Qed.

(** The same run from the loaded universe, the asset's history being
    fetched in stage 1. *)
Example empty_dataset_from_pipeline :
  run_pipeline (fun coin => if String.eqb coin "newcoin"
                            then [ mkObs (mkDate 2022 1 15) "newcoin" 5%Q ] else [])
    late_universe
  = Saved [].
Proof. vm_compute. reflexivity. Qed.

(** The same happens when slices have rows and all are before the start
    date. *)
Example early_rows_only_is_saved :
  final_combination [ [ mkObs (mkDate 2021 6 1) "bitcoin" 30000%Q ] ] = Saved [].
Proof. vm_compute. reflexivity. Qed.

(** *** The order of the final dataset *)

Lemma panel_compare_eq_key {Payload : Type} (a b : PanelRow Payload) :
  panel_compare Payload a b = Eq -> panel_key a = panel_key b.
Proof.
  unfold panel_compare, panel_key, lex.
  destruct (String.compare (canonical_id a) (canonical_id b)) eqn:Ec; try discriminate.
  intros Ed. apply string_compare_eq in Ec. apply date_compare_eq in Ed. congruence.
Qed.

Lemma panel_compare_antisym {Payload : Type} (a b : PanelRow Payload) :
  panel_compare Payload a b = CompOpp (panel_compare Payload b a).
Proof.
  unfold panel_compare, lex.
  rewrite (String.compare_antisym (canonical_id a) (canonical_id b)).
  rewrite (date_compare_antisym (date (obs a)) (date (obs b))).
  destruct (String.compare (canonical_id b) (canonical_id a)),
    (date_compare (date (obs b)) (date (obs a))); reflexivity.
Qed.

Lemma panel_compare_lt_trans {Payload : Type} (a b c : PanelRow Payload) :
  panel_compare Payload a b = Lt -> panel_compare Payload b c = Lt ->
  panel_compare Payload a c = Lt.
Proof.
  unfold panel_compare, lex.
  destruct (String.compare (canonical_id a) (canonical_id b)) eqn:E12; try discriminate;
    destruct (String.compare (canonical_id b) (canonical_id c)) eqn:E23; try discriminate;
    intros H1 H2.
  - apply string_compare_eq in E12, E23. rewrite E12, E23, string_compare_refl.
    eapply date_compare_lt_trans; eassumption.
  - apply string_compare_eq in E12. rewrite E12, E23. reflexivity.
  - apply string_compare_eq in E23. rewrite <- E23, E12. reflexivity.
  - rewrite (string_compare_lt_trans _ _ _ E12 E23). reflexivity.
Qed.

(** X12 (order of the dataset). The dataset that the final step writes is
    strictly ascending by (canonical_id, date): ids in the order of Python
    string comparison, and within an id each date later than the one
    before. *)
Theorem final_dataset_sorted {Payload : Type} (all_period_data : list (list (Obs Payload)))
    (master_df : list (PanelRow Payload)) :
  final_combination all_period_data = Saved master_df ->
  StronglySorted (fun a b => panel_compare Payload a b = Lt) master_df.
Proof.
  intros Hsaved. apply final_combination_saved in Hsaved. subst master_df.
  apply (sort_values_strict (panel_compare Payload) panel_key
           panel_compare_eq_key panel_compare_antisym panel_compare_lt_trans).
  apply drop_duplicates_last_NoDup.
Qed.

Lemma final_dataset_sorted_witness :
  StronglySorted (fun a b => panel_compare Q a b = Lt)
    [ mkPanelRow (mkObs (mkDate 2022 1 1) "bitcoin" 47000%Q) "bitcoin";
      mkPanelRow (mkObs (mkDate 2022 1 2) "bitcoin" 47500%Q) "bitcoin" ].
Proof.
  apply (final_dataset_sorted (assemble_periods sample_universe sample_histories)).
  vm_compute. reflexivity.
Defined.

(** *** Where the rows of the dataset come from *)

Lemma assemble_periods_In {Payload : Type} (universe : list (Date * list string))
    (full_history_cache : gmap string (list (Obs Payload))) (slice : list (Obs Payload)) :
  In slice (assemble_periods universe full_history_cache)
  <-> exists entry coin history,
        In entry universe /\ In coin (snd entry)
        /\ full_history_cache !! coin = Some history
        /\ slice = point_in_time_slice (fst entry) history.
Proof.
  unfold assemble_periods. rewrite in_flat_map. split.
  - intros [entry [He Hs]]. apply in_flat_map in Hs. destruct Hs as [coin [Hc Hs]].
    destruct (full_history_cache !! coin) as [history|] eqn:E; [|destruct Hs].
    destruct Hs as [<-|[]]. exists entry, coin, history. auto.
  - intros (entry & coin & history & He & Hc & E & ->).
    exists entry. split; [exact He|]. apply in_flat_map. exists coin.
    split; [exact Hc|]. rewrite E. left. reflexivity.
Qed.

Lemma master_rows_from_slices {Payload : Type} (all_period_data : list (list (Obs Payload)))
    (master_df : list (PanelRow Payload)) (r : PanelRow Payload) :
  final_combination all_period_data = Saved master_df ->
  In r master_df ->
  canonical_id r = canonical (coin_id (obs r))
  /\ exists slice, In slice all_period_data /\ In (obs r) slice.
Proof.
  intros Hsaved Hr. apply final_combination_saved in Hsaved. subst master_df.
  apply (Permutation_in _ (sort_values_perm _ _)) in Hr.
  apply drop_duplicates_last_incl in Hr.
  unfold canonicalized in Hr. apply in_map_iff in Hr. destruct Hr as [o [<- Ho]].
  split; [reflexivity|]. cbn [obs].
  apply drop_duplicates_last_incl in Ho.
  unfold from_start_date in Ho. apply List.filter_In in Ho. destruct Ho as [Ho _].
  apply in_concat in Ho. destruct Ho as [slice [Hs Ho]]. exists slice. auto.
Qed.

(** X13 (point-in-time rows). Every row of the saved dataset is a row of
    the fetched history of an asset that some period of the universe lists,
    dated on or before the date of that period; and its canonical id is the
    canonical form of its own asset id. *)
Theorem dataset_rows_are_point_in_time {Payload : Type}
    (universe : list (Date * list string))
    (full_history_cache : gmap string (list (Obs Payload)))
    (master_df : list (PanelRow Payload)) (r : PanelRow Payload) :
  assemble_dataset universe full_history_cache = Saved master_df ->
  In r master_df ->
  canonical_id r = canonical (coin_id (obs r))
  /\ exists entry coin history,
       In entry universe /\ In coin (snd entry)
       /\ full_history_cache !! coin = Some history
       /\ In (obs r) history
       /\ date_leb (date (obs r)) (fst entry) = true.
Proof.
  intros Hsaved Hr. unfold assemble_dataset in Hsaved.
  destruct (master_rows_from_slices _ _ _ Hsaved Hr) as [Hc [slice [Hs Ho]]].
  split; [exact Hc|].
  apply assemble_periods_In in Hs.
  destruct Hs as (entry & coin & history & He & Hcoin & E & ->).
  unfold point_in_time_slice in Ho. apply List.filter_In in Ho.
  exists entry, coin, history. tauto.
Qed.

Lemma dataset_rows_are_point_in_time_witness :
  exists entry coin history,
    In entry sample_universe /\ In coin (snd entry)
    /\ sample_histories !! coin = Some history
    /\ In (mkObs (mkDate 2022 1 2) "bitcoin" 47500%Q) history
    /\ date_leb (mkDate 2022 1 2) (fst entry) = true.
Proof.
  apply (dataset_rows_are_point_in_time sample_universe sample_histories
           [ mkPanelRow (mkObs (mkDate 2022 1 1) "bitcoin" 47000%Q) "bitcoin";
             mkPanelRow (mkObs (mkDate 2022 1 2) "bitcoin" 47500%Q) "bitcoin" ]
           (mkPanelRow (mkObs (mkDate 2022 1 2) "bitcoin" 47500%Q) "bitcoin")).
  - vm_compute. reflexivity.
  - right. left. reflexivity.
Defined.

(** *** Stage 1 and the failure report *)

Lemma fetch_all_histories_fold {Payload : Type} (fetch : string -> list (Obs Payload))
    (coins : list string) (acc : gmap string (list (Obs Payload))) (coin : string) :
  let cache := fold_left (fun cache coin =>
                            match fetch coin with
                            | [] => cache
                            | coin_df => <[coin := coin_df]> cache
                            end) coins acc in
  (In coin coins -> fetch coin <> [] -> cache !! coin = Some (fetch coin))
  /\ ((In coin coins -> fetch coin = []) -> cache !! coin = acc !! coin).
Proof.
  revert acc. induction coins as [|c coins IH]; intros acc; cbn [fold_left].
  - split; [intros []|reflexivity].
  - destruct (IH (match fetch c with [] => acc | _ => <[c := fetch c]> acc end))
      as [IH1 IH2].
    assert (E : (match fetch c with [] => acc | o :: h => <[c := o :: h]> acc end)
                = (match fetch c with [] => acc | _ => <[c := fetch c]> acc end))
      by (destruct (fetch c); reflexivity).
    rewrite E. clear E. split.
    + intros Hin Hne. destruct (in_dec string_dec coin coins) as [Hc|Hc].
      * apply IH1; assumption.
      * destruct Hin as [->|Hin]; [|contradiction].
        rewrite IH2 by (intros Hin; contradiction).
        destruct (fetch coin); [congruence|apply lookup_insert_eq].
    + intros Hnone. rewrite IH2 by (intros Hin; apply Hnone; right; exact Hin).
      destruct (string_dec c coin) as [->|Hne].
      * rewrite Hnone by (left; reflexivity). reflexivity.
      * destruct (fetch c); [reflexivity|]. apply lookup_insert_ne. exact Hne.
Qed.

Lemma fetch_all_histories_lookup {Payload : Type} (fetch : string -> list (Obs Payload))
    (coins : list string) (coin : string) (history : list (Obs Payload)) :
  fetch_all_histories fetch coins !! coin = Some history
  <-> In coin coins /\ fetch coin = history /\ history <> [].
Proof.
  unfold fetch_all_histories.
  destruct (fetch_all_histories_fold fetch coins ∅ coin) as [H1 H2].
  cbn zeta in H1, H2. rewrite lookup_empty in H2. split.
  - intros Hl. destruct (in_dec string_dec coin coins) as [Hin|Hnin].
    + destruct (fetch coin) as [|o h] eqn:E.
      * rewrite H2 in Hl by reflexivity. discriminate Hl.
      * rewrite H1 in Hl by (auto; discriminate). injection Hl as <-.
        repeat split; [exact Hin|discriminate].
    + rewrite H2 in Hl by (intros Hin; contradiction). discriminate Hl.
  - intros (Hin & <- & Hne). apply H1; assumption.
Qed.

Lemma all_unique_coins_In (universe : list (Date * list string)) (coin : string) :
  In coin (all_unique_coins universe)
  <-> exists entry, In entry universe /\ In coin (snd entry).
Proof.
  unfold all_unique_coins.
  rewrite (group_keys_In String.compare string_compare_eq).
  apply in_flat_map.
Qed.

Lemma full_history_cache_lookup {Payload : Type} (fetch : string -> list (Obs Payload))
    (universe : list (Date * list string)) (coin : string) (history : list (Obs Payload)) :
  fetch_all_histories fetch (all_unique_coins universe) !! coin = Some history
  <-> (exists entry, In entry universe /\ In coin (snd entry))
      /\ fetch coin = history /\ history <> [].
Proof. rewrite fetch_all_histories_lookup, all_unique_coins_In. reflexivity. Qed.

(** X14 (stage 1). Whatever list of assets stage 1 walks, its in-memory
    history cache holds an asset exactly when the asset is in the list and
    its fetch came back with rows, and then it holds the fetched frame; an
    asset whose fetch came back empty is absent, not present with an empty
    frame. *)
Theorem stage1_keeps_fetched_histories {Payload : Type}
    (fetch : string -> list (Obs Payload)) (coins : list string) (coin : string) :
  (In coin coins -> fetch coin <> [] ->
   fetch_all_histories fetch coins !! coin = Some (fetch coin))
  /\ ((In coin coins -> fetch coin = []) ->
      fetch_all_histories fetch coins !! coin = None).
Proof.
  unfold fetch_all_histories.
  destruct (fetch_all_histories_fold fetch coins ∅ coin) as [H1 H2].
  cbn zeta in H1, H2. rewrite lookup_empty in H2. split; assumption.
Qed.

(** X15 (failure report). From the loaded universe on, the run reports
    failure exactly when no listed asset was fetched with rows; otherwise it
    saves a dataset. *)
Theorem pipeline_fails_iff_nothing_fetched {Payload : Type}
    (fetch : string -> list (Obs Payload)) (universe : list (Date * list string)) :
  run_pipeline fetch universe = Failed
  <-> forall entry coin, In entry universe -> In coin (snd entry) -> fetch coin = [].
Proof.
  unfold run_pipeline, assemble_dataset. rewrite final_combination_failed. split.
  - intros Hnil entry coin He Hc.
    destruct (fetch coin) as [|o h] eqn:E; [reflexivity|]. exfalso.
    assert (Hin : In (point_in_time_slice (fst entry) (fetch coin))
                    (assemble_periods universe
                       (fetch_all_histories fetch (all_unique_coins universe)))).
    { apply assemble_periods_In. exists entry, coin, (fetch coin).
      repeat split; try assumption.
      apply full_history_cache_lookup. repeat split.
      - exists entry. auto.
      - rewrite E. discriminate. }
    rewrite Hnil in Hin. destruct Hin.
  - intros Hall.
    destruct (assemble_periods universe
                (fetch_all_histories fetch (all_unique_coins universe)))
      as [|slice rest] eqn:E; [reflexivity|]. exfalso.
    assert (Hin : In slice (assemble_periods universe
                              (fetch_all_histories fetch (all_unique_coins universe))))
      by (rewrite E; left; reflexivity).
    apply assemble_periods_In in Hin.
    destruct Hin as (entry & coin & history & He & Hc & Hl & _).
    apply full_history_cache_lookup in Hl. destruct Hl as (_ & Hf & Hne).
    apply Hne. rewrite <- Hf. apply (Hall entry coin He Hc).
Qed.

(** X16 (the asset list of stage 1). [all_unique_coins] lists every asset
    that some period of the universe lists, each once, in ascending order
    of Python string comparison. *)
Theorem all_unique_coins_sorted_and_complete (universe : list (Date * list string)) :
  StronglySorted (fun a b => String.compare a b = Lt) (all_unique_coins universe)
  /\ NoDup (all_unique_coins universe)
  /\ forall coin, In coin (all_unique_coins universe)
                  <-> exists entry, In entry universe /\ In coin (snd entry).
Proof.
  assert (Hs : StronglySorted (key_lt String.compare) (all_unique_coins universe)).
  { apply (group_keys_sorted String.compare string_compare_eq);
      [exact String.compare_antisym | exact string_compare_lt_trans]. }
  split; [exact Hs|]. split; [|apply all_unique_coins_In].
  apply (StronglySorted_NoDup (key_lt String.compare)); [|exact Hs].
  intros x. unfold key_lt. rewrite string_compare_refl. discriminate.
Qed.

End AssemblerFacts.

(** ** Examples of frame operations *)

Module PandasFacts.
Import Calendar Pandas.

Example merge_left_example :
  merge_left ["date"]%string
    (mkFrame ["date"; "close"]%string
       [ [Day (mkDate 2022 1 1); Num 10%Q]; [Day (mkDate 2022 1 2); Num 11%Q] ])
    (mkFrame ["date"; "chain_tvl"]%string [ [Day (mkDate 2022 1 2); Num 5%Q] ])
  = mkFrame ["date"; "close"; "chain_tvl"]%string
      [ [Day (mkDate 2022 1 1); Num 10%Q; NaN];
        [Day (mkDate 2022 1 2); Num 11%Q; Num 5%Q] ].
Proof. vm_compute. reflexivity. Qed.

Example merge_outer_example :
  merge_outer ["date"]%string
    (mkFrame ["date"; "protocol_tvl"]%string [ [Day (mkDate 2022 1 2); Num 7%Q] ])
    (mkFrame ["date"; "dex_volume"]%string
       [ [Day (mkDate 2022 1 1); Num 3%Q]; [Day (mkDate 2022 1 2); Num 4%Q] ])
  = mkFrame ["date"; "protocol_tvl"; "dex_volume"]%string
      [ [Day (mkDate 2022 1 1); NaN; Num 3%Q];
        [Day (mkDate 2022 1 2); Num 7%Q; Num 4%Q] ].
Proof. vm_compute. reflexivity. Qed.

(** Rows with equal keys stay in input order. *)
Example sort_values_equal_keys :
  sort_values (compare_on ["date"]%string ["date"; "v"]%string)
    [ [Day (mkDate 2022 1 2); Num 1%Q]; [Day (mkDate 2022 1 1); Num 2%Q];
      [Day (mkDate 2022 1 2); Num 3%Q]; [Day (mkDate 2022 1 1); Num 4%Q] ]
  = [ [Day (mkDate 2022 1 1); Num 2%Q]; [Day (mkDate 2022 1 1); Num 4%Q];
      [Day (mkDate 2022 1 2); Num 1%Q]; [Day (mkDate 2022 1 2); Num 3%Q] ].
Proof. vm_compute. reflexivity. Qed.

Example from_dicts_example :
  from_dicts [ [("time", Num 1%Q); ("galaxy_score", Num 60%Q)];
               [("time", Num 2%Q); ("sentiment", Num 80%Q)] ]%string
  = mkFrame ["time"; "galaxy_score"; "sentiment"]%string
      [ [Num 1%Q; Num 60%Q; NaN]; [Num 2%Q; NaN; Num 80%Q] ].
Proof. vm_compute. reflexivity. Qed.

(** *** Row counts *)

Lemma assign_rows_length (c : string) (f : (string -> Cell) -> Cell) (df : DataFrame) :
  List.length (rows (assign c f df)) = List.length (rows df).
Proof.
  unfold assign. destruct (index_of c (columns df)); cbn [rows]; apply length_map.
Qed.

Lemma select_rows_length (cols : list string) (df : DataFrame) :
  List.length (rows (select cols df)) = List.length (rows df).
Proof. unfold select. cbn [rows]. apply length_map. Qed.

(** A left join keeps every row of the left side. *)
Lemma left_join_rows_length (on lcols rcols : list string) (lrows rrows : list (list Cell)) :
  (List.length lrows <= List.length (left_join_rows on lcols rcols lrows rrows))%nat.
Proof.
  unfold left_join_rows. induction lrows as [|l lrows IH]; cbn [flat_map]; [lia|].
  rewrite length_app.
  destruct (List.filter (keys_match on lcols rcols l) rrows); cbn [List.length map] in *; lia.
Qed.

Lemma merge_left_rows_length (on : list string) (left right : DataFrame) :
  (List.length (rows left) <= List.length (rows (merge_left on left right)))%nat.
Proof. unfold merge_left. cbn [rows]. apply left_join_rows_length. Qed.

Lemma is_empty_false (df : DataFrame) :
  columns df <> [] -> (0 < List.length (rows df))%nat -> is_empty df = false.
Proof.
  unfold is_empty. destruct (columns df); [congruence|].
  destruct (rows df); cbn; [lia|reflexivity].
Qed.

Lemma is_empty_false_inv (df : DataFrame) :
  is_empty df = false -> columns df <> [] /\ (0 < List.length (rows df))%nat.
Proof.
  unfold is_empty. destruct (columns df); [intros H; discriminate H|].
  destruct (rows df); [intros H; discriminate H|]. intros _. split; [discriminate|cbn; lia].
Qed.

(** A left join onto a frame that is not empty is not empty. *)
Lemma merge_left_not_empty (on : list string) (left right : DataFrame) :
  is_empty left = false -> is_empty (merge_left on left right) = false.
Proof.
  intros H. apply is_empty_false_inv in H. destruct H as [Hc Hr].
  apply is_empty_false.
  - unfold merge_left, merged_columns. cbn [columns].
    destruct (columns left); [congruence|]. cbn. discriminate.
  - pose proof (merge_left_rows_length on left right). lia.
Qed.

End PandasFacts.

(** ** Properties of the two-tier cache *)

Module CacheFacts.
Import Pandas Cache.

Example ends_with_examples :
  ends_with ".parquet" "coin_history/bitcoin.parquet" = true
  /\ ends_with ".json" "coin_history/bitcoin.parquet" = false
  /\ ends_with ".json" "maps/llama_chain_map.json" = true
  /\ ends_with ".json" "json" = false.
Proof. vm_compute. repeat split; reflexivity. Qed.

(** *** Reading back what was written *)

Lemma set_returns (cond : Conditions) (file_name : string) (data : Payload) (st : Store) :
  snd (set cond file_name data st) = Returned tt.
Proof.
  unfold set. destruct (local_writable cond file_name), (remote_up cond); reflexivity.
Qed.

Lemma set_local_file (cond : Conditions) (file_name : string) (data : Payload) (st : Store) :
  local_writable cond file_name = true ->
  local_files (fst (set cond file_name data st)) !! file_name = Some (serialize data).
Proof.
  intros Hw. unfold set. rewrite Hw.
  destruct (remote_up cond); simpl; apply lookup_insert_eq.
Qed.

Lemma load_matching (file_name : string) (data : Payload) (st : Store) :
  extension_matches file_name data = true ->
  (ends_with ".parquet" file_name = true -> ends_with ".json" file_name = true -> False) ->
  _load_from_local file_name (serialize data) st = (st, Some data).
Proof.
  unfold _load_from_local. destruct data as [df|j]; simpl; intros Hm Hx.
  - rewrite Hm. reflexivity.
  - rewrite Hm. destruct (ends_with ".parquet" file_name) eqn:Hp; [|reflexivity].
    exfalso. apply Hx; [reflexivity | exact Hm].
Qed.

(** A path has one extension. *)
Lemma one_extension (s : string) :
  ends_with ".parquet" s = true -> ends_with ".json" s = true -> False.
Proof.
  unfold ends_with.
  change (string_rev ".parquet") with "teuqrap."%string.
  change (string_rev ".json") with "nosj."%string.
  destruct (string_rev s) as [|c r]; [intros H; discriminate H|].
  cbn [String.prefix].
  destruct (ascii_dec "t"%char c) as [<-|]; [|intros H; discriminate H].
  intros _. destruct (ascii_dec "n"%char "t"%char) as [E|];
    [discriminate E | intros H; discriminate H].
Qed.

Lemma get_local_hit (cond : Conditions) (file_name : string) (data : Payload) (st : Store) :
  local_files st !! file_name = Some (serialize data) ->
  extension_matches file_name data = true ->
  get cond file_name st = (st, Returned (Some data)).
Proof.
  intros Hl Hm. unfold get. rewrite Hl.
  rewrite (load_matching _ _ _ Hm (one_extension file_name)). reflexivity.
Qed.

(** C4, as stated, fails: a JSON payload stored and read back under a key
    without the [.json] extension is not returned, whether the key has no
    known extension or the extension of the other format. *)
Lemma round_trip_fails_on_other_extensions :
  snd (get all_fine "maps/llama_protocol_map"
         (fst (set all_fine "maps/llama_protocol_map" sample_map empty_store)))
  = Returned None
  /\ snd (get all_fine "map.parquet"
            (fst (set all_fine "map.parquet" sample_map empty_store)))
     = Returned None
  /\ snd (get all_fine "frame.json"
            (fst (set all_fine "frame.json" sample_frame empty_store)))
     = Returned None.
Proof. vm_compute. repeat split; reflexivity. Qed.

(** C4 (amended). [set] writes a DataFrame as parquet and anything else as
    JSON; [get] reads by the extension of the key.  For a key whose
    extension is that of the payload's format ([.parquet] for a DataFrame,
    [.json] otherwise), and a local write that succeeds, [get] right after
    [set] returns the payload, whatever the state of the bucket. *)
Theorem cache_round_trip (cond cond' : Conditions) (file_name : string)
    (data : Payload) (st : Store) :
  local_writable cond file_name = true ->
  extension_matches file_name data = true ->
  local_files (fst (set cond file_name data st)) !! file_name = Some (serialize data)
  /\ snd (get cond' file_name (fst (set cond file_name data st))) = Returned (Some data).
Proof.
  intros Hw Hm.
  pose proof (set_local_file cond file_name data st Hw) as Hl.
  split; [exact Hl|].
  rewrite (get_local_hit cond' _ _ _ Hl Hm). reflexivity.
Qed.

Lemma cache_round_trip_witness :
  local_writable all_fine "new_file.parquet" = true
  /\ extension_matches "new_file.parquet" sample_frame = true
  /\ snd (get bucket_down "new_file.parquet"
            (fst (set all_fine "new_file.parquet" sample_frame empty_store)))
     = Returned (Some sample_frame).
Proof.
  split; [reflexivity|]. split; [reflexivity|].
  apply (cache_round_trip all_fine bucket_down "new_file.parquet" sample_frame empty_store);
    reflexivity.
Defined.

(** *** Failures inside [set] *)

(** C5, as stated, fails: when the local write fails, [set] returns as if
    nothing had happened, with a warning in the output, and neither tier
    holds the payload; the next [get] is a miss. *)
Lemma local_write_failure_is_absorbed :
  let st := fst (set disk_full "maps/llama_chain_map.json" sample_map empty_store) in
  snd (set disk_full "maps/llama_chain_map.json" sample_map empty_store) = Returned tt
  /\ log st = [WarnSaveOrUploadFailed "maps/llama_chain_map.json"]
  /\ local_files st !! "maps/llama_chain_map.json"%string = None
  /\ gcs_blobs st !! "maps/llama_chain_map.json"%string = None
  /\ snd (get all_fine "maps/llama_chain_map.json" st) = Returned None.
Proof. vm_compute. repeat split; reflexivity. Qed.

(** C5 (amended). [set] never fails the call.  When the local write fails,
    a warning is printed, the upload is not attempted and both tiers are as
    before.  When the local write succeeds and the upload fails, a warning
    is printed, the bucket is as before, the local tier holds the payload,
    and a later [get] of the same key returns it when the extension of the
    key is that of the payload's format. *)
Theorem set_absorbs_failures (cond : Conditions) (file_name : string)
    (data : Payload) (st : Store) :
  snd (set cond file_name data st) = Returned tt
  /\ (local_writable cond file_name = false ->
      log (fst (set cond file_name data st)) = log st ++ [WarnSaveOrUploadFailed file_name]
      /\ local_files (fst (set cond file_name data st)) = local_files st
      /\ gcs_blobs (fst (set cond file_name data st)) = gcs_blobs st)
  /\ (local_writable cond file_name = true -> remote_up cond = false ->
      In (WarnSaveOrUploadFailed file_name) (log (fst (set cond file_name data st)))
      /\ gcs_blobs (fst (set cond file_name data st)) = gcs_blobs st
      /\ local_files (fst (set cond file_name data st)) !! file_name = Some (serialize data)
      /\ (extension_matches file_name data = true ->
          forall cond', snd (get cond' file_name (fst (set cond file_name data st)))
                        = Returned (Some data))).
Proof.
  split; [apply set_returns|]. split.
  - intros Hw. unfold set. rewrite Hw. simpl. auto.
  - intros Hw Hr.
    pose proof (set_local_file cond file_name data st Hw) as Hl.
    split; [|split; [|split]].
    + unfold set. rewrite Hw, Hr. simpl.
      apply in_or_app. right. left. reflexivity.
    + unfold set. rewrite Hw, Hr. reflexivity.
    + exact Hl.
    + intros Hm cond'. rewrite (get_local_hit cond' _ _ _ Hl Hm). reflexivity.
Qed.

Lemma set_absorbs_failures_witness :
  local_writable bucket_down "new_file.parquet" = true
  /\ remote_up bucket_down = false
  /\ extension_matches "new_file.parquet" sample_frame = true
  /\ snd (get bucket_down "new_file.parquet"
            (fst (set bucket_down "new_file.parquet" sample_frame empty_store)))
     = Returned (Some sample_frame).
Proof.
  split; [reflexivity|]. split; [reflexivity|]. split; [reflexivity|].
  apply (proj2 (proj2 (set_absorbs_failures bucket_down "new_file.parquet"
                         sample_frame empty_store)));
    reflexivity.
Defined.

(** *** Promotion, replacement and what the calls leave alone *)

Lemma load_tiers (local_path : string) (content : FileContent) (st : Store) :
  local_files (fst (_load_from_local local_path content st)) = local_files st
  /\ gcs_blobs (fst (_load_from_local local_path content st)) = gcs_blobs st.
Proof.
  unfold _load_from_local.
  destruct (ends_with ".parquet" local_path); [destruct content; auto|].
  destruct (ends_with ".json" local_path); [destruct content; auto|]. auto.
Qed.

(** The run of [get] on a local miss and a remote hit. *)
Lemma get_remote_hit (cond : Conditions) (file_name : string) (data : Payload) (st : Store) :
  local_files st !! file_name = None ->
  gcs_blobs st !! file_name = Some (serialize data) ->
  remote_up cond = true ->
  local_writable cond file_name = true ->
  extension_matches file_name data = true ->
  get cond file_name st
  = (write_local file_name (serialize data) (say (CacheHitFromGcs file_name) st),
     Returned (Some data)).
Proof.
  intros Hl Hg Hup Hw Hm. unfold get. rewrite Hl, Hup, Hg, Hw.
  rewrite (load_matching _ _ _ Hm (one_extension file_name)). reflexivity.
Qed.

(** X1 (tier promotion). On a local miss, with the bucket answering, a blob
    written for the key and a writable local path, [get] returns the payload
    and leaves a copy of the blob in the local tier; every later [get] of the
    key returns the payload again, whatever the state of the bucket then. *)
Theorem get_promotes_remote_hit (cond cond' : Conditions) (file_name : string)
    (data : Payload) (st : Store) :
  local_files st !! file_name = None ->
  gcs_blobs st !! file_name = Some (serialize data) ->
  remote_up cond = true ->
  local_writable cond file_name = true ->
  extension_matches file_name data = true ->
  snd (get cond file_name st) = Returned (Some data)
  /\ local_files (fst (get cond file_name st)) !! file_name = Some (serialize data)
  /\ In (CacheHitFromGcs file_name) (log (fst (get cond file_name st)))
  /\ snd (get cond' file_name (fst (get cond file_name st))) = Returned (Some data).
Proof.
  intros Hl Hg Hup Hw Hm.
  rewrite (get_remote_hit cond file_name data st Hl Hg Hup Hw Hm). cbn [fst snd].
  assert (Hloc : local_files (write_local file_name (serialize data)
                                (say (CacheHitFromGcs file_name) st)) !! file_name
                 = Some (serialize data)).
  { unfold write_local. cbn [local_files]. apply lookup_insert_eq. }
  split; [reflexivity|]. split; [exact Hloc|]. split.
  - cbn. apply in_or_app. right. left. reflexivity.
  - rewrite (get_local_hit cond' _ _ _ Hloc Hm). reflexivity.
Qed.

Lemma get_promotes_remote_hit_witness :
  snd (get all_fine "test_file.parquet" remote_only_store) = Returned (Some sample_frame)
  /\ snd (get bucket_down "test_file.parquet"
            (fst (get all_fine "test_file.parquet" remote_only_store)))
     = Returned (Some sample_frame).
Proof.
  pose proof (get_promotes_remote_hit all_fine bucket_down "test_file.parquet"
                sample_frame remote_only_store eq_refl eq_refl eq_refl eq_refl eq_refl)
    as [H1 [_ [_ H4]]].
  split; [exact H1 | exact H4].
Defined.




(** X4 (through the bucket). What [set] stored while the bucket answered
    can be read on a machine that shares the bucket and has an empty local
    cache: there [get] downloads the blob and returns the payload. *)
Theorem set_then_get_on_fresh_machine (cond cond' : Conditions) (file_name : string)
    (data : Payload) (st : Store) :
  local_writable cond file_name = true ->
  remote_up cond = true ->
  remote_up cond' = true ->
  local_writable cond' file_name = true ->
  extension_matches file_name data = true ->
  gcs_blobs (fst (set cond file_name data st)) !! file_name = Some (serialize data)
  /\ snd (get cond' file_name (fresh_local (fst (set cond file_name data st))))
     = Returned (Some data).
Proof.
  intros Hw Hup Hup' Hw' Hm.
  assert (Hg : gcs_blobs (fst (set cond file_name data st)) !! file_name
               = Some (serialize data)).
  { unfold set. rewrite Hw, Hup. cbn. apply lookup_insert_eq. }
  split; [exact Hg|].
  rewrite (get_remote_hit cond' file_name data (fresh_local _)); try assumption; reflexivity.
Qed.

Lemma set_then_get_on_fresh_machine_witness :
  snd (get all_fine "new_file.parquet"
         (fresh_local (fst (set all_fine "new_file.parquet" sample_frame empty_store))))
  = Returned (Some sample_frame).
Proof.
  apply (proj2 (set_then_get_on_fresh_machine all_fine all_fine "new_file.parquet"
                  sample_frame empty_store eq_refl eq_refl eq_refl eq_refl eq_refl)).
Defined.

(** *** Extensions of keys built by appending *)

Lemma list_ascii_of_string_app (a b : string) :
  list_ascii_of_string (a ++ b)%string
  = (list_ascii_of_string a ++ list_ascii_of_string b)%list.
Proof. induction a as [|c a IH]; simpl; [reflexivity|]. rewrite IH. reflexivity. Qed.

Lemma string_of_list_ascii_app (l1 l2 : list ascii) :
  string_of_list_ascii (l1 ++ l2)%list
  = (string_of_list_ascii l1 ++ string_of_list_ascii l2)%string.
Proof. induction l1 as [|c l1 IH]; simpl; [reflexivity|]. rewrite IH. reflexivity. Qed.

Lemma string_rev_app (a b : string) :
  string_rev (a ++ b)%string = (string_rev b ++ string_rev a)%string.
Proof.
  unfold string_rev.
  rewrite list_ascii_of_string_app, rev_app_distr. apply string_of_list_ascii_app.
Qed.

Lemma prefix_app (p s : string) : String.prefix p (p ++ s)%string = true.
Proof.
  induction p as [|c p IH]; simpl; [destruct s; reflexivity|].
  destruct (ascii_dec c c) as [_|Hne]; [exact IH|]. exfalso. apply Hne. reflexivity.
Qed.

(** A name that ends with a suffix by construction passes [endswith]. *)
Lemma ends_with_app (suffix s : string) : ends_with suffix (s ++ suffix)%string = true.
Proof. unfold ends_with. rewrite string_rev_app. apply prefix_app. Qed.

Lemma prefix_app_r (p s t : string) :
  String.prefix p s = true -> String.prefix p (s ++ t)%string = true.
Proof.
  revert s. induction p as [|c p IH]; intros s H.
  - destruct (s ++ t)%string; reflexivity.
  - destruct s as [|d s]; [discriminate H|].
    simpl in *. destruct (Ascii.ascii_dec c d); [apply IH; exact H|discriminate H].
Qed.

(** A name keeps its ending when something is put in front of it. *)
Lemma ends_with_app_l (suffix front s : string) :
  ends_with suffix s = true -> ends_with suffix (front ++ s)%string = true.
Proof.
  unfold ends_with. rewrite string_rev_app. apply prefix_app_r.
Qed.

End CacheFacts.

(** ** Properties of the per-asset orchestration *)

Module OrchestratorFacts.
Import Calendar CalendarFacts Pandas PandasFacts Cache CacheFacts Orchestrator.

Example sample_ethereum :
  snd (run_sample "ethereum")
  = Returned (Tabular (mkFrame
      ["date"; "coin_id"; "ticker"; "close"; "volume"; "market_cap"; "chain_tvl"]%string
      [ [Day (mkDate 2022 1 1); Str "ethereum"; Str "ETH"; Num 100%Q; Num 5%Q; Num 1000%Q; Num 7%Q];
        [Day (mkDate 2022 1 2); Str "ethereum"; Str "ETH"; Num 101%Q; Num 6%Q; Num 1010%Q; NaN] ]))
  /\ trace (fst (run_sample "ethereum"))
     = [ CacheGet "coin_history/ethereum.parquet"; CgMarketChart "ethereum"; CgOhlc "ethereum";
         LlamaCharts "Ethereum"; LunarCrush "ETH"; CacheSet "coin_history/ethereum.parquet" ].
Proof. vm_compute. split; reflexivity. Qed.

Example sample_dogecoin :
  snd (run_sample "dogecoin")
  = Returned (Tabular (mkFrame
      ["date"; "coin_id"; "ticker"; "close"; "volume"; "market_cap"]%string
      [ [Day (mkDate 2022 1 1); Str "dogecoin"; Str "DOGE"; Num 100%Q; Num 5%Q; Num 1000%Q];
        [Day (mkDate 2022 1 2); Str "dogecoin"; Str "DOGE"; Num 101%Q; Num 6%Q; Num 1010%Q] ])).
Proof. vm_compute. reflexivity. Qed.

Lemma primary_only_refl {C : Type} (w : World C) : primary_only w w.
Proof.
  split; [reflexivity|]. exists []. rewrite app_nil_r. split; [reflexivity|constructor].
Qed.

Lemma primary_only_trans {C : Type} (w1 w2 w3 : World C) :
  primary_only w1 w2 -> primary_only w2 w3 -> primary_only w1 w3.
Proof.
  intros [Hc1 [e1 [Ht1 Hf1]]] [Hc2 [e2 [Ht2 Hf2]]].
  split; [congruence|]. exists (e1 ++ e2).
  rewrite Ht2, Ht1, app_assoc. split; [reflexivity|].
  apply Forall_app. split; assumption.
Qed.

Lemma primary_only_step {C : Type} (w : World C) (charts : list (ApiReply MarketChart))
    (candles : list (ApiReply (list Ohlc))) (e : Event) :
  is_primary e = true ->
  primary_only w (mkWorld (cache w) charts candles (trace w ++ [e])).
Proof.
  intros He. split; [reflexivity|]. exists [e]. split; [reflexivity|].
  constructor; [exact He|constructor].
Qed.

(** [get_cg_market_data] always returns, and leaves the cache alone. *)
Lemma cg_attempts_effects {C : Type} (attempts : nat) (coin_id : string)
    (full_data : RawMarketData) (w : World C) :
  exists w' raw,
    cg_attempts attempts coin_id full_data w = (w', Returned raw) /\ primary_only w w'.
Proof.
  revert full_data w. induction attempts as [|n IH]; intros full_data w.
  - exists w, None. split; [reflexivity|apply primary_only_refl].
  - cbn [cg_attempts]. unfold bind at 1.
    set (w1 := mkWorld (cache w) (List.tl (chart_replies w)) (ohlc_replies w)
                 (trace w ++ [CgMarketChart coin_id])).
    assert (H1 : primary_only w w1) by (apply primary_only_step; reflexivity).
    assert (Hc : exists r, call_market_chart coin_id w = (w1, Returned r)).
    { unfold call_market_chart. fold w1. destruct (chart_replies w); eauto. }
    destruct Hc as [r ->].
    assert (Hretry : forall fd, exists w' raw,
              (emit (Sleep 61) ;;; cg_attempts n coin_id fd) w1 = (w', Returned raw)
              /\ primary_only w w').
    { intros fd. unfold bind, emit.
      set (w2 := mkWorld (cache w1) (chart_replies w1) (ohlc_replies w1)
                   (trace w1 ++ [Sleep 61])).
      destruct (IH fd w2) as [w' [raw [Hrun Hp]]].
      exists w', raw. split; [exact Hrun|].
      apply primary_only_trans with w1; [exact H1|].
      apply primary_only_trans with w2; [|exact Hp].
      apply primary_only_step. reflexivity. }
    destruct r as [chart| |].
    + unfold bind at 1.
      set (w2 := mkWorld (cache w1) (chart_replies w1) (List.tl (ohlc_replies w1))
                   (trace w1 ++ [CgOhlc coin_id])).
      assert (H2 : primary_only w w2).
      { apply primary_only_trans with w1; [exact H1|].
        apply primary_only_step. reflexivity. }
      assert (Hc : exists r, call_ohlc coin_id w1 = (w2, Returned r)).
      { unfold call_ohlc. fold w2. destruct (ohlc_replies w1); eauto. }
      destruct Hc as [r ->].
      destruct r as [candles| |].
      * eexists _, _. split; [reflexivity|exact H2].
      * unfold bind, emit.
        set (w3 := mkWorld (cache w2) (chart_replies w2) (ohlc_replies w2)
                     (trace w2 ++ [Sleep 61])).
        destruct (IH (mkRaw (Some chart) (ohlc full_data)) w3) as [w' [raw [Hrun Hp]]].
        exists w', raw. split; [exact Hrun|].
        apply primary_only_trans with w2; [exact H2|].
        apply primary_only_trans with w3; [|exact Hp].
        apply primary_only_step. reflexivity.
      * eexists _, _. split; [reflexivity|exact H2].
    + apply Hretry.
    + destruct (price_mcap_vol full_data); eexists _, _; (split; [reflexivity|exact H1]).
Qed.

(** The run of the orchestration when the lookup misses and the primary
    frame is empty. *)
Lemma gated_run {C : Type} (cacher : Cacher C) (src : Sources)
    (coin_id : string) (ticker_map llama_protocol_map llama_chain_map : gmap string string)
    (w w1 w2 : World C) (cg_raw : option RawMarketData) :
  cache_get cacher (cache_key coin_id) w = (w1, Returned None) ->
  get_cg_market_data coin_id w1 = (w2, Returned cg_raw) ->
  is_empty (process_market_data_to_df cg_raw coin_id ticker_map) = true ->
  fetch_and_cache_coin_history cacher src coin_id ticker_map
    llama_protocol_map llama_chain_map w
  = (w2, Returned (Tabular empty_frame)).
Proof.
  intros Hget Hcg Hempty.
  unfold fetch_and_cache_coin_history, bind.
  rewrite Hget, Hcg, Hempty. reflexivity.
Qed.

Lemma cache_get_trace {C : Type} (cacher : Cacher C) (key : string) (w : World C) :
  trace (fst (cache_get cacher key w)) = trace w ++ [CacheGet key].
Proof.
  unfold cache_get. destruct (cacher_get cacher key (cache w)). reflexivity.
Qed.

(** C6 (primary-failure gating). On a cache miss, when the frame built
    from what [get_cg_market_data] returned after its retries is empty, the
    orchestration returns an empty frame; after the cache lookup it only
    called the CoinGecko endpoints (no on-chain or social request and no
    cache write), and it leaves the cache as the lookup left it. *)
Theorem primary_failure_gates {C : Type} (cacher : Cacher C) (src : Sources)
    (coin_id : string) (ticker_map llama_protocol_map llama_chain_map : gmap string string)
    (w : World C) (cg_raw : option RawMarketData) :
  snd (cache_get cacher (cache_key coin_id) w) = Returned None ->
  snd (get_cg_market_data coin_id (fst (cache_get cacher (cache_key coin_id) w)))
  = Returned cg_raw ->
  is_empty (process_market_data_to_df cg_raw coin_id ticker_map) = true ->
  let run := fetch_and_cache_coin_history cacher src coin_id ticker_map
               llama_protocol_map llama_chain_map w in
  snd run = Returned (Tabular empty_frame)
  /\ cache (fst run) = cache (fst (cache_get cacher (cache_key coin_id) w))
  /\ exists evs,
       trace (fst run) = trace w ++ CacheGet (cache_key coin_id) :: evs
       /\ Forall (fun e => is_secondary e = false /\ is_cache_write e = false) evs.
Proof.
  intros Hmiss Hraw Hempty run. subst run.
  pose proof (cache_get_trace cacher (cache_key coin_id) w) as Ht1.
  destruct (cache_get cacher (cache_key coin_id) w) as [w1 r1] eqn:Hget.
  cbn [fst snd] in Hmiss, Hraw, Ht1 |- *. subst r1.
  destruct (cg_attempts_effects max_retries coin_id (mkRaw None None) w1)
    as [w2 [raw [Hrun [Hcache [evs [Htrace Hprim]]]]]].
  fold (get_cg_market_data (C := C) coin_id) in Hrun.
  rewrite Hrun in Hraw. cbn [snd] in Hraw. injection Hraw as ->.
  rewrite (gated_run cacher src coin_id ticker_map llama_protocol_map llama_chain_map
             w w1 w2 cg_raw Hget Hrun Hempty).
  cbn [fst snd].
  split; [reflexivity|]. split; [exact Hcache|].
  exists evs. split.
  - rewrite Htrace, Ht1, <- app_assoc. reflexivity.
  - eapply Forall_impl; [|exact Hprim].
    intros e He. destruct e; simpl in *; try discriminate; auto.
Qed.

Lemma primary_failure_gates_witness :
  let run := fetch_and_cache_coin_history (GCSCachingManager all_fine) sample_sources
               "ethereum" sample_ticker_map ∅ sample_chain_map rate_limited_world in
  snd run = Returned (Tabular empty_frame)
  /\ cache (fst run) = empty_store
  /\ trace (fst run)
     = [ CacheGet "coin_history/ethereum.parquet";
         CgMarketChart "ethereum"; Sleep 61;
         CgMarketChart "ethereum"; Sleep 61;
         CgMarketChart "ethereum"; Sleep 61 ].
Proof.
  pose proof (primary_failure_gates (GCSCachingManager all_fine) sample_sources
                "ethereum" sample_ticker_map ∅ sample_chain_map rate_limited_world None
                eq_refl eq_refl eq_refl) as [H1 [H2 _]].
  split; [exact H1|]. split; [exact H2|].
  vm_compute. reflexivity.
Defined.

Lemma has_column_In (cols : list string) (c : string) :
  has_column cols c = true <-> In c cols.
Proof.
  unfold has_column. rewrite existsb_exists. split.
  - intros [x [Hx He]]. apply String.eqb_eq in He. subst. exact Hx.
  - intros H. exists c. split; [exact H|apply String.eqb_refl].
Qed.

Lemma has_column_false (cols : list string) (c : string) :
  has_column cols c = false <-> ~ In c cols.
Proof.
  rewrite <- has_column_In. destruct (has_column cols c); split; intros H;
    try reflexivity; try discriminate; try (intros H'; discriminate H').
  exfalso. apply H. reflexivity.
Qed.

(** When the two sides share no column outside the join keys, a merge
    keeps the left columns and appends the other right columns. *)
Lemma merged_columns_disjoint (on lcols rcols : list string) :
  (forall c, In c lcols -> In c rcols -> In c on) ->
  merged_columns on lcols rcols
  = lcols ++ List.filter (fun c => negb (has_column on c)) rcols.
Proof.
  intros Hdis. unfold merged_columns. cbv zeta. f_equal.
  - rewrite <- (map_id lcols) at 2. apply map_ext_in. intros c Hc.
    destruct (has_column on c) eqn:Hon; cbn [negb andb]; [reflexivity|].
    destruct (has_column (List.filter _ rcols) c) eqn:Hr; [|reflexivity].
    exfalso. apply has_column_In, List.filter_In in Hr. destruct Hr as [Hr _].
    apply has_column_false in Hon. apply Hon, Hdis; assumption.
  - rewrite <- (map_id (List.filter _ rcols)) at 2. apply map_ext_in. intros c Hc.
    apply List.filter_In in Hc. destruct Hc as [Hc Hon].
    destruct (has_column (List.filter _ lcols) c) eqn:Hl; [|reflexivity].
    exfalso. apply has_column_In, List.filter_In in Hl. destruct Hl as [Hl _].
    apply negb_true_iff, has_column_false in Hon. apply Hon, Hdis; assumption.
Qed.

Lemma primary_frame_columns (cg_raw : option RawMarketData) (coin_id : string)
    (ticker_map : gmap string string) :
  is_empty (process_market_data_to_df cg_raw coin_id ticker_map) = false ->
  columns (process_market_data_to_df cg_raw coin_id ticker_map) = primary_columns cg_raw.
Proof.
  destruct cg_raw as [[[[pr tv mc]|] o]|]; try (intros H; discriminate H).
  destruct pr as [|pt pr]; [intros H; discriminate H|].
  intros _. destruct o as [[|candle candles]|]; reflexivity.
Qed.

Lemma protocol_tvl_columns (reply : HttpReply ProtocolBody) :
  is_empty (frame_of_reply _process_protocol_tvl_response reply) = false ->
  columns (frame_of_reply _process_protocol_tvl_response reply)
  = ["date"; "protocol_tvl"]%string.
Proof.
  destruct reply as [[[|pt tvl]|chains]| |]; try (intros H; discriminate H).
  - intros _. reflexivity.
  - cbn [frame_of_reply _process_protocol_tvl_response].
    destruct (fold_left _ _ _); [intros H; discriminate H|]. intros _. reflexivity.
Qed.

Lemma dex_volume_columns (reply : HttpReply Series) :
  is_empty (frame_of_reply _process_dex_volume_response reply) = false ->
  columns (frame_of_reply _process_dex_volume_response reply)
  = ["date"; "dex_volume"]%string.
Proof.
  destruct reply as [[|pt chart]| |]; try (intros H; discriminate H).
  intros _. reflexivity.
Qed.

Lemma disjoint_check (on lcols rcols : list string) :
  forallb (fun c => negb (has_column rcols c) || has_column on c) lcols = true ->
  forall c, In c lcols -> In c rcols -> In c on.
Proof.
  rewrite forallb_forall. intros H c Hl Hr.
  specialize (H c Hl). apply has_column_In in Hr. rewrite Hr in H.
  apply has_column_In. exact H.
Qed.

(** A non-empty protocol frame has both data columns. *)
Lemma protocol_data_columns (tvl_reply : HttpReply ProtocolBody) (dex_reply : HttpReply Series)
    (coin_id : string) (ticker_map : gmap string string) :
  let protocol_data_df :=
    merge_protocol_data (frame_of_reply _process_protocol_tvl_response tvl_reply)
      (frame_of_reply _process_dex_volume_response dex_reply) coin_id ticker_map in
  is_empty protocol_data_df = false ->
  List.filter (has_column (columns protocol_data_df)) ["protocol_tvl"; "dex_volume"]%string
  = ["protocol_tvl"; "dex_volume"]%string.
Proof.
  cbv zeta. unfold merge_protocol_data.
  pose proof (protocol_tvl_columns tvl_reply) as Htvl.
  pose proof (dex_volume_columns dex_reply) as Hdex.
  destruct (is_empty (frame_of_reply _process_protocol_tvl_response tvl_reply)) eqn:Et;
    destruct (is_empty (frame_of_reply _process_dex_volume_response dex_reply)) eqn:Ed;
    cbn [andb]; intros Hne.
  - discriminate Hne.
  - unfold assign at 1 2 3. cbn [columns]. rewrite (Hdex eq_refl). reflexivity.
  - unfold assign at 1 2 3. cbn [columns]. rewrite (Htvl eq_refl). reflexivity.
  - unfold assign at 1 2, merge_outer. cbn [columns].
    rewrite (Htvl eq_refl), (Hdex eq_refl). reflexivity.
Qed.

Lemma lunarcrush_columns_required (reply : HttpReply (list (list (string * Cell))))
    (coin_id : string) (c : string) :
  In c (columns (frame_of_reply (fun body => process_lunarcrush_body body coin_id) reply)) ->
  In c lc_required_cols.
Proof.
  destruct reply as [[|d body]| |]; cbn [frame_of_reply process_lunarcrush_body];
    try (intros H; destruct H).
  destruct (Nat.eqb _ 1); [|intros H; destruct H].
  unfold select. cbn [columns]. intros H. apply List.filter_In in H. apply H.
Qed.

(** A body whose records hold [time] and [date] gives two [date] columns
    after the renaming, the conversion raises, and the frame is empty; a
    body with [time] alone is processed. *)
Example lunarcrush_time_and_date :
  process_lunarcrush_body
    [ [("time", Num 1640995200%Q); ("date", Num 1%Q); ("galaxy_score", Num 60%Q)] ]%string
    "ethereum"
  = empty_frame
  /\ process_lunarcrush_body
       [ [("time", Num 1640995200%Q); ("galaxy_score", Num 60%Q)] ]%string "ethereum"
     = mkFrame ["date"; "coin_id"; "lc_galaxy_score"]%string
         [ [Day (mkDate 2022 1 1); Str "ethereum"; Num 60%Q] ].
Proof. vm_compute. split; reflexivity. Qed.

(** The columns that step 4 produces from frames with the columns the
    sources can have. *)
Lemma merge_sources_columns (cg_raw : option RawMarketData)
    (final_coin_df chain_tvl_df protocol_data_df lunarcrush_df : DataFrame) :
  columns final_coin_df = primary_columns cg_raw ->
  (is_empty protocol_data_df = false ->
   List.filter (has_column (columns protocol_data_df)) ["protocol_tvl"; "dex_volume"]%string
   = ["protocol_tvl"; "dex_volume"]%string) ->
  (forall c, In c (columns lunarcrush_df) -> In c lc_required_cols) ->
  columns (merge_sources final_coin_df chain_tvl_df protocol_data_df lunarcrush_df)
  = primary_columns cg_raw ++ chain_columns chain_tvl_df
    ++ protocol_columns protocol_data_df ++ lunarcrush_columns lunarcrush_df.
Proof.
  intros Hf Hp Hl.
  unfold merge_sources, chain_columns, protocol_columns, lunarcrush_columns. cbv zeta.
  assert (Hlc : forall lcols,
    forallb (fun c => negb (has_column lc_required_cols c)
                      || has_column ["date"; "coin_id"]%string c) lcols = true ->
    merged_columns ["date"; "coin_id"]%string lcols (columns lunarcrush_df)
    = lcols ++ List.filter (fun c => negb (has_column ["date"; "coin_id"]%string c))
                 (columns lunarcrush_df)).
  { intros lcols Hchk. apply merged_columns_disjoint.
    intros c Hc Hr. apply (disjoint_check _ _ _ Hchk c Hc). apply Hl, Hr. }
  unfold primary_columns in *.
  destruct (is_empty chain_tvl_df); destruct (is_empty protocol_data_df);
    try rewrite (Hp eq_refl); destruct (is_empty lunarcrush_df);
    cbn [merge_left select columns]; rewrite ?Hf;
    destruct (has_ohlc cg_raw);
    try reflexivity;
    (rewrite Hlc by reflexivity; reflexivity).
Qed.

Lemma bind_returned {C A B : Type} (m : Run C A) (f : A -> Run C B)
    (w w' : World C) (a : A) :
  m w = (w', Returned a) -> bind m f w = f a w'.
Proof. intros H. unfold bind. rewrite H. reflexivity. Qed.

Lemma fetch_chain_tvl_run {C : Type} (src : Sources) (coin_id : string)
    (ticker_map llama_chain_map : gmap string string) (w : World C) :
  exists w', fetch_chain_tvl src coin_id ticker_map llama_chain_map w
             = (w', Returned (chain_tvl_frame src coin_id ticker_map llama_chain_map)).
Proof.
  unfold fetch_chain_tvl, chain_tvl_frame.
  destruct (llama_chain_map !! coin_id); eexists; reflexivity.
Qed.

Lemma fetch_protocol_data_run {C : Type} (src : Sources) (coin_id : string)
    (ticker_map llama_protocol_map : gmap string string) (w : World C) :
  exists w', fetch_protocol_data src coin_id ticker_map llama_protocol_map w
             = (w', Returned (protocol_data_frame src coin_id ticker_map llama_protocol_map)).
Proof.
  unfold fetch_protocol_data, protocol_data_frame.
  destruct (llama_protocol_map !! coin_id) as [[|c slug]|]; eexists; reflexivity.
Qed.

Lemma get_and_process_lunarcrush_data_run {C : Type} (src : Sources) (coin_id : string)
    (ticker_map : gmap string string) (w : World C) :
  exists w', get_and_process_lunarcrush_data src (ticker_of ticker_map coin_id) coin_id w
             = (w', Returned (lunarcrush_frame src coin_id ticker_map)).
Proof.
  unfold get_and_process_lunarcrush_data, lunarcrush_frame.
  destruct (ticker_of ticker_map coin_id); eexists; reflexivity.
Qed.

(** On a miss with a non-empty primary frame, what the orchestration
    returns, when it returns, is the merge of the four frames. *)
Lemma merged_run {C : Type} (cacher : Cacher C) (src : Sources)
    (coin_id : string) (ticker_map llama_protocol_map llama_chain_map : gmap string string)
    (w w1 w2 : World C) (cg_raw : option RawMarketData) (result : Payload) :
  cache_get cacher (cache_key coin_id) w = (w1, Returned None) ->
  get_cg_market_data coin_id w1 = (w2, Returned cg_raw) ->
  is_empty (process_market_data_to_df cg_raw coin_id ticker_map) = false ->
  snd (fetch_and_cache_coin_history cacher src coin_id ticker_map
         llama_protocol_map llama_chain_map w) = Returned result ->
  result = Tabular (merge_sources (process_market_data_to_df cg_raw coin_id ticker_map)
                      (chain_tvl_frame src coin_id ticker_map llama_chain_map)
                      (protocol_data_frame src coin_id ticker_map llama_protocol_map)
                      (lunarcrush_frame src coin_id ticker_map)).
Proof.
  intros Hget Hcg Hne. unfold fetch_and_cache_coin_history.
  rewrite (bind_returned _ _ _ _ _ Hget).
  rewrite (bind_returned _ _ _ _ _ Hcg).
  rewrite Hne.
  destruct (fetch_chain_tvl_run src coin_id ticker_map llama_chain_map w2) as [w3 H3].
  rewrite (bind_returned _ _ _ _ _ H3).
  destruct (fetch_protocol_data_run src coin_id ticker_map llama_protocol_map w3) as [w4 H4].
  rewrite (bind_returned _ _ _ _ _ H4).
  fold (ticker_of ticker_map coin_id).
  destruct (get_and_process_lunarcrush_data_run src coin_id ticker_map w4) as [w5 H5].
  rewrite (bind_returned _ _ _ _ _ H5).
  set (merged := merge_sources _ _ _ _).
  unfold bind. destruct (is_empty merged).
  - cbn. intros [= <-]. reflexivity.
  - destruct (cache_set cacher (cache_key coin_id) (Tabular merged) w5) as [w6 [[]|]];
      cbn; intros H; [injection H as <-; reflexivity | discriminate H].
Qed.

(** Rows of the frames that the TVL and DEX parsers build have two cells. *)
Lemma dex_volume_rows (reply : HttpReply Series) (r : list Cell) :
  In r (rows (frame_of_reply _process_dex_volume_response reply)) ->
  exists a b, r = [a; b].
Proof.
  destruct reply as [[|pt chart]| |]; try (intros H; solve [destruct H]).
  cbn [frame_of_reply _process_dex_volume_response].
  unfold assign, series_frame. cbn [columns rows index_of String.eqb Ascii.eqb Bool.eqb].
  rewrite map_map. intros H. apply in_map_iff in H. destruct H as [x [<- _]].
  eexists _, _. reflexivity.
Qed.

Lemma protocol_tvl_rows (reply : HttpReply ProtocolBody) (r : list Cell) :
  In r (rows (frame_of_reply _process_protocol_tvl_response reply)) ->
  exists a b, r = [a; b].
Proof.
  destruct reply as [[[|pt tvl]|chains]| |]; try (intros H; solve [destruct H]).
  - cbn [frame_of_reply _process_protocol_tvl_response].
    unfold select. cbn [rows]. intros H. apply in_map_iff in H.
    destruct H as [x [<- _]]. eexists _, _. reflexivity.
  - cbn [frame_of_reply _process_protocol_tvl_response].
    destruct (fold_left _ _ _) as [|t totals]; [intros H; destruct H|].
    cbn [rows]. intros H.
    apply (Permutation_in _ (sort_values_perm _ _)) in H.
    apply in_map_iff in H. destruct H as [x [<- _]]. eexists _, _. reflexivity.
Qed.

(** When exactly one of the TVL and DEX frames is empty, the protocol frame
    holds NaN in every row of the column of the empty one. *)
Lemma protocol_missing_side_is_nan (tvl_reply : HttpReply ProtocolBody)
    (dex_reply : HttpReply Series) (coin_id : string) (ticker_map : gmap string string) :
  let tvl_df := frame_of_reply _process_protocol_tvl_response tvl_reply in
  let dex_df := frame_of_reply _process_dex_volume_response dex_reply in
  let protocol_data_df := merge_protocol_data tvl_df dex_df coin_id ticker_map in
  (is_empty tvl_df = true -> is_empty dex_df = false ->
   forall r, In r (rows protocol_data_df) ->
             cell_at (columns protocol_data_df) r "protocol_tvl" = NaN)
  /\ (is_empty tvl_df = false -> is_empty dex_df = true ->
      forall r, In r (rows protocol_data_df) ->
                cell_at (columns protocol_data_df) r "dex_volume" = NaN).
Proof.
  cbv zeta. unfold merge_protocol_data.
  pose proof (protocol_tvl_columns tvl_reply) as Htvl.
  pose proof (dex_volume_columns dex_reply) as Hdex.
  split; intros Et Ed r; rewrite Et, Ed; cbn [andb].
  - specialize (Hdex Ed). unfold assign at 1 2 3 4 5 6. cbn [columns rows].
    rewrite Hdex. cbn [index_of String.eqb Ascii.eqb Bool.eqb option_map columns rows app].
    rewrite !map_map. intros H. apply in_map_iff in H. destruct H as [x [<- Hx]].
    destruct (dex_volume_rows _ _ Hx) as [a [b ->]]. reflexivity.
  - specialize (Htvl Et). unfold assign at 1 2 3 4 5 6. cbn [columns rows].
    rewrite Htvl. cbn [index_of String.eqb Ascii.eqb Bool.eqb option_map columns rows app].
    rewrite !map_map. intros H. apply in_map_iff in H. destruct H as [x [<- Hx]].
    destruct (protocol_tvl_rows _ _ Hx) as [a [b ->]]. reflexivity.
Qed.

(** C7, as stated, fails: both assets are fetched on a miss with a primary
    frame, ethereum has chain TVL data and dogecoin has none, and the two
    results do not have the same columns; neither holds a column for a
    source that returned nothing. *)
Lemma merged_schema_varies :
  result_columns (snd (run_sample "ethereum"))
  = Some ["date"; "coin_id"; "ticker"; "close"; "volume"; "market_cap"; "chain_tvl"]%string
  /\ result_columns (snd (run_sample "dogecoin"))
     = Some ["date"; "coin_id"; "ticker"; "close"; "volume"; "market_cap"]%string.
Proof. vm_compute. split; reflexivity. Qed.

(** C7 (amended). On a miss with a non-empty primary frame, the columns of
    the merged result are: the primary columns ([open], [high] and [low]
    among them only when OHLC data came back); then [chain_tvl] when the
    chain TVL frame is not empty; then [protocol_tvl] and [dex_volume] when
    the protocol frame is not empty, that is, when the TVL or the DEX frame
    is not empty, the column of an empty one of the two holding NaN in
    every row of the protocol frame; then the LunarCrush columns that the
    response had, when the LunarCrush frame is not empty.  The columns of a
    secondary source whose frame is empty are left out. *)
Theorem merged_schema {C : Type} (cacher : Cacher C) (src : Sources)
    (coin_id : string) (ticker_map llama_protocol_map llama_chain_map : gmap string string)
    (w : World C) (cg_raw : option RawMarketData) (df : DataFrame) :
  snd (cache_get cacher (cache_key coin_id) w) = Returned None ->
  snd (get_cg_market_data coin_id (fst (cache_get cacher (cache_key coin_id) w)))
  = Returned cg_raw ->
  is_empty (process_market_data_to_df cg_raw coin_id ticker_map) = false ->
  snd (fetch_and_cache_coin_history cacher src coin_id ticker_map
         llama_protocol_map llama_chain_map w) = Returned (Tabular df) ->
  columns df
  = primary_columns cg_raw
    ++ chain_columns (chain_tvl_frame src coin_id ticker_map llama_chain_map)
    ++ protocol_columns (protocol_data_frame src coin_id ticker_map llama_protocol_map)
    ++ lunarcrush_columns (lunarcrush_frame src coin_id ticker_map)
  /\ forall slug,
      let tvl_df := protocol_tvl_frame src slug in
      let dex_df := dex_volume_frame src slug in
      let protocol_data_df := merge_protocol_data tvl_df dex_df coin_id ticker_map in
      (is_empty tvl_df = true -> is_empty dex_df = false ->
       forall r, In r (rows protocol_data_df) ->
                 cell_at (columns protocol_data_df) r "protocol_tvl" = NaN)
      /\ (is_empty tvl_df = false -> is_empty dex_df = true ->
          forall r, In r (rows protocol_data_df) ->
                    cell_at (columns protocol_data_df) r "dex_volume" = NaN).
Proof.
  intros Hmiss Hraw Hne Hrun.
  split; [|intros slug; apply protocol_missing_side_is_nan].
  destruct (cache_get cacher (cache_key coin_id) w) as [w1 r1] eqn:Hget.
  cbn [fst snd] in Hmiss, Hraw. subst r1.
  destruct (get_cg_market_data coin_id w1) as [w2 r2] eqn:Hcg.
  cbn [snd] in Hraw. subst r2.
  pose proof (merged_run cacher src coin_id ticker_map llama_protocol_map llama_chain_map
                w w1 w2 cg_raw (Tabular df) Hget Hcg Hne Hrun) as Hdf.
  injection Hdf as ->.
  apply merge_sources_columns.
  - apply primary_frame_columns, Hne.
  - unfold protocol_data_frame.
    destruct (llama_protocol_map !! coin_id) as [[|c slug]|];
      try (intros H; discriminate H).
    apply protocol_data_columns.
  - intros c. unfold lunarcrush_frame.
    destruct (ticker_of ticker_map coin_id); [intros H; destruct H|].
    apply lunarcrush_columns_required.
Qed.

Lemma merged_schema_witness :
  snd (run_sample "ethereum") = Returned (Tabular ethereum_frame)
  /\ columns ethereum_frame
     = primary_columns (Some (mkRaw (Some sample_chart) None))
       ++ chain_columns (chain_tvl_frame sample_sources "ethereum" sample_ticker_map
                           sample_chain_map)
       ++ protocol_columns (protocol_data_frame sample_sources "ethereum"
                              sample_ticker_map ∅)
       ++ lunarcrush_columns (lunarcrush_frame sample_sources "ethereum"
                                sample_ticker_map).
Proof.
  assert (Hrun : snd (run_sample "ethereum") = Returned (Tabular ethereum_frame))
    by (vm_compute; reflexivity).
  split; [exact Hrun|].
  apply (proj1 (merged_schema DummyCachingManager sample_sources "ethereum"
                  sample_ticker_map ∅ sample_chain_map sample_world
                  (Some (mkRaw (Some sample_chart) None)) ethereum_frame
                  eq_refl eq_refl eq_refl Hrun)).
Defined.

(** With the GCS manager, a key that neither tier holds, and a bucket that
    answers, the failed primary fetch leaves the whole store as it was. *)
Lemma primary_failure_leaves_store (cond : Conditions) (src : Sources)
    (coin_id : string) (ticker_map llama_protocol_map llama_chain_map : gmap string string)
    (w : World Store) (cg_raw : option RawMarketData) :
  local_files (cache w) !! cache_key coin_id = None ->
  gcs_blobs (cache w) !! cache_key coin_id = None ->
  remote_up cond = true ->
  snd (get_cg_market_data coin_id (fst (cache_get (GCSCachingManager cond) (cache_key coin_id) w)))
  = Returned cg_raw ->
  is_empty (process_market_data_to_df cg_raw coin_id ticker_map) = true ->
  cache (fst (fetch_and_cache_coin_history (GCSCachingManager cond) src coin_id ticker_map
                llama_protocol_map llama_chain_map w)) = cache w.
Proof.
  intros Hl Hg Hup Hraw Hempty.
  assert (Hget : cacher_get (GCSCachingManager cond) (cache_key coin_id) (cache w)
                 = (cache w, Returned None)).
  { cbn [GCSCachingManager cacher_get]. unfold get. rewrite Hl, Hup, Hg. reflexivity. }
  destruct (cache_get (GCSCachingManager cond) (cache_key coin_id) w) as [w1 r1] eqn:Hrun1.
  unfold cache_get in Hrun1. rewrite Hget in Hrun1. injection Hrun1 as Hw1 Hr1.
  subst r1. cbn [fst] in Hraw.
  destruct (cg_attempts_effects max_retries coin_id (mkRaw None None) w1)
    as [w2 [raw [Hrun2 [Hcache _]]]].
  fold (get_cg_market_data (C := Store) coin_id) in Hrun2.
  rewrite Hrun2 in Hraw. cbn [snd] in Hraw. injection Hraw as ->.
  assert (Hrun1 : cache_get (GCSCachingManager cond) (cache_key coin_id) w
                  = (w1, Returned None)).
  { unfold cache_get. rewrite Hget, Hw1. reflexivity. }
  rewrite (gated_run (GCSCachingManager cond) src coin_id ticker_map llama_protocol_map
             llama_chain_map w w1 w2 cg_raw Hrun1 Hrun2 Hempty).
  cbn [fst]. rewrite Hcache, <- Hw1. reflexivity.
Qed.

(** *** The retry loop of the primary fetch *)

(** One iteration of the loop either ends the call, after the market-chart
    call alone or after both calls, or sleeps 61 seconds and goes on with
    one attempt less. *)
Lemma cg_attempts_step {C : Type} (n : nat) (coin_id : string)
    (full_data : RawMarketData) (w : World C) :
  (exists raw charts candles pre,
      cg_attempts (S n) coin_id full_data w
      = (mkWorld (cache w) charts candles (trace w ++ pre), Returned raw)
      /\ (pre = [CgMarketChart coin_id] \/ pre = [CgMarketChart coin_id; CgOhlc coin_id])
      /\ (forall r, raw = Some r -> price_mcap_vol r <> None))
  \/ (exists full_data' charts candles pre,
        cg_attempts (S n) coin_id full_data w
        = cg_attempts n coin_id full_data'
            (mkWorld (cache w) charts candles (trace w ++ pre))
        /\ (pre = [CgMarketChart coin_id; Sleep 61]
            \/ pre = [CgMarketChart coin_id; CgOhlc coin_id; Sleep 61])).
Proof.
  cbn [cg_attempts]. unfold bind, call_market_chart, call_ohlc, emit, ret.
  destruct (chart_replies w) as [|[chart| |] charts]; cbn [cache chart_replies ohlc_replies trace List.tl].
  - left. destruct (price_mcap_vol full_data) eqn:E;
      eexists _, _, _, _; (split; [reflexivity|]); (split; [left; reflexivity|]).
    + intros r [= <-]. rewrite E. discriminate.
    + intros r H. discriminate H.
  - destruct (ohlc_replies w) as [|[ohlc_data| |] candles];
      cbn [cache chart_replies ohlc_replies trace List.tl]; rewrite <- ?app_assoc.
    + left. eexists _, _, _, _. split; [reflexivity|]. split; [right; reflexivity|].
      intros r [= <-]. discriminate.
    + left. eexists _, _, _, _. split; [reflexivity|]. split; [right; reflexivity|].
      intros r [= <-]. discriminate.
    + right. eexists _, _, _, _. split; [reflexivity|]. right. reflexivity.
    + left. eexists _, _, _, _. split; [reflexivity|]. split; [right; reflexivity|].
      intros r [= <-]. discriminate.
  - right. rewrite <- ?app_assoc. eexists _, _, _, _. split; [reflexivity|]. left. reflexivity.
  - left. destruct (price_mcap_vol full_data) eqn:E;
      eexists _, _, _, _; (split; [reflexivity|]); (split; [left; reflexivity|]).
    + intros r [= <-]. rewrite E. discriminate.
    + intros r H. discriminate H.
Qed.

Lemma cg_attempts_bounded {C : Type} (n : nat) (coin_id : string)
    (full_data : RawMarketData) (w : World C) :
  exists w' raw evs,
    cg_attempts n coin_id full_data w = (w', Returned raw)
    /\ trace w' = trace w ++ evs
    /\ Forall (primary_event_of coin_id) evs
    /\ (count_events is_chart_call evs <= n)%nat
    /\ ((0 < n)%nat -> (1 <= count_events is_chart_call evs)%nat)
    /\ (count_events is_ohlc_call evs <= count_events is_chart_call evs)%nat
    /\ (count_events is_sleep evs <= count_events is_chart_call evs)%nat
    /\ (forall r, raw = Some r -> price_mcap_vol r <> None).
Proof.
  revert full_data w. induction n as [|n IH]; intros full_data w.
  - exists w, None, []. rewrite app_nil_r. cbn.
    repeat split; try constructor; try lia. intros r H. discriminate H.
  - destruct (cg_attempts_step n coin_id full_data w)
      as [[raw [charts [candles [pre [Hrun [Hpre Hraw]]]]]]
         |[fd' [charts [candles [pre [Hrun Hpre]]]]]].
    + eexists _, raw, pre. split; [exact Hrun|]. split; [reflexivity|].
      destruct Hpre as [-> | ->]; cbn; unfold primary_event_of;
        repeat split; auto; try lia; repeat constructor; auto.
    + destruct (IH fd' (mkWorld (cache w) charts candles (trace w ++ pre)))
        as [w' [raw [evs [Hrun' [Ht [Hall [Hc [_ [Ho [Hs Hraw]]]]]]]]]].
      exists w', raw, (pre ++ evs). rewrite Hrun.
      split; [exact Hrun'|]. split; [rewrite Ht; cbn; symmetry; apply app_assoc|].
      unfold count_events in *. rewrite !List.filter_app, !length_app.
      destruct Hpre as [-> | ->]; cbn; unfold primary_event_of;
        (split; [repeat (constructor; [auto|]); exact Hall|]);
        repeat split; auto; lia.
Qed.

(** X5 (bounded retries). A primary fetch always returns; it calls the
    market-chart endpoint at least once and at most [max_retries] = 3
    times, the OHLC endpoint no more often than the chart endpoint, sleeps
    no more often than it called the chart endpoint and always 61 seconds,
    and produces no other event. *)
Theorem primary_fetch_is_bounded {C : Type} (coin_id : string) (w : World C) :
  exists cg_raw evs,
    snd (get_cg_market_data coin_id w) = Returned cg_raw
    /\ trace (fst (get_cg_market_data coin_id w)) = trace w ++ evs
    /\ Forall (primary_event_of coin_id) evs
    /\ (1 <= count_events is_chart_call evs <= 3)%nat
    /\ (count_events is_ohlc_call evs <= count_events is_chart_call evs)%nat
    /\ (count_events is_sleep evs <= count_events is_chart_call evs)%nat.
Proof.
  unfold get_cg_market_data.
  destruct (cg_attempts_bounded max_retries coin_id (mkRaw None None) w)
    as [w' [raw [evs [Hrun [Ht [Hall [Hc [Hc1 [Ho [Hs _]]]]]]]]]].
  exists raw, evs. rewrite Hrun. cbn [fst snd].
  repeat split; auto. apply Hc1. unfold max_retries. lia.
Qed.

(** X6 (what a primary fetch returns). Whenever the primary fetch returns
    data, the data holds the market chart: OHLC data never comes without
    it, and [process_market_data_to_df] never meets a result without the
    [price_mcap_vol] entry. *)
Theorem primary_fetch_result_has_chart {C : Type} (coin_id : string) (w : World C)
    (raw : RawMarketData) :
  snd (get_cg_market_data coin_id w) = Returned (Some raw) ->
  exists chart, price_mcap_vol raw = Some chart.
Proof.
  unfold get_cg_market_data.
  destruct (cg_attempts_bounded max_retries coin_id (mkRaw None None) w)
    as [w' [cg_raw [evs [Hrun [_ [_ [_ [_ [_ [_ Hraw]]]]]]]]]].
  rewrite Hrun. cbn [snd]. intros [= ->].
  destruct (price_mcap_vol raw) as [chart|] eqn:E; [eauto|].
  exfalso. exact (Hraw raw eq_refl E).
Qed.

Lemma primary_fetch_result_has_chart_witness :
  snd (get_cg_market_data "ethereum" sample_world)
  = Returned (Some (mkRaw (Some sample_chart) None))
  /\ exists chart, price_mcap_vol (mkRaw (Some sample_chart) None) = Some chart.
Proof.
  split; [reflexivity|].
  apply (primary_fetch_result_has_chart "ethereum" sample_world). reflexivity.
Defined.

(** X7 (failures of the OHLC endpoint). After a market chart that came
    back, an OHLC error that is not a rate limit ends the fetch with the
    chart alone, after two calls and no sleep; but an OHLC endpoint that is
    rate limited on all three attempts ends it with nothing, although the
    chart came back each time. *)
Theorem ohlc_failures {C : Type} (c : C) (coin_id : string) (chart1 chart2 chart3 : MarketChart)
    (charts : list (ApiReply MarketChart)) (candles : list (ApiReply (list Ohlc)))
    (events : list Event) :
  get_cg_market_data coin_id
    (mkWorld c (ApiOk chart1 :: charts) (ApiError :: candles) events)
  = (mkWorld c charts candles (events ++ [CgMarketChart coin_id; CgOhlc coin_id]),
     Returned (Some (mkRaw (Some chart1) None)))
  /\ get_cg_market_data coin_id
       (mkWorld c (ApiOk chart1 :: ApiOk chart2 :: ApiOk chart3 :: charts)
          (ApiRateLimited :: ApiRateLimited :: ApiRateLimited :: candles) events)
     = (mkWorld c charts candles
          (events ++ [CgMarketChart coin_id; CgOhlc coin_id; Sleep 61;
                      CgMarketChart coin_id; CgOhlc coin_id; Sleep 61;
                      CgMarketChart coin_id; CgOhlc coin_id; Sleep 61]),
        Returned None).
Proof.
  split.
  - cbn. rewrite <- app_assoc. reflexivity.
  - cbn. rewrite <- !app_assoc. reflexivity.
Qed.

(** *** The primary frame *)

Lemma primary_frame_rows (cg_raw : option RawMarketData) (coin_id : string)
    (ticker_map : gmap string string) :
  (List.length (price_points cg_raw)
   <= List.length (rows (process_market_data_to_df cg_raw coin_id ticker_map)))%nat.
Proof.
  destruct cg_raw as [[[[pr tv mc]|] o]|]; cbn [price_points price_mcap_vol prices List.length];
    try lia.
  destruct pr as [|pt pr]; [cbn; lia|].
  unfold process_market_data_to_df. cbn [price_mcap_vol prices total_volumes market_caps ohlc].
  rewrite select_rows_length, !assign_rows_length.
  set (df := assign "date" _ _).
  assert (Hdf : (List.length (pt :: pr) <= List.length (rows df))%nat).
  { subst df. rewrite assign_rows_length.
    etransitivity; [|apply merge_left_rows_length].
    etransitivity; [|apply merge_left_rows_length].
    unfold series_frame. cbn [rows]. rewrite length_map. lia. }
  destruct o as [[|candle candles]|]; try exact Hdf.
  etransitivity; [exact Hdf|]. apply merge_left_rows_length.
Qed.

(** X8 (the primary gate). The frame of the primary source is empty
    exactly when the fetch returned no price point (no data, no market
    chart, or a chart without prices); otherwise it has at least one row
    per price point, whatever the volume, market-cap and OHLC series
    hold. *)
Theorem primary_frame_empty_iff (cg_raw : option RawMarketData) (coin_id : string)
    (ticker_map : gmap string string) :
  (is_empty (process_market_data_to_df cg_raw coin_id ticker_map) = true
   <-> price_points cg_raw = [])
  /\ (List.length (price_points cg_raw)
      <= List.length (rows (process_market_data_to_df cg_raw coin_id ticker_map)))%nat.
Proof.
  split; [|apply primary_frame_rows].
  pose proof (primary_frame_rows cg_raw coin_id ticker_map) as Hrows.
  destruct cg_raw as [[[[pr tv mc]|] o]|]; try (split; reflexivity).
  destruct pr as [|pt pr]; [split; reflexivity|].
  cbn [price_points price_mcap_vol prices] in *.
  split; [|intros H; discriminate H].
  rewrite is_empty_false; [intros H; discriminate H| |cbn [List.length] in Hrows; lia].
  destruct o as [[|candle candles]|]; cbn; discriminate.
Qed.

(** *** The requests of a run *)

Lemma emitted_refl {C : Type} (w : World C) : emitted w w [].
Proof. unfold emitted. rewrite app_nil_r. repeat split. Qed.

Lemma emitted_trans {C : Type} (w1 w2 w3 : World C) (evs1 evs2 : list Event) :
  emitted w1 w2 evs1 -> emitted w2 w3 evs2 -> emitted w1 w3 (evs1 ++ evs2).
Proof.
  intros (Hc1 & Hr1 & Ho1 & Ht1) (Hc2 & Hr2 & Ho2 & Ht2). unfold emitted.
  rewrite Hc2, Hr2, Ho2, Ht2, Ht1, app_assoc. repeat split; assumption.
Qed.

Lemma fetch_chain_tvl_events {C : Type} (src : Sources) (coin_id : string)
    (ticker_map llama_chain_map : gmap string string) (w : World C) :
  exists w', fetch_chain_tvl src coin_id ticker_map llama_chain_map w
             = (w', Returned (chain_tvl_frame src coin_id ticker_map llama_chain_map))
             /\ emitted w w' (chain_events coin_id llama_chain_map).
Proof.
  unfold fetch_chain_tvl, chain_tvl_frame, chain_events.
  destruct (llama_chain_map !! coin_id); eexists; (split; [reflexivity|]).
  - repeat split.
  - apply emitted_refl.
Qed.

Lemma fetch_protocol_data_events {C : Type} (src : Sources) (coin_id : string)
    (ticker_map llama_protocol_map : gmap string string) (w : World C) :
  exists w', fetch_protocol_data src coin_id ticker_map llama_protocol_map w
             = (w', Returned (protocol_data_frame src coin_id ticker_map llama_protocol_map))
             /\ emitted w w' (protocol_events coin_id llama_protocol_map).
Proof.
  unfold fetch_protocol_data, protocol_data_frame, protocol_events.
  destruct (llama_protocol_map !! coin_id) as [[|c slug]|]; eexists;
    (split; [reflexivity|]); try apply emitted_refl.
  unfold emitted. cbn. rewrite <- app_assoc. repeat split.
Qed.

Lemma lunarcrush_events_run {C : Type} (src : Sources) (coin_id : string)
    (ticker_map : gmap string string) (w : World C) :
  exists w', get_and_process_lunarcrush_data src (ticker_of ticker_map coin_id) coin_id w
             = (w', Returned (lunarcrush_frame src coin_id ticker_map))
             /\ emitted w w' (lunarcrush_events coin_id ticker_map).
Proof.
  unfold get_and_process_lunarcrush_data, lunarcrush_frame, lunarcrush_events.
  destruct (ticker_of ticker_map coin_id); eexists; (split; [reflexivity|]).
  - apply emitted_refl.
  - repeat split.
Qed.

(** Merging further sources onto a primary frame that is not empty gives a
    frame that is not empty. *)
Lemma merge_sources_not_empty (final_coin_df chain_tvl_df protocol_data_df lunarcrush_df : DataFrame) :
  is_empty final_coin_df = false ->
  is_empty (merge_sources final_coin_df chain_tvl_df protocol_data_df lunarcrush_df) = false.
Proof.
  intros H. unfold merge_sources.
  destruct (is_empty chain_tvl_df); destruct (is_empty protocol_data_df);
    destruct (is_empty lunarcrush_df);
    try destruct (List.filter _ _);
    repeat (apply merge_left_not_empty); exact H.
Qed.

(** The run of the orchestration when the lookup misses and the primary
    frame is not empty: the secondary requests, then the cache write. *)
Lemma successful_run {C : Type} (cacher : Cacher C) (src : Sources)
    (coin_id : string) (ticker_map llama_protocol_map llama_chain_map : gmap string string)
    (w w1 w2 : World C) (cg_raw : option RawMarketData) :
  cache_get cacher (cache_key coin_id) w = (w1, Returned None) ->
  get_cg_market_data coin_id w1 = (w2, Returned cg_raw) ->
  is_empty (process_market_data_to_df cg_raw coin_id ticker_map) = false ->
  let merged := merged_frame src cg_raw coin_id ticker_map llama_protocol_map llama_chain_map in
  is_empty merged = false
  /\ exists w5,
       emitted w2 w5 (secondary_events coin_id ticker_map llama_protocol_map llama_chain_map)
       /\ fetch_and_cache_coin_history cacher src coin_id ticker_map
            llama_protocol_map llama_chain_map w
          = bind (cache_set cacher (cache_key coin_id) (Tabular merged))
              (fun _ => ret (Tabular merged)) w5.
Proof.
  intros Hget Hcg Hne merged.
  assert (Hm : is_empty merged = false) by (apply merge_sources_not_empty; exact Hne).
  split; [exact Hm|].
  unfold fetch_and_cache_coin_history.
  rewrite (bind_returned _ _ _ _ _ Hget).
  rewrite (bind_returned _ _ _ _ _ Hcg).
  rewrite Hne.
  destruct (fetch_chain_tvl_events src coin_id ticker_map llama_chain_map w2) as [w3 [H3 E3]].
  rewrite (bind_returned _ _ _ _ _ H3).
  destruct (fetch_protocol_data_events src coin_id ticker_map llama_protocol_map w3)
    as [w4 [H4 E4]].
  rewrite (bind_returned _ _ _ _ _ H4).
  fold (ticker_of ticker_map coin_id).
  destruct (lunarcrush_events_run src coin_id ticker_map w4) as [w5 [H5 E5]].
  rewrite (bind_returned _ _ _ _ _ H5).
  fold (merged_frame src cg_raw coin_id ticker_map llama_protocol_map llama_chain_map).
  fold merged. rewrite Hm.
  exists w5. split; [|reflexivity].
  unfold secondary_events.
  apply emitted_trans with w3; [exact E3|].
  apply emitted_trans with w4; [exact E4|exact E5].
Qed.

Lemma cache_key_is_parquet (coin_id : string) :
  extension_matches (cache_key coin_id) (Tabular empty_frame) = true.
Proof.
  unfold extension_matches, cache_key.
  apply ends_with_app_l. apply ends_with_app.
Qed.

(** X9 (cache hit). When the cache lookup returns a payload, the
    orchestration returns that payload and does nothing else: its only event
    is the lookup, no CoinGecko answer is consumed, and the cache is as the
    lookup left it. *)
Theorem cache_hit_short_circuits {C : Type} (cacher : Cacher C) (src : Sources)
    (coin_id : string) (ticker_map llama_protocol_map llama_chain_map : gmap string string)
    (w : World C) (cached : Payload) :
  snd (cache_get cacher (cache_key coin_id) w) = Returned (Some cached) ->
  let run := fetch_and_cache_coin_history cacher src coin_id ticker_map
               llama_protocol_map llama_chain_map w in
  snd run = Returned cached
  /\ trace (fst run) = trace w ++ [CacheGet (cache_key coin_id)]
  /\ chart_replies (fst run) = chart_replies w
  /\ ohlc_replies (fst run) = ohlc_replies w
  /\ cache (fst run) = fst (cacher_get cacher (cache_key coin_id) (cache w)).
Proof.
  intros Hhit run. subst run. unfold fetch_and_cache_coin_history.
  destruct (cache_get cacher (cache_key coin_id) w) as [w1 r1] eqn:Hget.
  cbn [snd] in Hhit. subst r1.
  rewrite (bind_returned _ _ _ _ _ Hget). cbn [ret fst snd].
  unfold cache_get in Hget.
  destruct (cacher_get cacher (cache_key coin_id) (cache w)) as [c r].
  injection Hget as <- _. cbn. repeat split.
Qed.

Lemma cache_hit_short_circuits_witness :
  let w := mkWorld (<["coin_history/ethereum.parquet" := ParquetFile ethereum_frame]> ∅
                    : gmap string FileContent) [] [] [] in
  let cacher := mkCacher (gmap string FileContent)
                  (fun key c => (c, Returned (match c !! key with
                                              | Some (ParquetFile df) => Some (Tabular df)
                                              | _ => None
                                              end)))
                  (fun _ _ c => (c, Returned tt)) in
  let run := fetch_and_cache_coin_history cacher failing_sources "ethereum"
               sample_ticker_map sample_protocol_map sample_chain_map w in
  snd run = Returned (Tabular ethereum_frame)
  /\ trace (fst run) = [CacheGet "coin_history/ethereum.parquet"].
Proof.
  intros w cacher.
  pose proof (cache_hit_short_circuits cacher failing_sources "ethereum"
                sample_ticker_map sample_protocol_map sample_chain_map w
                (Tabular ethereum_frame) eq_refl) as [H1 [H2 _]].
  split; [exact H1|exact H2].
Defined.

(** X10 (a successful fetch). On a cache miss with a primary frame that is
    not empty, the merged frame is not empty; after the CoinGecko calls the
    orchestration makes exactly the secondary requests that the lookup maps
    list for the asset (whatever the sources answer), then writes the merged
    frame to the cache once, under the key of the asset; it returns the
    merged frame unless that write raises. *)
Theorem successful_fetch_effects {C : Type} (cacher : Cacher C) (src : Sources)
    (coin_id : string) (ticker_map llama_protocol_map llama_chain_map : gmap string string)
    (w : World C) (cg_raw : option RawMarketData) :
  snd (cache_get cacher (cache_key coin_id) w) = Returned None ->
  snd (get_cg_market_data coin_id (fst (cache_get cacher (cache_key coin_id) w)))
  = Returned cg_raw ->
  is_empty (process_market_data_to_df cg_raw coin_id ticker_map) = false ->
  let merged := merged_frame src cg_raw coin_id ticker_map llama_protocol_map llama_chain_map in
  let w2 := fst (get_cg_market_data coin_id (fst (cache_get cacher (cache_key coin_id) w))) in
  let write := cacher_set cacher (cache_key coin_id) (Tabular merged) (cache w2) in
  let run := fetch_and_cache_coin_history cacher src coin_id ticker_map
               llama_protocol_map llama_chain_map w in
  is_empty merged = false
  /\ trace (fst run)
     = trace w2 ++ secondary_events coin_id ticker_map llama_protocol_map llama_chain_map
       ++ [CacheSet (cache_key coin_id)]
  /\ cache (fst run) = fst write
  /\ snd run = match snd write with
               | Returned _ => Returned (Tabular merged)
               | Raised => Raised
               end.
Proof.
  intros Hmiss Hraw Hne merged w2 write run. subst write run w2.
  destruct (cache_get cacher (cache_key coin_id) w) as [w1 r1] eqn:Hget.
  cbn [fst snd] in *. subst r1.
  destruct (get_cg_market_data coin_id w1) as [w2 r2] eqn:Hcg.
  cbn [fst snd] in *. subst r2.
  destruct (successful_run cacher src coin_id ticker_map llama_protocol_map
              llama_chain_map w w1 w2 cg_raw Hget Hcg Hne)
    as [Hm [w5 [(Hc & _ & _ & Ht) Hrun]]].
  fold merged in Hrun. split; [exact Hm|].
  rewrite Hrun. unfold bind, cache_set. rewrite Hc.
  destruct (cacher_set cacher (cache_key coin_id) (Tabular merged) (cache w2))
    as [c [[]|]]; cbn [fst snd trace cache ret]; rewrite Ht, <- app_assoc; repeat split.
Qed.

Lemma successful_fetch_effects_witness :
  let run := fetch_and_cache_coin_history (GCSCachingManager all_fine) failing_sources
               "ethereum" sample_ticker_map sample_protocol_map sample_chain_map
               first_run_world in
  trace (fst run)
  = [ CacheGet "coin_history/ethereum.parquet";
      CgMarketChart "ethereum"; CgOhlc "ethereum";
      LlamaCharts "Ethereum"; LlamaProtocol "lido"; LlamaDexs "lido"; LunarCrush "ETH";
      CacheSet "coin_history/ethereum.parquet" ]
  /\ exists merged, snd run = Returned (Tabular merged) /\ is_empty merged = false.
Proof.
  pose proof (successful_fetch_effects (GCSCachingManager all_fine) failing_sources
                "ethereum" sample_ticker_map sample_protocol_map sample_chain_map
                first_run_world _ eq_refl eq_refl eq_refl) as [H1 [H2 [_ H4]]].
  split; [exact H2|].
  eexists. split; [exact H4|exact H1].
Defined.

(** X11 (resumability). After a successful fetch through the GCS manager
    with the local cache directory writable, a later fetch of the same asset
    on a store that still holds the local file returns the same merged
    frame from the cache alone: its only event is the lookup, whatever the
    conditions, the sources, the maps and the CoinGecko answers are then. *)
Theorem rerun_reads_the_cache (cond cond' : Conditions) (src src' : Sources)
    (coin_id : string)
    (ticker_map llama_protocol_map llama_chain_map : gmap string string)
    (ticker_map' llama_protocol_map' llama_chain_map' : gmap string string)
    (w w' : World Store) (cg_raw : option RawMarketData) :
  local_writable cond (cache_key coin_id) = true ->
  snd (cache_get (GCSCachingManager cond) (cache_key coin_id) w) = Returned None ->
  snd (get_cg_market_data coin_id
         (fst (cache_get (GCSCachingManager cond) (cache_key coin_id) w)))
  = Returned cg_raw ->
  is_empty (process_market_data_to_df cg_raw coin_id ticker_map) = false ->
  local_files (cache w') !! cache_key coin_id
  = local_files (cache (fst (fetch_and_cache_coin_history (GCSCachingManager cond) src
                               coin_id ticker_map llama_protocol_map llama_chain_map w)))
    !! cache_key coin_id ->
  let rerun := fetch_and_cache_coin_history (GCSCachingManager cond') src' coin_id
                 ticker_map' llama_protocol_map' llama_chain_map' w' in
  snd rerun
  = Returned (Tabular (merged_frame src cg_raw coin_id ticker_map
                         llama_protocol_map llama_chain_map))
  /\ trace (fst rerun) = trace w' ++ [CacheGet (cache_key coin_id)]
  /\ cache (fst rerun) = cache w'.
Proof.
  intros Hw Hmiss Hraw Hne Hsame rerun. subst rerun.
  set (merged := merged_frame src cg_raw coin_id ticker_map llama_protocol_map llama_chain_map).
  destruct (cache_get (GCSCachingManager cond) (cache_key coin_id) w) as [w1 r1] eqn:Hget.
  cbn [fst snd] in *. subst r1.
  destruct (get_cg_market_data coin_id w1) as [w2 r2] eqn:Hcg.
  cbn [fst snd] in *. subst r2.
  destruct (successful_run (GCSCachingManager cond) src coin_id ticker_map
              llama_protocol_map llama_chain_map w w1 w2 cg_raw Hget Hcg Hne)
    as [_ [w5 [_ Hrun]]].
  fold merged in Hrun. rewrite Hrun in Hsame. clear Hrun.
  unfold bind, cache_set in Hsame. cbn [cacher_set GCSCachingManager] in Hsame.
  pose proof (set_local_file cond (cache_key coin_id) (Tabular merged) (cache w5) Hw) as Hfile.
  pose proof (set_returns cond (cache_key coin_id) (Tabular merged) (cache w5)) as Hret.
  destruct (Cache.set cond (cache_key coin_id) (Tabular merged) (cache w5)) as [c r].
  cbn [fst snd] in Hfile, Hret. subst r. cbn [fst cache ret] in Hsame.
  rewrite Hfile in Hsame.
  pose proof (get_local_hit cond' (cache_key coin_id) (Tabular merged) (cache w') Hsame
                (cache_key_is_parquet coin_id)) as Hhit.
  unfold fetch_and_cache_coin_history, bind, cache_get.
  cbn [cacher_get GCSCachingManager]. rewrite Hhit.
  cbn. repeat split.
Qed.

Lemma rerun_reads_the_cache_witness :
  let first := fetch_and_cache_coin_history (GCSCachingManager all_fine) sample_sources
                 "ethereum" sample_ticker_map sample_protocol_map sample_chain_map
                 (mkWorld empty_store [ApiOk sample_chart] [ApiError] []) in
  let rerun := fetch_and_cache_coin_history (GCSCachingManager (mkConditions (fun _ => false) false))
                 failing_sources
                 "ethereum" ∅ ∅ ∅ (mkWorld (cache (fst first)) [] [] []) in
  snd rerun = snd first
  /\ trace (fst rerun) = [CacheGet "coin_history/ethereum.parquet"].
Proof.
  intros first rerun.
  pose proof (rerun_reads_the_cache all_fine (mkConditions (fun _ => false) false)
                sample_sources failing_sources
                "ethereum" sample_ticker_map sample_protocol_map sample_chain_map ∅ ∅ ∅
                (mkWorld empty_store [ApiOk sample_chart] [ApiError] [])
                (mkWorld (cache (fst first)) [] [] []) _
                eq_refl eq_refl eq_refl eq_refl eq_refl) as [H1 [H2 _]].
  split; [|exact H2].
  fold rerun in H1. rewrite H1. vm_compute. reflexivity.
Defined.

(** *** The aggregation of the chain TVLs *)

Lemma total_of_add (date d : Date) (tvl : Q) (totals : list (Date * Q)) :
  total_of d (add_daily_total date tvl totals)
  = if date_eqb date d
    then Some (match total_of date totals with Some t => t | None => 0 end + tvl)%Q
    else total_of d totals.
Proof.
  induction totals as [|[d0 t0] rest IH]; simpl.
  - reflexivity.
  - destruct (date_eqb d0 date) eqn:E0; simpl.
    + apply date_eqb_eq in E0. subst d0. destruct (date_eqb date d); reflexivity.
    + rewrite IH. destruct (date_eqb date d) eqn:E; [|reflexivity].
      apply date_eqb_eq in E. subst d. rewrite E0. reflexivity.
Qed.

Lemma add_daily_total_keys (date : Date) (tvl : Q) (totals : list (Date * Q)) (d : Date) :
  In d (map fst (add_daily_total date tvl totals)) <-> d = date \/ In d (map fst totals).
Proof.
  induction totals as [|[d0 t0] rest IH]; simpl.
  - intuition.
  - destruct (date_eqb d0 date) eqn:E; simpl.
    + apply date_eqb_eq in E. subst d0. intuition.
    + rewrite IH. intuition.
Qed.

Lemma add_daily_total_NoDup (date : Date) (tvl : Q) (totals : list (Date * Q)) :
  NoDup (map fst totals) -> NoDup (map fst (add_daily_total date tvl totals)).
Proof.
  induction totals as [|[d0 t0] rest IH]; simpl; intros Hnd.
  - repeat constructor. intros [].
  - inversion Hnd as [|? ? Hnin Hnd']; subst.
    destruct (date_eqb d0 date) eqn:E; simpl; [exact Hnd|].
    constructor; [|apply IH, Hnd'].
    rewrite add_daily_total_keys. intros [->|Hin]; [|contradiction].
    rewrite (proj2 (date_eqb_eq _ _) eq_refl) in E. discriminate E.
Qed.

Lemma total_of_In (totals : list (Date * Q)) (d : Date) (t : Q) :
  NoDup (map fst totals) -> (In (d, t) totals <-> total_of d totals = Some t).
Proof.
  induction totals as [|[d0 t0] rest IH]; simpl; intros Hnd.
  - split; [intros []|discriminate].
  - inversion Hnd as [|? ? Hnin Hnd']; subst.
    destruct (date_eqb d0 d) eqn:E.
    + apply date_eqb_eq in E. subst d0. split.
      * intros [[= ->]|Hin]; [reflexivity|]. exfalso. apply Hnin.
        apply in_map_iff. exists (d, t). auto.
      * intros [= ->]. left. reflexivity.
    + rewrite <- (IH Hnd'). split.
      * intros [[= -> _]|Hin]; [|exact Hin].
        rewrite (proj2 (date_eqb_eq _ _) eq_refl) in E. discriminate E.
      * intros Hin. right. exact Hin.
Qed.

(** The dict after the loops, read at one day. *)
Lemma daily_totals_fold (items : list (Z * Q)) (acc : list (Date * Q)) (d : Date) :
  let totals := fold_left (fun totals item =>
                             add_daily_total (day_of_seconds (fst item)) (snd item) totals)
                          items acc in
  (NoDup (map fst acc) -> NoDup (map fst totals))
  /\ total_of d totals = accumulate (total_of d acc) (day_items d items).
Proof.
  revert acc. induction items as [|item rest IH]; intros acc; cbn [fold_left].
  - split; [auto|reflexivity].
  - destruct (IH (add_daily_total (day_of_seconds (fst item)) (snd item) acc)) as [Hnd Ht].
    cbn zeta in Hnd, Ht. split.
    + intros H. apply Hnd, add_daily_total_NoDup, H.
    + rewrite Ht, total_of_add. unfold day_items. cbn [List.filter].
      destruct (date_eqb (day_of_seconds (fst item)) d) eqn:E.
      * apply date_eqb_eq in E. rewrite E. cbn [accumulate map fold_left].
        destruct (List.filter _ rest); reflexivity.
      * reflexivity.
Qed.

(** X25 (the aggregated TVL of a multi-chain protocol). For a body with
    [chainTvls], the frame has one row per day on which some chain has an
    item, in strictly ascending date order, and the [protocol_tvl] of a day
    is the running sum, from 0, of that day's items over all chains, in the
    order of the chains and of their items. *)
Theorem chain_tvl_aggregation (chain_tvls : list (string * list (Z * Q))) :
  let items := flat_map snd chain_tvls in
  exists totals : list (Date * Q),
    rows (_process_protocol_tvl_response (ChainTvls chain_tvls))
    = map (fun item => [Day (fst item); Num (snd item)]) totals
    /\ StronglySorted (fun a b => date_compare (fst a) (fst b) = Lt) totals
    /\ forall d t,
         In (d, t) totals
         <-> day_items d items <> []
             /\ t = fold_left Qplus (map snd (day_items d items)) 0%Q.
Proof.
  intros items. cbn [_process_protocol_tvl_response]. fold items.
  set (step := fun (totals : list (Date * Q)) (item : Z * Q) =>
                 add_daily_total (day_of_seconds (fst item)) (snd item) totals).
  set (daily := fold_left step items []).
  assert (Hnd : NoDup (map fst daily))
    by (apply (proj1 (daily_totals_fold items [] (mkDate 0 0 0))); constructor).
  assert (Hin : forall d t, In (d, t) daily
                <-> day_items d items <> []
                    /\ t = fold_left Qplus (map snd (day_items d items)) 0%Q).
  { intros d t. rewrite (total_of_In daily d t Hnd).
    unfold daily, step. rewrite (proj2 (daily_totals_fold items [] d)).
    cbn [total_of]. unfold accumulate.
    destruct (day_items d items) as [|i its].
    - split; [discriminate|]. intros [H _]. congruence.
    - split.
      + intros [= <-]. split; [discriminate|reflexivity].
      + intros [_ ->]. reflexivity. }
  set (cmp := fun a b : Date * Q => date_compare (fst a) (fst b)).
  exists (sort_values cmp daily). split; [|split].
  - destruct daily as [|x rest] eqn:Ed; [reflexivity|].
    cbn [rows]. apply sort_values_map. intros [d1 t1] [d2 t2].
    unfold compare_on, cmp, lex. cbn.
    destruct (date_compare d1 d2); reflexivity.
  - apply (sort_values_strict cmp fst).
    + intros a b H. apply date_compare_eq, H.
    + intros a b. apply date_compare_antisym.
    + intros a b c. apply date_compare_lt_trans.
    + exact Hnd.
  - intros d t. rewrite <- Hin. split; apply Permutation_in.
    + apply sort_values_perm.
    + symmetry. apply sort_values_perm.
Qed.

Example chain_tvl_aggregation_sample :
  rows (_process_protocol_tvl_response (ChainTvls sample_chain_tvls))
  = [ [Day (mkDate 2022 1 1); Num (0 + 3 + 4)%Q];
      [Day (mkDate 2022 1 2); Num (0 + 5)%Q] ].
Proof. vm_compute. reflexivity. Qed.

End OrchestratorFacts.

(** ** Properties of the candidate fetch *)

Module UniverseFetchFacts.
Import Cache Orchestrator UniverseFetch.

(** What the loop does with [attempts] iterations left, in closed form. *)
Lemma cg_attempts_closed_form {C : Type} (attempts : nat) (coin_id : string) (w : World C) :
  let k := Nat.min attempts (rate_limited_prefix (chart_replies w)) in
  let run := cg_attempts attempts coin_id w in
  snd run = Returned (if (k <? attempts)%nat then answer_after k (chart_replies w) else None)
  /\ trace (fst run)
     = trace w ++ List.concat (repeat [CgMarketChart coin_id; Sleep 61] k)
       ++ (if (k <? attempts)%nat then [CgMarketChart coin_id] else [])
  /\ chart_replies (fst run)
     = skipn (if (k <? attempts)%nat then S k else k) (chart_replies w)
  /\ cache (fst run) = cache w
  /\ ohlc_replies (fst run) = ohlc_replies w.
Proof.
  revert w. induction attempts as [|n IH]; intros w k run.
  - subst k run. cbn. rewrite app_nil_r. repeat split.
  - assert (Hrun : run = match chart_replies w with
                         | ApiOk d :: _ =>
                             (mkWorld (cache w) (List.tl (chart_replies w)) (ohlc_replies w)
                                (trace w ++ [CgMarketChart coin_id]), Returned (Some d))
                         | ApiRateLimited :: _ =>
                             cg_attempts n coin_id
                               (mkWorld (cache w) (List.tl (chart_replies w)) (ohlc_replies w)
                                  ((trace w ++ [CgMarketChart coin_id]) ++ [Sleep 61]))
                         | _ =>
                             (mkWorld (cache w) (List.tl (chart_replies w)) (ohlc_replies w)
                                (trace w ++ [CgMarketChart coin_id]), Returned None)
                         end).
    { subst run. cbn [cg_attempts]. unfold bind, call_market_chart.
      destruct (chart_replies w) as [|[d| |] rest]; reflexivity. }
    rewrite Hrun. clear Hrun run. subst k.
    destruct (chart_replies w) as [|[d| |] rest] eqn:Er.
    + cbn [rate_limited_prefix Nat.min]. change (0 <? S n)%nat with true.
      cbn. repeat split.
    + cbn [rate_limited_prefix Nat.min]. change (0 <? S n)%nat with true.
      cbn. repeat split.
    + cbn [rate_limited_prefix Nat.min List.tl].
      set (m := Nat.min n (rate_limited_prefix rest)).
      change (S m <? S n)%nat with (m <? n)%nat.
      set (w3 := mkWorld (cache w) rest (ohlc_replies w)
                   ((trace w ++ [CgMarketChart coin_id]) ++ [Sleep 61])).
      destruct (IH w3) as (H1 & H2 & H3 & H4 & H5).
      cbn [chart_replies trace cache ohlc_replies w3] in H1, H2, H3, H4, H5.
      fold m in H1, H2, H3.
      split; [|split; [|split; [|split]]].
      * rewrite H1. unfold answer_after. destruct (m <? n)%nat; reflexivity.
      * rewrite H2. cbn [repeat List.concat]. rewrite <- !app_assoc. reflexivity.
      * rewrite H3. destruct (m <? n)%nat; reflexivity.
      * exact H4.
      * exact H5.
    + cbn [rate_limited_prefix Nat.min]. change (0 <? S n)%nat with true.
      cbn. repeat split.
Qed.

(** X21 (the candidate fetch). [get_cg_market_data] of the universe script
    calls the market-chart endpoint once per answer 429, at most three
    times, and sleeps 61 s after each answer 429, the third included; it
    returns the chart when the first other answer is a chart within the
    three attempts, and [None] otherwise; it consumes exactly the answers
    it asked for. *)
Theorem candidate_fetch_closed_form {C : Type} (coin_id : string) (w : World C) :
  let k := Nat.min 3 (rate_limited_prefix (chart_replies w)) in
  let run := get_cg_market_data coin_id w in
  snd run = Returned (if (k <? 3)%nat then answer_after k (chart_replies w) else None)
  /\ trace (fst run)
     = trace w ++ List.concat (repeat [CgMarketChart coin_id; Sleep 61] k)
       ++ (if (k <? 3)%nat then [CgMarketChart coin_id] else [])
  /\ chart_replies (fst run)
     = skipn (if (k <? 3)%nat then S k else k) (chart_replies w).
Proof.
  destruct (cg_attempts_closed_form max_retries coin_id w) as (H1 & H2 & H3 & _).
  split; [exact H1|]. split; [exact H2|exact H3].
Qed.

(** Three answers 429: three calls, three sleeps, no data. *)
Example candidate_fetch_gives_up :
  get_cg_market_data "ethereum"
    (mkWorld tt [ApiRateLimited; ApiRateLimited; ApiRateLimited; ApiOk sample_chart] [] [])
  = (mkWorld tt [ApiOk sample_chart] []
       [ CgMarketChart "ethereum"; Sleep 61; CgMarketChart "ethereum"; Sleep 61;
         CgMarketChart "ethereum"; Sleep 61 ],
     Returned None).
Proof. reflexivity. Qed.

End UniverseFetchFacts.

(** ** Properties of the lookup maps *)

Module LlamaMapsFacts.
Import Cache CacheFacts Orchestrator LlamaMaps.

Example sample_comprehension :
  comprehension sample_listings []
  = Some [ ("aave", JStr "aave-v3"); ("uniswap", JStr "uniswap-v3") ]%string.
Proof. reflexivity. Qed.

(** A null [slug] does not raise: it is stored under the asset, the map is
    written to the cache and returned, and the next call reads it there. *)
Example null_slug_is_cached :
  let run := create_defillama_protocol_map (GCSCachingManager all_fine)
               (HttpOk null_slug_listings) empty_store in
  request_failed (HttpOk null_slug_listings) = false
  /\ returned run = Returned (dict_payload [ ("curve"%string, JNull) ])
  /\ local_files (store run) !! "maps/llama_protocol_map.json"%string
     = Some (JsonFile (JObj [ ("curve"%string, JNull) ]))
  /\ requested (create_defillama_protocol_map (GCSCachingManager all_fine)
                  HttpRaised (store run)) = false.
Proof. vm_compute. repeat split; reflexivity. Qed.

(** A listing with a [gecko_id] and no [slug] key makes the comprehension
    raise. *)
Example missing_slug_raises :
  comprehension missing_slug_listings [] = None
  /\ request_failed (HttpOk missing_slug_listings) = true.
Proof. split; reflexivity. Qed.

(** *** The dict comprehension *)

Lemma dict_set_In (k : string) (v : Json) (d : list (string * Json)) (k' : string) (v' : Json) :
  NoDup (map fst d) ->
  In (k', v') (dict_set k v d)
  <-> (k' = k /\ v' = v) \/ (k' <> k /\ In (k', v') d).
Proof.
  induction d as [|[k0 v0] d IH]; simpl; intros Hnd.
  - split.
    + intros [[= <- <-]|[]]. left. auto.
    + intros [[-> ->]|[_ []]]. left. reflexivity.
  - inversion Hnd as [|? ? Hnin Hnd']; subst.
    destruct (String.eqb k0 k) eqn:E.
    + apply String.eqb_eq in E. subst k0. simpl. split.
      * intros [[= <- <-]|Hin]; [left; auto|]. right. split; [|right; exact Hin].
        intros ->. apply Hnin. apply in_map_iff. exists (k, v'). auto.
      * intros [[-> ->]|[Hne [[= <- <-]|Hin]]]; [left; reflexivity|congruence|].
        right. exact Hin.
    + apply String.eqb_neq in E. simpl. rewrite (IH Hnd'). split.
      * intros [[= <- <-]|[H|[Hne Hin]]]; [right; auto|left; exact H|right; auto].
      * intros [H|[Hne [Heq|Hin]]]; [right; left; exact H|left; exact Heq|].
        right. right. auto.
Qed.

Lemma dict_set_keys (k : string) (v : Json) (d : list (string * Json)) (k' : string) :
  In k' (map fst (dict_set k v d)) <-> k' = k \/ In k' (map fst d).
Proof.
  induction d as [|[k0 v0] d IH]; simpl.
  - intuition.
  - destruct (String.eqb k0 k) eqn:E; simpl.
    + apply String.eqb_eq in E. subst k0. intuition.
    + rewrite IH. intuition.
Qed.

Lemma dict_set_NoDup (k : string) (v : Json) (d : list (string * Json)) :
  NoDup (map fst d) -> NoDup (map fst (dict_set k v d)).
Proof.
  induction d as [|[k0 v0] d IH]; simpl; intros Hnd.
  - repeat constructor. intros [].
  - inversion Hnd as [|? ? Hnin Hnd']; subst.
    destruct (String.eqb k0 k) eqn:E; simpl; [exact Hnd|].
    apply String.eqb_neq in E.
    constructor; [|apply IH, Hnd'].
    rewrite dict_set_keys. intros [Heq|Hin]; [congruence|contradiction].
Qed.

(** The comprehension continued from [acc]: keys stay distinct, and a key
    holds the label of its last listing, or what [acc] held when no listing
    names it. *)
Lemma comprehension_from (listings : list Listing) (acc d : list (string * Json)) :
  comprehension listings acc = Some d ->
  NoDup (map fst acc) ->
  NoDup (map fst d)
  /\ forall g s,
       In (g, s) d
       <-> (exists l1 p l2, listings = l1 ++ p :: l2 /\ names g p /\ label p = Some s
                            /\ Forall (fun q => ~ names g q) l2)
           \/ (In (g, s) acc /\ Forall (fun q => ~ names g q) listings).
Proof.
  revert acc. induction listings as [|p rest IH]; intros acc Hc Hnd.
  - simpl in Hc. injection Hc as <-. split; [exact Hnd|].
    intros g s. split.
    + intros Hin. right. split; [exact Hin|constructor].
    + intros [(l1 & q & l2 & Heq & _)|[Hin _]]; [|exact Hin].
      destruct l1; discriminate Heq.
  - assert (Hskip : forall acc', comprehension rest acc' = Some d -> NoDup (map fst acc') ->
               (forall g s, In (g, s) acc' <-> (names g p /\ label p = Some s)
                                             \/ (~ names g p /\ In (g, s) acc)) ->
               NoDup (map fst d)
               /\ forall g s,
                    In (g, s) d
                    <-> (exists l1 q l2, p :: rest = l1 ++ q :: l2 /\ names g q
                                         /\ label q = Some s
                                         /\ Forall (fun q => ~ names g q) l2)
                        \/ (In (g, s) acc /\ Forall (fun q => ~ names g q) (p :: rest))).
    { intros acc' Hc' Hnd' Hacc. destruct (IH acc' Hc' Hnd') as [Hd Hiff].
      split; [exact Hd|]. intros g s. rewrite Hiff. split.
      - intros [(l1 & q & l2 & -> & Hq)|[Hin Hall]].
        + left. exists (p :: l1), q, l2. auto.
        + apply Hacc in Hin. destruct Hin as [[Hn Hl]|[Hn Hin]].
          * left. exists [], p, rest. auto.
          * right. split; [exact Hin|]. constructor; assumption.
      - intros [(l1 & q & l2 & Heq & Hn & Hl & Hall)|[Hin Hall]].
        + destruct l1 as [|x l1]; simpl in Heq; injection Heq as -> ->.
          * right. split; [|exact Hall]. apply Hacc. left. auto.
          * left. exists l1, q, l2. auto.
        + inversion Hall as [|? ? Hp Hrest]; subst.
          right. split; [|exact Hrest]. apply Hacc. right. auto. }
    simpl in Hc. destruct (gecko_id p) as [g0|] eqn:Eg.
    + destruct (truthy g0) eqn:Et.
      * destruct (label p) as [s0|] eqn:El; [|discriminate Hc].
        apply (Hskip _ Hc (dict_set_NoDup g0 s0 acc Hnd)).
        intros g s. rewrite (dict_set_In g0 s0 acc g s Hnd). unfold names. rewrite Eg.
        split.
        -- intros [[-> ->]|[Hne Hin]]; [left; auto|].
           right. split; [|exact Hin]. intros [[= H] _]. congruence.
        -- intros [[[[= ->] _] [= ->]]|[Hn Hin]]; [left; auto|].
           right. split; [|exact Hin]. intros ->. apply Hn. auto.
      * apply (Hskip _ Hc Hnd). intros g s. unfold names. rewrite Eg. split.
        -- intros Hin. right. split; [|exact Hin]. intros [[= ->] Ht]. congruence.
        -- intros [[[[= ->] Ht] _]|[_ Hin]]; [congruence|exact Hin].
    + apply (Hskip _ Hc Hnd). intros g s. unfold names. rewrite Eg. split.
      * intros Hin. right. split; [|exact Hin]. intros [H _]. discriminate H.
      * intros [[[H _] _]|[_ Hin]]; [discriminate H|exact Hin].
Qed.

(** X22 (the map comprehension). When the comprehension succeeds, the map
    has each key once, and it maps an asset id to a label exactly when the
    last listing that names the asset (a listing with that non-empty
    [gecko_id]) has that label, a null label included: listings without a
    [gecko_id] are skipped and a later listing of an asset replaces an
    earlier one. *)
Theorem comprehension_last_listing_wins (listings : list Listing)
    (protocol_map : list (string * Json)) :
  comprehension listings [] = Some protocol_map ->
  NoDup (map fst protocol_map)
  /\ forall g s,
       In (g, s) protocol_map
       <-> exists l1 p l2, listings = l1 ++ p :: l2 /\ names g p /\ label p = Some s
                           /\ Forall (fun q => ~ names g q) l2.
Proof.
  intros Hc. destruct (comprehension_from listings [] protocol_map Hc) as [Hnd Hiff];
    [constructor|].
  split; [exact Hnd|]. intros g s. rewrite Hiff. split.
  - intros [H|[[] _]]. exact H.
  - intros H. left. exact H.
Qed.

Lemma comprehension_last_listing_wins_witness :
  NoDup ["aave"; "uniswap"]%string.
Proof.
  apply (comprehension_last_listing_wins sample_listings
           [ ("aave", JStr "aave-v3"); ("uniswap", JStr "uniswap-v3") ]%string).
  reflexivity.
Defined.

(** *** The maps and the cache *)

Lemma load_data (local_path : string) (content : FileContent) (st st' : Store) :
  snd (_load_from_local local_path content st)
  = snd (_load_from_local local_path content st').
Proof.
  unfold _load_from_local.
  destruct (ends_with ".parquet" local_path); [destruct content; reflexivity|].
  destruct (ends_with ".json" local_path); [destruct content; reflexivity|].
  reflexivity.
Qed.

Lemma get_local_file (cond : Conditions) (file_name : string) (content : FileContent)
    (st : Store) :
  local_files st !! file_name = Some content ->
  snd (get cond file_name st)
  = Returned (snd (_load_from_local file_name content st)).
Proof.
  intros El. unfold get. rewrite El.
  destruct (_load_from_local file_name content st). reflexivity.
Qed.

(** A miss of [get] is a miss again on the store that it leaves. *)
Lemma get_miss_stable (cond : Conditions) (file_name : string) (st : Store) :
  snd (get cond file_name st) = Returned None ->
  snd (get cond file_name (fst (get cond file_name st))) = Returned None.
Proof.
  destruct (local_files st !! file_name) as [content|] eqn:El.
  - rewrite (get_local_file cond file_name content st El). intros [= Hd].
    assert (El' : local_files (fst (get cond file_name st)) !! file_name = Some content).
    { unfold get. rewrite El.
      pose proof (load_tiers file_name content st) as [Hl _].
      destruct (_load_from_local file_name content st). cbn [fst] in *.
      rewrite Hl. exact El. }
    rewrite (get_local_file cond file_name content _ El').
    rewrite (load_data _ _ _ st), Hd. reflexivity.
  - unfold get at 1 3. rewrite El.
    destruct (remote_up cond) eqn:Eu; [|cbn; intros H; discriminate H].
    destruct (gcs_blobs st !! file_name) as [content|] eqn:Eb.
    + destruct (local_writable cond file_name); [|cbn; intros H; discriminate H].
      set (st2 := write_local file_name content (say (CacheHitFromGcs file_name) st)).
      pose proof (load_tiers file_name content st2) as [Hl _].
      destruct (_load_from_local file_name content st2) as [st3 data] eqn:Eload.
      cbn [fst snd] in *. intros [= ->].
      assert (El' : local_files st3 !! file_name = Some content).
      { rewrite Hl. subst st2. cbn. apply lookup_insert_eq. }
      rewrite (get_local_file cond file_name content _ El').
      rewrite (load_data _ _ _ st2), Eload. reflexivity.
    + cbn [fst snd]. intros _. unfold get. rewrite El, Eu, Eb. reflexivity.
Qed.

(** X23 (the maps are fetched once). Through the GCS manager, with the
    local cache directory writable and a key that ends in [.json], a call
    that misses the cache and builds a map stores it; a later call on a
    store that still holds the local file returns the same map and sends no
    request, whatever the conditions and the API would answer then. *)
Theorem map_rerun_reads_cache (cond cond' : Conditions) (cache_key : string)
    (listings : list Listing) (reply' : HttpReply (list Listing))
    (protocol_map : list (string * Json)) (st st' : Store) :
  ends_with ".json" cache_key = true ->
  local_writable cond cache_key = true ->
  snd (get cond cache_key st) = Returned None ->
  comprehension listings [] = Some protocol_map ->
  local_files st' !! cache_key
  = local_files (store (cached_map (GCSCachingManager cond) cache_key
                          (HttpOk listings) st)) !! cache_key ->
  cached_map (GCSCachingManager cond') cache_key reply' st'
  = mkMapRun st' false (Returned (dict_payload protocol_map)).
Proof.
  intros Hext Hw Hmiss Hc Hsame.
  unfold cached_map in Hsame. cbn [cacher_get cacher_set GCSCachingManager] in Hsame.
  destruct (get cond cache_key st) as [st1 r1]. cbn [snd] in Hmiss. subst r1.
  rewrite Hc in Hsame.
  pose proof (set_local_file cond cache_key (dict_payload protocol_map) st1 Hw) as Hfile.
  pose proof (set_returns cond cache_key (dict_payload protocol_map) st1) as Hret.
  destruct (Cache.set cond cache_key (dict_payload protocol_map) st1) as [st2 r2].
  cbn [fst snd] in Hfile, Hret. subst r2. cbn [store] in Hsame.
  rewrite Hfile in Hsame.
  unfold cached_map. cbn [cacher_get GCSCachingManager].
  rewrite (get_local_hit cond' cache_key (dict_payload protocol_map) st' Hsame Hext).
  reflexivity.
Qed.

Lemma map_rerun_reads_cache_witness :
  let first := create_defillama_protocol_map (GCSCachingManager all_fine)
                 (HttpOk sample_listings) empty_store in
  returned first
  = Returned (dict_payload [ ("aave", JStr "aave-v3"); ("uniswap", JStr "uniswap-v3") ]%string)
  /\ create_defillama_protocol_map (GCSCachingManager (mkConditions (fun _ => false) false))
       HttpRaised (store first)
     = mkMapRun (store first) false (returned first).
Proof.
  intros first. split; [reflexivity|].
  apply (map_rerun_reads_cache all_fine (mkConditions (fun _ => false) false)
           "maps/llama_protocol_map.json" sample_listings HttpRaised
           [ ("aave", JStr "aave-v3"); ("uniswap", JStr "uniswap-v3") ]%string
           empty_store (store first)); reflexivity.
Defined.

(** X24 (a failed request is not cached). Through the GCS manager, when
    the cache misses and the request fails (a response that is not ok, an
    exception, or a listing with a [gecko_id] and no [slug] key, whose
    subscript raises), the call returns the empty map, leaves the store as
    the lookup left it, and writes nothing: the next call under the same
    conditions sends the request again.  A null [slug] is no failure: see
    [null_slug_is_cached]. *)
Theorem map_failure_is_retried (cond : Conditions) (cache_key : string)
    (reply reply' : HttpReply (list Listing)) (st : Store) :
  snd (get cond cache_key st) = Returned None ->
  request_failed reply = true ->
  let run := cached_map (GCSCachingManager cond) cache_key reply st in
  returned run = Returned (dict_payload [])
  /\ requested run = true
  /\ store run = fst (get cond cache_key st)
  /\ requested (cached_map (GCSCachingManager cond) cache_key reply' (store run)) = true.
Proof.
  intros Hmiss Hfail run.
  pose proof (get_miss_stable cond cache_key st Hmiss) as Hagain.
  assert (Hrun : run = mkMapRun (fst (get cond cache_key st)) true
                         (Returned (dict_payload []))).
  { subst run. unfold cached_map. cbn [cacher_get GCSCachingManager].
    destruct (get cond cache_key st) as [st1 r1]. cbn [snd] in Hmiss. subst r1.
    unfold request_failed in Hfail.
    destruct reply as [listings| |]; try reflexivity.
    destruct (comprehension listings []); [discriminate Hfail|reflexivity]. }
  rewrite Hrun. cbn [returned requested store]. repeat split.
  unfold cached_map. cbn [cacher_get cacher_set GCSCachingManager].
  destruct (get cond cache_key (fst (get cond cache_key st))) as [st2 r2].
  cbn [snd] in Hagain. subst r2.
  destruct reply' as [listings| |]; try reflexivity.
  destruct (comprehension listings []); [|reflexivity].
  destruct (Cache.set cond cache_key _ st2) as [st3 [[]|]]; reflexivity.
Qed.

Lemma map_failure_is_retried_witness :
  let run := get_all_chains_map (GCSCachingManager all_fine) HttpNotOk empty_store in
  returned run = Returned (dict_payload [])
  /\ store run = empty_store
  /\ requested (get_all_chains_map (GCSCachingManager all_fine)
                  (HttpOk sample_listings) (store run)) = true.
Proof.
  intros run.
  pose proof (map_failure_is_retried all_fine "maps/llama_chain_map.json"
                HttpNotOk (HttpOk sample_listings) empty_store eq_refl eq_refl)
    as (H1 & _ & H3 & H4).
  split; [exact H1|]. split; [exact H3|exact H4].
Defined.

End LlamaMapsFacts.
